(** * AI-Chatbot: knowledge matching and session lifecycle

    A shallow embedding of [services/__init__.py] (classes [ChatbotEngine],
    [ChatService], [AgentService]), of the routes of
    [controllers/__init__.py] that write, and of [register] and
    [create_sample_data] of [app.py], together with the properties that the
    specification states about them.

    Conventions.
    - Python [str] is [string]; the integer keys of the tables are [nat];
      a time stamp is a [Z] read from the clock and passed to the operation
      that stores it ([db.func.now()] and the column defaults).
    - A Python [float] is a binary64 number.  Where a property does not
      depend on the value of a similarity, the similarity is a real number
      of [R], computed in exact arithmetic; where it does, the computation
      is taken with a rounding after every operation ([Binary64]).
    - Requests that run concurrently are interleaved between the statements
      of the source: another request can read the engine between any two
      assignments of a method.
    - The instance attributes of the engine singleton are optional: [None]
      at an attribute means that it has not been assigned yet, and reading it
      raises [AttributeError].
    - A call that can raise returns a [result]; a method of the engine is a
      state transformer over the attributes ([Py]). *)

From Stdlib Require Import List String Ascii Arith ZArith Lia Bool.
From Stdlib Require Import Reals Lra.
From Stdlib Require Import Permutation Sorted.
From Stdlib Require PrimFloat Uint63.
Import ListNotations.

(** ** Exceptions and results *)

Inductive exn : Type :=
| AttributeError
| ValueError
| NotFittedError
| IndexError
| NameError.

Inductive result (A : Type) : Type :=
| Ok (a : A)
| Raised (e : exn).

Arguments Ok {A} a.
Arguments Raised {A} e.

(** ** numpy: [np.max] and [np.argmax] on a flat array of floats *)

Module Np.

Fixpoint max_from (best : R) (a : list R) : R :=
  match a with
  | [] => best
  | x :: a' => max_from (if Rlt_dec best x then x else best) a'
  end.

(** [np.max(a)]; raises [ValueError] on an empty array. *)
Definition max (a : list R) : result R :=
  match a with
  | [] => Raised ValueError
  | x :: a' => Ok (max_from x a')
  end.

(** Index scan of [np.argmax]: a later element replaces the current best
    only when it is strictly greater, so the first maximum wins. *)
Fixpoint argmax_from (best : R) (besti i : nat) (a : list R) : nat :=
  match a with
  | [] => besti
  | x :: a' =>
      if Rlt_dec best x then argmax_from x i (S i) a'
      else argmax_from best besti (S i) a'
  end.

Definition argmax (a : list R) : result nat :=
  match a with
  | [] => Raised ValueError
  | x :: a' => Ok (argmax_from x 0 1 a')
  end.

End Np.

(** ** scikit-learn: [TfidfVectorizer] and [cosine_similarity]

    The library is not part of the repository.  Its operations are modelled
    from sections 4.1 and 4.2 of the specification, for the arguments that
    [ChatbotEngine] passes: [max_features=1000], [stop_words='english'],
    [ngram_range=(1, 2)], and the defaults otherwise (lower-casing, tokens of
    two word characters or more, raw term counts, smoothed IDF, L2 norm).
    Texts are read as ASCII. *)

Module Sklearn.

Definition matrix : Type := list (list R).

(** *** The analyzer of [TfidfVectorizer(stop_words='english', ngram_range=(1, 2))] *)

Definition is_upper (c : ascii) : bool :=
  let n := nat_of_ascii c in (65 <=? n) && (n <=? 90).

Definition lower_char (c : ascii) : ascii :=
  if is_upper c then ascii_of_nat (nat_of_ascii c + 32) else c.

Fixpoint lower (s : string) : string :=
  match s with
  | EmptyString => EmptyString
  | String c s' => String (lower_char c) (lower s')
  end.

(** [\w] on ASCII text: letters, digits and the underscore. *)
Definition is_word_char (c : ascii) : bool :=
  let n := nat_of_ascii c in
  ((48 <=? n) && (n <=? 57)) || ((65 <=? n) && (n <=? 90))
  || (n =? 95) || ((97 <=? n) && (n <=? 122)).

(** Maximal runs of word characters, in order. *)
Fixpoint split_words (cur : string) (s : string) : list string :=
  match s with
  | EmptyString => [cur]
  | String c s' =>
      if is_word_char c then split_words (cur ++ String c EmptyString) s'
      else cur :: split_words EmptyString s'
  end.

(** The default [token_pattern], [\b\w\w+\b]: words of two characters or more. *)
Definition tokenize (s : string) : list string :=
  filter (fun w => 2 <=? String.length w) (split_words EmptyString s).

Definition remove_stop_words (stop_words : list string) (tokens : list string)
  : list string :=
  filter (fun w => negb (existsb (String.eqb w) stop_words)) tokens.

Fixpoint bigrams (tokens : list string) : list string :=
  match tokens with
  | a :: ((b :: _) as rest) => (a ++ " " ++ b)%string :: bigrams rest
  | _ => []
  end.

(** [ngram_range=(1, 2)]: the unigrams, then the bigrams of the tokens that
    are left after the stop words are removed. *)
Definition word_ngrams (tokens : list string) : list string :=
  tokens ++ bigrams tokens.

Definition build_analyzer (stop_words : list string) (doc : string)
  : list string :=
  word_ngrams (remove_stop_words stop_words (tokenize (lower doc))).

(** The list that [stop_words='english'] selects. *)
Definition ENGLISH_STOP_WORDS : list string :=
  ["a"; "about"; "above"; "across"; "after"; "afterwards"; "again";
   "against"; "all"; "almost"; "alone"; "along"; "already"; "also";
   "although"; "always"; "am"; "among"; "amongst"; "amoungst"; "amount";
   "an"; "and"; "another"; "any"; "anyhow"; "anyone"; "anything"; "anyway";
   "anywhere"; "are"; "around"; "as"; "at"; "back"; "be"; "became";
   "because"; "become"; "becomes"; "becoming"; "been"; "before";
   "beforehand"; "behind"; "being"; "below"; "beside"; "besides";
   "between"; "beyond"; "bill"; "both"; "bottom"; "but"; "by"; "call";
   "can"; "cannot"; "cant"; "co"; "con"; "could"; "couldnt"; "cry"; "de";
   "describe"; "detail"; "do"; "done"; "down"; "due"; "during"; "each";
   "eg"; "eight"; "either"; "eleven"; "else"; "elsewhere"; "empty";
   "enough"; "etc"; "even"; "ever"; "every"; "everyone"; "everything";
   "everywhere"; "except"; "few"; "fifteen"; "fifty"; "fill"; "find";
   "fire"; "first"; "five"; "for"; "former"; "formerly"; "forty"; "found";
   "four"; "from"; "front"; "full"; "further"; "get"; "give"; "go"; "had";
   "has"; "hasnt"; "have"; "he"; "hence"; "her"; "here"; "hereafter";
   "hereby"; "herein"; "hereupon"; "hers"; "herself"; "him"; "himself";
   "his"; "how"; "however"; "hundred"; "i"; "ie"; "if"; "in"; "inc";
   "indeed"; "interest"; "into"; "is"; "it"; "its"; "itself"; "keep";
   "last"; "latter"; "latterly"; "least"; "less"; "ltd"; "made"; "many";
   "may"; "me"; "meanwhile"; "might"; "mill"; "mine"; "more"; "moreover";
   "most"; "mostly"; "move"; "much"; "must"; "my"; "myself"; "name";
   "namely"; "neither"; "never"; "nevertheless"; "next"; "nine"; "no";
   "nobody"; "none"; "noone"; "nor"; "not"; "nothing"; "now"; "nowhere";
   "of"; "off"; "often"; "on"; "once"; "one"; "only"; "onto"; "or";
   "other"; "others"; "otherwise"; "our"; "ours"; "ourselves"; "out";
   "over"; "own"; "part"; "per"; "perhaps"; "please"; "put"; "rather";
   "re"; "same"; "see"; "seem"; "seemed"; "seeming"; "seems"; "serious";
   "several"; "she"; "should"; "show"; "side"; "since"; "sincere"; "six";
   "sixty"; "so"; "some"; "somehow"; "someone"; "something"; "sometime";
   "sometimes"; "somewhere"; "still"; "such"; "system"; "take"; "ten";
   "than"; "that"; "the"; "their"; "them"; "themselves"; "then"; "thence";
   "there"; "thereafter"; "thereby"; "therefore"; "therein"; "thereupon";
   "these"; "they"; "thick"; "thin"; "third"; "this"; "those"; "though";
   "three"; "through"; "throughout"; "thru"; "thus"; "to"; "together";
   "too"; "top"; "toward"; "towards"; "twelve"; "twenty"; "two"; "un";
   "under"; "until"; "up"; "upon"; "us"; "very"; "via"; "was"; "we";
   "well"; "were"; "what"; "whatever"; "when"; "whence"; "whenever";
   "where"; "whereafter"; "whereas"; "whereby"; "wherein"; "whereupon";
   "wherever"; "whether"; "which"; "while"; "whither"; "who"; "whoever";
   "whole"; "whom"; "whose"; "why"; "will"; "with"; "within"; "without";
   "would"; "yet"; "you"; "your"; "yours"; "yourself";
   "yourselves"]%string.

Definition english_analyzer : string -> list string :=
  build_analyzer ENGLISH_STOP_WORDS.

(** *** Fitting: vocabulary and inverse document frequencies *)

Section Vectorizer.

(** The analyzer the vectorizer was configured with. *)
Variable analyzer : string -> list string.

Definition count (terms : list string) (t : string) : nat :=
  count_occ string_dec terms t.

Fixpoint insert_term (t : string) (sorted : list string) : list string :=
  match sorted with
  | [] => [t]
  | u :: rest =>
      match String.compare t u with
      | Lt => t :: sorted
      | Eq => sorted
      | Gt => u :: insert_term t rest
      end
  end.

(** The distinct terms in alphabetical order. *)
Definition sorted_terms (terms : list string) : list string :=
  fold_right insert_term [] terms.

Definition term_frequency (docs : list (list string)) (t : string) : nat :=
  list_sum (map (fun d => count d t) docs).

(** Number of terms ranked before [t] when the terms are ordered by
    decreasing corpus frequency, alphabetical order deciding ties.  (The
    library leaves the order among equally frequent terms to its sort; no
    property below depends on it.) *)
Definition rank (docs : list (list string)) (vocab : list string)
           (t : string) : nat :=
  List.length
    (filter (fun u =>
               (term_frequency docs t <? term_frequency docs u)
               || ((term_frequency docs u =? term_frequency docs t)
                   && String.ltb u t))
            vocab).

(** [max_features]: keep the most frequent terms when there are more
    than [max_features] of them. *)
Definition limit_features (max_features : nat) (docs : list (list string))
           (vocab : list string) : list string :=
  if List.length vocab <=? max_features then vocab
  else filter (fun t => rank docs vocab t <? max_features) vocab.

Definition vocabulary (max_features : nat) (docs : list (list string))
  : list string :=
  limit_features max_features docs (sorted_terms (List.concat docs)).

(** [df(t)]: number of documents that contain [t]. *)
Definition document_frequency (docs : list (list string)) (t : string)
  : nat :=
  List.length (filter (fun d => existsb (String.eqb t) d) docs).

(** Modelled from the spec: the smoothed inverse document frequency of
    section 4.1, [idf(t) = ln((1 + D) / (1 + df(t))) + 1]. *)
Definition idf (docs : list (list string)) (t : string) : R :=
  (ln ((1 + INR (List.length docs))
       / (1 + INR (document_frequency docs t))) + 1)%R.

(** What fitting stores in the vectorizer. *)
Record Fitted : Type := mkFitted {
  vocabulary_ : list string;
  idf_ : list R
}.

(** A vectorizer is [None] between its construction and [fit]. *)
Definition TfidfVectorizer : Type := option Fitted.

(** Modelled from the spec: [TfidfVectorizer.fit] as section 4.1 describes
    the construction of the index (vocabulary of the most frequent terms,
    one IDF weight per term).  The library raises [ValueError] when the
    vocabulary is empty. *)
Definition fit (max_features : nat) (raw_documents : list string)
  : result Fitted :=
  let docs := map analyzer raw_documents in
  match vocabulary max_features docs with
  | [] => Raised ValueError
  | vocab => Ok (mkFitted vocab (map (idf docs) vocab))
  end.

(** *** Transforming: weighted, L2-normalised rows *)

Fixpoint sum_sq (row : list R) : R :=
  match row with
  | [] => 0%R
  | x :: row' => (x * x + sum_sq row')%R
  end.

Fixpoint dot (x y : list R) : R :=
  match x, y with
  | a :: x', b :: y' => (a * b + dot x' y')%R
  | _, _ => 0%R
  end.

(** Modelled from the spec: the L2 normalisation of sections 4.1 and 4.2;
    a row of norm zero is left as it is. *)
Definition l2_normalize (row : list R) : list R :=
  let norm := sqrt (sum_sq row) in
  if Req_dec_T norm 0%R then row
  else map (fun x => (x / norm)%R) row.

(** Modelled from the spec: tf x idf over the fixed vocabulary (section
    4.1); terms outside the vocabulary weigh nothing (section 4.2). *)
Definition tfidf_row (v : Fitted) (terms : list string) : list R :=
  map (fun '(t, w) => (INR (count terms t) * w)%R)
      (combine (vocabulary_ v) (idf_ v)).

Definition transform_fitted (v : Fitted) (raw_documents : list string)
  : matrix :=
  map (fun d => l2_normalize (tfidf_row v (analyzer d))) raw_documents.

(** [vectorizer.transform]: raises [NotFittedError] before [fit]. *)
Definition transform (vec : TfidfVectorizer) (raw_documents : list string)
  : result matrix :=
  match vec with
  | None => Raised NotFittedError
  | Some v => Ok (transform_fitted v raw_documents)
  end.

(** Modelled from the spec: the cosine similarity of the glossary, the dot
    product of two L2-normalised rows.  [cosine_similarity] normalises the
    rows it is given once more. *)
Definition cosine (x y : list R) : R :=
  dot (l2_normalize x) (l2_normalize y).

(** [cosine_similarity(X, Y)]: every row of [X] against every row of [Y]. *)
Definition cosine_similarity (X Y : matrix) : matrix :=
  map (fun x => map (cosine x) Y) X.

(** Rows without a negative weight. *)
Definition nonneg (row : list R) : Prop :=
  Forall (fun x => (0 <= x)%R) row.

End Vectorizer.

End Sklearn.

(** ** models.py

    [models.py] is not among the sources.  The columns are those of section 3
    of the specification, under the names by which the services and the
    controllers read and write them. *)

(** Modelled from the spec: the three values of the [status] column,
    ['active'], ['escalated'] and ['closed']. *)
Inductive Status : Type :=
| active
| escalated
| closed.

Definition Status_eqb (a b : Status) : bool :=
  match a, b with
  | active, active | escalated, escalated | closed, closed => true
  | _, _ => false
  end.

(** Modelled from the spec: the values of [message_type], ['user'], ['bot']
    and ['agent']. *)
Inductive MessageType : Type :=
| user
| bot
| agent.

Module KnowledgeBase.
(** Modelled from the spec: the model class [KnowledgeBase] (KnowledgeEntry
    of section 3). *)
Record t : Type := mk {
  id : nat;
  question : string;
  answer : string;
  category : string;
  tags : string;
  is_active : bool
}.
End KnowledgeBase.

Module ChatSession.
(** Modelled from the spec: the model class [ChatSession]; [session_id] is
    the token and [id] the key of the row. *)
Record t : Type := mk {
  id : nat;
  user_id : nat;
  session_id : string;
  status : Status;
  created_at : Z;
  escalated_at : option Z;
  closed_at : option Z
}.
End ChatSession.

Module ChatMessage.
(** Modelled from the spec: the model class [ChatMessage]; [session_id] is
    the key of the session the message belongs to. *)
Record t : Type := mk {
  id : nat;
  session_id : nat;
  message_type : MessageType;
  content : string;
  timestamp : Z;
  is_escalation_trigger : bool
}.
End ChatMessage.

(** The committed content of the tables, rows in insertion order. *)
Record Database : Type := mkDatabase {
  knowledge_base : list KnowledgeBase.t;
  chat_sessions : list ChatSession.t;
  chat_messages : list ChatMessage.t
}.

(** ** class ChatbotEngine *)

Section Engine.

(** The analyzer of the engine's vectorizer; [Sklearn.english_analyzer] in
    the running program. *)
Variable analyzer : string -> list string.

(** [max_features=1000] *)
Definition max_features : nat := 1000.

Record ChatbotEngine : Type := mkEngine {
  vectorizer : option Sklearn.TfidfVectorizer;
  knowledge_vectors : option (option Sklearn.matrix);
  questions : option (list string);
  answers : option (list string)
}.

(** What [__new__] returns the first time: an instance without attributes. *)
Definition new_instance : ChatbotEngine := mkEngine None None None None.

(** A method body: reads and assigns attributes of [self], returns or raises. *)
Definition Py (A : Type) : Type := ChatbotEngine -> result A * ChatbotEngine.

Definition ret {A : Type} (a : A) : Py A := fun self => (Ok a, self).

Definition raise {A : Type} (e : exn) : Py A := fun self => (Raised e, self).

Definition bind {A B : Type} (m : Py A) (k : A -> Py B) : Py B :=
  fun self =>
    match m self with
    | (Ok a, self') => k a self'
    | (Raised e, self') => (Raised e, self')
    end.

Definition lift {A : Type} (r : result A) : Py A := fun self => (r, self).

Definition getattr {A : Type} (attribute : ChatbotEngine -> option A) : Py A :=
  fun self =>
    match attribute self with
    | Some a => (Ok a, self)
    | None => (Raised AttributeError, self)
    end.

Definition set_vectorizer (v : Sklearn.TfidfVectorizer) : Py unit :=
  fun self =>
    (Ok tt, mkEngine (Some v) (knowledge_vectors self) (questions self)
                     (answers self)).

Definition set_knowledge_vectors (X : option Sklearn.matrix) : Py unit :=
  fun self =>
    (Ok tt, mkEngine (vectorizer self) (Some X) (questions self)
                     (answers self)).

Definition set_questions (qs : list string) : Py unit :=
  fun self =>
    (Ok tt, mkEngine (vectorizer self) (knowledge_vectors self) (Some qs)
                     (answers self)).

Definition set_answers (ans : list string) : Py unit :=
  fun self =>
    (Ok tt, mkEngine (vectorizer self) (knowledge_vectors self)
                     (questions self) (Some ans)).

Notation "x <- m ;; k" := (bind m (fun x => k))
  (at level 61, m at next level, right associativity).
Notation "m ;; k" := (bind m (fun _ => k))
  (at level 61, right associativity).

Definition fallback_questions : list string :=
  ["hello"; "hi"; "greetings"]%string.

Definition fallback_answers : list string :=
  ["Hello! How can I help you today?";
   "Hi there! What can I assist you with?";
   "Greetings! How may I be of service?"]%string.

(** [self.vectorizer.fit_transform(raw_documents)]: fits the vectorizer in
    place and returns the rows of the documents. *)
Definition vectorizer_fit_transform (raw_documents : list string)
  : Py Sklearn.matrix :=
  _ <- getattr vectorizer ;;
  v <- lift (Sklearn.fit analyzer max_features raw_documents) ;;
  set_vectorizer (Some v) ;;
  ret (Sklearn.transform_fitted analyzer v raw_documents).

(** [kb] is the content of the knowledge table when the method runs. *)
Definition _load_knowledge_base (kb : list KnowledgeBase.t) : Py unit :=
  let knowledge_items := filter KnowledgeBase.is_active kb in
  match knowledge_items with
  | [] =>
      set_questions fallback_questions ;;
      set_answers fallback_answers
  | _ =>
      set_questions (map KnowledgeBase.question knowledge_items) ;;
      set_answers (map KnowledgeBase.answer knowledge_items)
  end ;;
  qs <- getattr questions ;;
  match qs with
  | [] => ret tt
  | _ =>
      X <- vectorizer_fit_transform qs ;;
      set_knowledge_vectors (Some X)
  end.

Definition _initialize (kb : list KnowledgeBase.t) : Py unit :=
  set_vectorizer None ;;
  set_knowledge_vectors None ;;
  set_questions [] ;;
  set_answers [] ;;
  _load_knowledge_base kb.

Definition still_learning_message : string :=
  "I'm still learning. Please contact a human agent for assistance.".

Definition handoff_message : string :=
  "I'm not sure I understand. Let me connect you with a human agent who can help.".

(** [threshold=0.3] *)
Definition default_threshold : R := (3 / 10)%R.

(** The row of similarities between the input and every knowledge vector. *)
Definition similarities_of (input_vector K : Sklearn.matrix) : list R :=
  List.concat (Sklearn.cosine_similarity input_vector K).

Definition get_response (kb : list KnowledgeBase.t) (user_input : string)
           (threshold : R) : Py (string * R * bool) :=
  kv <- getattr knowledge_vectors ;;
  match kv with
  | None => _initialize kb
  | Some _ => ret tt
  end ;;
  qs <- getattr questions ;;
  match qs with
  | [] => ret (still_learning_message, 0%R, true)
  | _ =>
      kv <- getattr knowledge_vectors ;;
      match kv with
      | None => ret (still_learning_message, 0%R, true)
      | Some K =>
          vec <- getattr vectorizer ;;
          input_vector <- lift (Sklearn.transform analyzer vec [user_input]) ;;
          let similarities := similarities_of input_vector K in
          max_similarity <- lift (Np.max similarities) ;;
          best_match_idx <- lift (Np.argmax similarities) ;;
          if Rge_dec max_similarity threshold then
            ans <- getattr answers ;;
            match nth_error ans best_match_idx with
            | Some a => ret (a, max_similarity, false)
            | None => raise IndexError
            end
          else ret (handoff_message, max_similarity, true)
      end
  end.

Definition retrain_model (kb : list KnowledgeBase.t) : Py unit :=
  _initialize kb.

(** *** The statements of a rebuild, one by one

    [_initialize] followed by [_load_knowledge_base], as the list of the
    assignments they execute in program order.  Another request can read
    the engine between any two of them. *)
Definition load_statements (kb : list KnowledgeBase.t) : list (Py unit) :=
  let knowledge_items := filter KnowledgeBase.is_active kb in
  match knowledge_items with
  | [] => [set_questions fallback_questions; set_answers fallback_answers]
  | _ => [set_questions (map KnowledgeBase.question knowledge_items);
          set_answers (map KnowledgeBase.answer knowledge_items)]
  end
  ++ [qs <- getattr questions ;;
      match qs with
      | [] => ret tt
      | _ => X <- vectorizer_fit_transform qs ;; set_knowledge_vectors (Some X)
      end].

Definition initialize_statements (kb : list KnowledgeBase.t)
  : list (Py unit) :=
  [set_vectorizer None; set_knowledge_vectors None; set_questions [];
   set_answers []] ++ load_statements kb.

Fixpoint run_statements (stmts : list (Py unit)) : Py unit :=
  match stmts with
  | [] => ret tt
  | s :: rest => s ;; run_statements rest
  end.

(** The engine after the first [k] statements of a rebuild that started
    in [self]. *)
Definition during_rebuild (kb : list KnowledgeBase.t) (k : nat)
           (self : ChatbotEngine) : ChatbotEngine :=
  snd (run_statements (firstn k (initialize_statements kb)) self).

(** The questions and the answers that a build loads from the table. *)
Definition loaded_questions (kb : list KnowledgeBase.t) : list string :=
  match filter KnowledgeBase.is_active kb with
  | [] => fallback_questions
  | knowledge_items => map KnowledgeBase.question knowledge_items
  end.

Definition loaded_answers (kb : list KnowledgeBase.t) : list string :=
  match filter KnowledgeBase.is_active kb with
  | [] => fallback_answers
  | knowledge_items => map KnowledgeBase.answer knowledge_items
  end.

(** The similarity that [get_response] computes between the input and the
    entry whose question is [entry_question], under the fitted [v]. *)
Definition entry_similarity (v : Sklearn.Fitted) (user_input : string)
           (entry_question : string) : R :=
  Sklearn.cosine
    (Sklearn.l2_normalize (Sklearn.tfidf_row v (analyzer user_input)))
    (Sklearn.l2_normalize (Sklearn.tfidf_row v (analyzer entry_question))).

(** An engine all of whose parts come from one fit of the questions [qs]. *)
Definition index_of (v : Sklearn.Fitted) (qs ans : list string)
  : ChatbotEngine :=
  mkEngine (Some (Some v))
           (Some (Some (Sklearn.transform_fitted analyzer v qs)))
           (Some qs) (Some ans).

(** An index that a build has installed: the engine that a successful
    [_initialize] leaves. *)
Definition installed (self : ChatbotEngine) : Prop :=
  exists kb self0, _initialize kb self0 = (Ok tt, self).

(** *** Query as the specification words it

    Section 4.2: the answer of the best match when the best similarity
    reaches the threshold, otherwise the fallback message that the caller
    passed in. *)
Definition Query_spec (fallback : string) (answers : list string)
           (similarities : list R) (threshold : R)
  : result (string * R * bool) :=
  match Np.max similarities, Np.argmax similarities with
  | Ok m, Ok i =>
      if Rge_dec m threshold then
        match nth_error answers i with
        | Some a => Ok (a, m, false)
        | None => Raised IndexError
        end
      else Ok (fallback, m, true)
  | _, _ => Ok (fallback, 0%R, true)
  end.

End Engine.

(** ** The similarity in binary64

    A Python [float] is a binary64 number, and the library rounds after every
    operation.  The kernel of the similarity (weights, norms, products) is
    written once over the arithmetic it runs in:
    - [binary64], the binary64 numbers and their operations themselves;
    - [rounded fl], real arithmetic in which every operation is followed by
      the rounding [fl]; a rounding is [faithful] when its relative error is
      at most [unit_roundoff = 2^-53], as that of binary64 is as long as
      nothing overflows or underflows;
    - [exact], without rounding, as in [Sklearn] above.
    Sums are accumulated from zero in the order of the vocabulary. *)

Module Binary64.

Record Arithmetic (F : Type) : Type := mkArithmetic {
  zero : F;
  of_nat : nat -> F;
  add : F -> F -> F;
  mul : F -> F -> F;
  div : F -> F -> F;
  sqrt : F -> F;
  is_zero : F -> bool
}.

Arguments zero {F} _.
Arguments of_nat {F} _ _.
Arguments add {F} _ _ _.
Arguments mul {F} _ _ _.
Arguments div {F} _ _ _.
Arguments sqrt {F} _ _.
Arguments is_zero {F} _ _.

Definition binary64 : Arithmetic PrimFloat.float :=
  mkArithmetic PrimFloat.float
    PrimFloat.zero
    (fun n => PrimFloat.of_uint63 (Uint63.of_Z (Z.of_nat n)))
    PrimFloat.add PrimFloat.mul PrimFloat.div PrimFloat.sqrt
    (fun x => PrimFloat.eqb x PrimFloat.zero).

Definition rounded (fl : R -> R) : Arithmetic R :=
  mkArithmetic R
    0%R
    (fun n => fl (INR n))
    (fun x y => fl (x + y)%R)
    (fun x y => fl (x * y)%R)
    (fun x y => fl (x / y)%R)
    (fun x => fl (R_sqrt.sqrt x))
    (fun x => if Req_dec_T x 0%R then true else false).

Definition exact : Arithmetic R := rounded (fun x => x).

(** The unit roundoff of binary64, and the roundings that stay within it. *)
Definition unit_roundoff : R := (/ 2 ^ 53)%R.

Definition faithful (fl : R -> R) : Prop :=
  forall x : R, (Rabs (fl x - x) <= unit_roundoff * Rabs x)%R.

(** A rounding that is always off by the unit roundoff, away from zero. *)
Definition round_away (x : R) : R := (x * (1 + unit_roundoff))%R.

Section Kernel.

Context {F : Type}.
Variable A : Arithmetic F.

Definition sum_sq (row : list F) : F :=
  fold_left (fun s x => add A s (mul A x x)) row (zero A).

Definition dot (x y : list F) : F :=
  fold_left (fun s p => add A s (mul A (fst p) (snd p))) (combine x y)
            (zero A).

Definition l2_normalize (row : list F) : list F :=
  let norm := sqrt A (sum_sq row) in
  if is_zero A norm then row
  else map (fun x => div A x norm) row.

Definition tfidf_row (vocabulary : list string) (idf : list F)
           (terms : list string) : list F :=
  map (fun '(t, w) => mul A (of_nat A (Sklearn.count terms t)) w)
      (combine vocabulary idf).

Definition cosine (x y : list F) : F :=
  dot (l2_normalize x) (l2_normalize y).

Variable analyzer : string -> list string.

(** The similarity that [get_response] computes between the input and the
    entry with the question [entry_question]: both rows were normalised by
    the vectorizer, and [cosine_similarity] normalises them once more. *)
Definition entry_similarity (vocabulary : list string) (idf : list F)
           (user_input entry_question : string) : F :=
  cosine
    (l2_normalize (tfidf_row vocabulary idf (analyzer user_input)))
    (l2_normalize (tfidf_row vocabulary idf (analyzer entry_question))).

End Kernel.

(** Lines 59 to 70 of [get_response], for an index with the terms and
    weights [v], the questions [qs] and the answers [ans], in the
    arithmetic [A]. *)
Definition get_response (A : Arithmetic R) (analyzer : string -> list string)
           (v : Sklearn.Fitted) (qs ans : list string) (user_input : string)
           (threshold : R) : result (string * R * bool) :=
  let similarities :=
    map (entry_similarity A analyzer (Sklearn.vocabulary_ v) (Sklearn.idf_ v)
                          user_input) qs in
  match Np.max similarities with
  | Raised e => Raised e
  | Ok max_similarity =>
      match Np.argmax similarities with
      | Raised e => Raised e
      | Ok best_match_idx =>
          if Rge_dec max_similarity threshold then
            match nth_error ans best_match_idx with
            | Some a => Ok (a, max_similarity, false)
            | None => Raised IndexError
            end
          else Ok (handoff_message, max_similarity, true)
      end
  end.

(** What rounding can add to or take from a similarity of an index with at
    most [max_features] terms. *)
Definition rounding_slack : R := (/ 10 ^ 12)%R.

(** The weights of an index: one positive weight for every term, at most
    [max_features] terms. *)
Definition well_formed (v : Sklearn.Fitted) : Prop :=
  List.length (Sklearn.idf_ v) = List.length (Sklearn.vocabulary_ v)
  /\ (List.length (Sklearn.vocabulary_ v) <= max_features)%nat
  /\ Forall (fun w => (0 < w)%R) (Sklearn.idf_ v).

End Binary64.

(** ** The services *)

Section Services.

Variable analyzer : string -> list string.

(** The committed tables and the engine singleton that every service and
    controller shares. *)
Record World : Type := mkWorld {
  db : Database;
  chatbot : ChatbotEngine
}.

(** [query.filter_by(...).first()] and [query.get(...)]: the position and
    the row of the first match. *)
Fixpoint first_from {A : Type} (p : A -> bool) (i : nat) (rows : list A)
  : option (nat * A) :=
  match rows with
  | [] => None
  | r :: rows' => if p r then Some (i, r) else first_from p (S i) rows'
  end.

Definition first {A : Type} (p : A -> bool) (rows : list A)
  : option (nat * A) :=
  first_from p 0 rows.

(** Writes a changed row back where it was loaded from. *)
Fixpoint update_row {A : Type} (i : nat) (r : A) (rows : list A) : list A :=
  match rows, i with
  | [], _ => []
  | _ :: rows', O => r :: rows'
  | r0 :: rows', S i' => r0 :: update_row i' r rows'
  end.

(** The key of the next inserted row. *)
Definition next_id {A : Type} (rows : list A) : nat := S (List.length rows).

(** *** class ChatService *)

Definition welcome_message : string := "Hi! How may I help you?".

(** [token] is the value that [uuid.uuid4()] draws. *)
Definition start_chat_session (w : World) (user_id : nat) (token : string)
           (now : Z) : ChatSession.t * World :=
  let d := db w in
  let session :=
    ChatSession.mk (next_id (chat_sessions d)) user_id token active now
                   None None in
  let welcome_msg :=
    ChatMessage.mk (next_id (chat_messages d)) (ChatSession.id session) bot
                   welcome_message now false in
  (session,
   mkWorld (mkDatabase (knowledge_base d) (chat_sessions d ++ [session])
                       (chat_messages d ++ [welcome_msg]))
           (chatbot w)).

(** The dictionary that [send_message] returns. *)
Record Reply : Type := mkReply {
  user_message : string;
  bot_response : string;
  similarity : R;
  needs_escalation : bool;
  session_status : Status
}.

Definition owned_by (session_id : string) (user_id : nat)
           (s : ChatSession.t) : bool :=
  String.eqb (ChatSession.session_id s) session_id
  && Nat.eqb (ChatSession.user_id s) user_id.

(** [Ok None] is the [None] that the method returns for an unknown
    session; an exception of the engine leaves nothing committed. *)
Definition send_message (w : World) (session_id : string) (user_id : nat)
           (message : string) (now : Z) : result (option Reply) * World :=
  let d := db w in
  match first (owned_by session_id user_id) (chat_sessions d) with
  | None => (Ok None, w)
  | Some (i, session) =>
      let user_msg :=
        ChatMessage.mk (next_id (chat_messages d)) (ChatSession.id session)
                       user message now false in
      match get_response analyzer (knowledge_base d) message
                         default_threshold (chatbot w) with
      | (Raised e, engine') => (Raised e, mkWorld d engine')
      | (Ok (response, sim, escalate), engine') =>
          let bot_msg :=
            ChatMessage.mk (S (next_id (chat_messages d)))
                           (ChatSession.id session) bot response now
                           escalate in
          let session' :=
            if escalate && Status_eqb (ChatSession.status session) active
            then ChatSession.mk (ChatSession.id session)
                                (ChatSession.user_id session)
                                (ChatSession.session_id session)
                                escalated
                                (ChatSession.created_at session)
                                (Some now)
                                (ChatSession.closed_at session)
            else session in
          (Ok (Some (mkReply message response sim escalate
                             (ChatSession.status session'))),
           mkWorld (mkDatabase (knowledge_base d)
                               (update_row i session' (chat_sessions d))
                               (chat_messages d ++ [user_msg; bot_msg]))
                   engine')
      end
  end.

(** *** class AgentService *)

Definition has_id (session_id : nat) (s : ChatSession.t) : bool :=
  Nat.eqb (ChatSession.id s) session_id.

Definition send_agent_message (w : World) (session_id : nat)
           (message : string) (agent_id : nat) (now : Z) : bool * World :=
  let d := db w in
  match first (has_id session_id) (chat_sessions d) with
  | None => (false, w)
  | Some (_, session) =>
      if negb (Status_eqb (ChatSession.status session) escalated)
      then (false, w)
      else
        let agent_msg :=
          ChatMessage.mk (next_id (chat_messages d)) session_id agent
                         message now false in
        (true,
         mkWorld (mkDatabase (knowledge_base d) (chat_sessions d)
                             (chat_messages d ++ [agent_msg]))
                 (chatbot w))
  end.

Definition close_session (w : World) (session_id : nat) (now : Z)
  : bool * World :=
  let d := db w in
  match first (has_id session_id) (chat_sessions d) with
  | Some (i, session) =>
      let session' :=
        ChatSession.mk (ChatSession.id session)
                       (ChatSession.user_id session)
                       (ChatSession.session_id session)
                       closed
                       (ChatSession.created_at session)
                       (ChatSession.escalated_at session)
                       (Some now) in
      (true,
       mkWorld (mkDatabase (knowledge_base d)
                           (update_row i session' (chat_sessions d))
                           (chat_messages d))
               (chatbot w))
  | None => (false, w)
  end.

(** *** Sequences of calls *)

Inductive Call : Type :=
| HandleUserMessage (session_id : string) (user_id : nat) (message : string)
                    (now : Z)
| CloseSession (session_id : nat) (now : Z).

Definition step (w : World) (c : Call) : World :=
  match c with
  | HandleUserMessage session_id user_id message now =>
      snd (send_message w session_id user_id message now)
  | CloseSession session_id now => snd (close_session w session_id now)
  end.

Definition run (calls : list Call) (w : World) : World :=
  fold_left step calls w.

Definition is_HandleUserMessage (c : Call) : Prop :=
  match c with
  | HandleUserMessage _ _ _ _ => True
  | CloseSession _ _ => False
  end.

(** The row at position [i] of the session table. *)
Definition session_at (w : World) (i : nat) : option ChatSession.t :=
  nth_error (chat_sessions (db w)) i.

End Services.

(** ** The read paths of the services, and sequences of operations *)

(** [order_by]: the rows by increasing key.  Rows with equal keys stay in
    the order of the table; SQL leaves that order open, and the properties
    below do not depend on it. *)
Fixpoint insert_by {A : Type} (le : A -> A -> bool) (x : A) (sorted : list A)
  : list A :=
  match sorted with
  | [] => [x]
  | y :: rest => if le x y then x :: sorted else y :: insert_by le x rest
  end.

Definition order_by {A : Type} (le : A -> A -> bool) (rows : list A) : list A :=
  fold_right (insert_by le) [] rows.

Definition timestamp_le (a b : ChatMessage.t) : bool :=
  Z.leb (ChatMessage.timestamp a) (ChatMessage.timestamp b).

(** [order_by(ChatSession.escalated_at)]; rows without a time come first. *)
Definition escalated_at_le (a b : ChatSession.t) : bool :=
  match ChatSession.escalated_at a, ChatSession.escalated_at b with
  | None, _ => true
  | Some _, None => false
  | Some x, Some y => Z.leb x y
  end.

Definition of_session (session_id : nat) (m : ChatMessage.t) : bool :=
  Nat.eqb (ChatMessage.session_id m) session_id.

Module HistoryEntry.
(** The dictionary that [get_chat_history] builds for a message; the time is
    kept as it is instead of its ISO text. *)
Record t : Type := mk {
  type_ : MessageType;
  content : string;
  timestamp : Z;
  is_escalation : bool
}.
End HistoryEntry.

Definition history_entry (msg : ChatMessage.t) : HistoryEntry.t :=
  HistoryEntry.mk (ChatMessage.message_type msg) (ChatMessage.content msg)
                  (ChatMessage.timestamp msg)
                  (ChatMessage.is_escalation_trigger msg).

(** [ChatService.get_chat_history] *)
Definition get_chat_history (w : World) (session_id : string) (user_id : nat)
  : list HistoryEntry.t :=
  match first (owned_by session_id user_id) (chat_sessions (db w)) with
  | None => []
  | Some (_, session) =>
      map history_entry
          (order_by timestamp_le
                    (filter (of_session (ChatSession.id session))
                            (chat_messages (db w))))
  end.

(** [AgentService.get_escalated_sessions] *)
Definition get_escalated_sessions (w : World) : list ChatSession.t :=
  order_by escalated_at_le
           (filter (fun s => Status_eqb (ChatSession.status s) escalated)
                   (chat_sessions (db w))).

(** [AgentService.get_session_messages] *)
Definition get_session_messages (w : World) (session_id : nat)
  : list ChatMessage.t :=
  order_by timestamp_le
           (filter (of_session session_id) (chat_messages (db w))).

(** What the columns of a session say about its life: an active session has
    no escalation and no closing time, an escalated one has an escalation
    time and no closing time, a closed one has a closing time. *)
Definition consistent_session (s : ChatSession.t) : Prop :=
  match ChatSession.status s with
  | active =>
      ChatSession.escalated_at s = None /\ ChatSession.closed_at s = None
  | escalated =>
      ChatSession.escalated_at s <> None /\ ChatSession.closed_at s = None
  | closed => ChatSession.closed_at s <> None
  end.

Section Operations.

Variable analyzer : string -> list string.

(** The calls into the services that change the tables or the engine. *)
Inductive Operation : Type :=
| StartChatSession (user_id : nat) (token : string) (now : Z)
| SendMessage (session_id : string) (user_id : nat) (message : string)
              (now : Z)
| SendAgentMessage (session_id : nat) (message : string) (agent_id : nat)
                   (now : Z)
| CloseChatSession (session_id : nat) (now : Z)
| RetrainModel.

Definition apply_operation (w : World) (op : Operation) : World :=
  match op with
  | StartChatSession user_id token now =>
      snd (start_chat_session w user_id token now)
  | SendMessage session_id user_id message now =>
      snd (send_message analyzer w session_id user_id message now)
  | SendAgentMessage session_id message agent_id now =>
      snd (send_agent_message w session_id message agent_id now)
  | CloseChatSession session_id now => snd (close_session w session_id now)
  | RetrainModel =>
      mkWorld (db w)
              (snd (retrain_model analyzer (knowledge_base (db w)) (chatbot w)))
  end.

Definition run_operations (ops : list Operation) (w : World) : World :=
  fold_left apply_operation ops w.

Definition is_RetrainModel (op : Operation) : Prop :=
  match op with
  | RetrainModel => True
  | _ => False
  end.

End Operations.

(** [w'] keeps what [w] has stored: the messages of [w] are a prefix of
    those of [w'], the knowledge table is the same, and every session of [w]
    is still at its place with the same key, owner, token and creation
    time. *)
Definition keeps_records (w w' : World) : Prop :=
  (exists added,
      chat_messages (db w') = chat_messages (db w) ++ added)
  /\ knowledge_base (db w') = knowledge_base (db w)
  /\ forall i s,
      session_at w i = Some s ->
      exists s',
        session_at w' i = Some s'
        /\ ChatSession.id s' = ChatSession.id s
        /\ ChatSession.user_id s' = ChatSession.user_id s
        /\ ChatSession.session_id s' = ChatSession.session_id s
        /\ ChatSession.created_at s' = ChatSession.created_at s.

Definition is_escalated (s : ChatSession.t) : bool :=
  Status_eqb (ChatSession.status s) escalated.

(** The queue is by non-decreasing escalation time, and every session in it
    has one. *)
Definition by_escalation_time (a b : ChatSession.t) : Prop :=
  exists x y,
    ChatSession.escalated_at a = Some x
    /\ ChatSession.escalated_at b = Some y
    /\ (x <= y)%Z.

(** The tables of a new installation and the engine singleton as [__new__]
    creates it. *)
Definition empty_world : World :=
  mkWorld (mkDatabase [] [] []) new_instance.

(** ** controllers/__init__.py

    The routes that change the tables or the engine.  A request comes with
    the logged-in user ([current_user]); a value read from the JSON body or
    the query string is optional, [None] when the key is missing. *)

Module CurrentUser.
(** What the routes read of [current_user]. *)
Record t : Type := mk {
  id : nat;
  role : string
}.
End CurrentUser.

(** What a route returns: a page or JSON body with status 200, a redirect,
    or a JSON error with its status code. *)
Inductive Response (A : Type) : Type :=
| Rendered (body : A)
| Redirected (endpoint : string)
| Failed (status_code : nat) (error : string).

Arguments Rendered {A} body.
Arguments Redirected {A} endpoint.
Arguments Failed {A} status_code error.

(** [not value] for an optional string: missing or empty. *)
Definition missing (value : option string) : bool :=
  match value with
  | None => true
  | Some EmptyString => true
  | Some _ => false
  end.

(** [not value] for an optional number: missing or zero. *)
Definition missing_id (value : option nat) : bool :=
  match value with
  | None => true
  | Some O => true
  | Some _ => false
  end.

Definition has_role (role : string) (u : CurrentUser.t) : bool :=
  String.eqb (CurrentUser.role u) role.

(** The body of the knowledge-base route for the methods that write. *)
Inductive KnowledgeRequest : Type :=
| Post (question answer : string) (category tags : option string)
| Put (id : nat) (question answer : string) (category tags : option string)
      (is_active : option bool)
| Delete (id : nat).

Section Controllers.

Variable analyzer : string -> list string.

(** The default of the column [is_active] of a knowledge entry, which is
    declared in [models.py]. *)
Variable is_active_default : bool.

Definition active_session_of (user_id : nat) (s : ChatSession.t) : bool :=
  Nat.eqb (ChatSession.user_id s) user_id
  && Status_eqb (ChatSession.status s) active.

(** [customer_dashboard]; [token] is the value that [uuid.uuid4()] would
    draw.  The body is the token that is handed to the page. *)
Definition customer_dashboard (w : World) (current_user : CurrentUser.t)
           (token : string) (now : Z) : Response string * World :=
  if negb (has_role "customer" current_user)
  then (Redirected "unauthorized", w)
  else
    match first (active_session_of (CurrentUser.id current_user))
                (chat_sessions (db w)) with
    | Some (_, active_session) =>
        (Rendered (ChatSession.session_id active_session), w)
    | None =>
        let (active_session, w') :=
          start_chat_session w (CurrentUser.id current_user) token now in
        (Rendered (ChatSession.session_id active_session), w')
    end.

(** The rest of [customer_dashboard] after its query (lines 29 to 33), for
    the row that the query returned. *)
Definition dashboard_after_query (found : option (nat * ChatSession.t))
           (w : World) (current_user : CurrentUser.t) (token : string)
           (now : Z) : Response string * World :=
  match found with
  | Some (_, active_session) =>
      (Rendered (ChatSession.session_id active_session), w)
  | None =>
      let (active_session, w') :=
        start_chat_session w (CurrentUser.id current_user) token now in
      (Rendered (ChatSession.session_id active_session), w')
  end.

(** Two requests of one customer for the dashboard that run concurrently:
    both execute the query before either stores a session.  Nothing in the
    route or in [start_chat_session] holds a lock. *)
Definition interleaved_dashboards (w : World) (current_user : CurrentUser.t)
           (token_a : string) (now_a : Z) (token_b : string) (now_b : Z)
  : World :=
  if negb (has_role "customer" current_user) then w
  else
    let found_a :=
      first (active_session_of (CurrentUser.id current_user))
            (chat_sessions (db w)) in
    let found_b :=
      first (active_session_of (CurrentUser.id current_user))
            (chat_sessions (db w)) in
    let w_a :=
      snd (dashboard_after_query found_a w current_user token_a now_a) in
    snd (dashboard_after_query found_b w_a current_user token_b now_b).

(** The route [/api/send_message]. *)
Definition api_send_message (w : World) (current_user : CurrentUser.t)
           (session_id message : option string) (now : Z)
  : result (Response Reply) * World :=
  if missing session_id || missing message
  then (Ok (Failed 400 "Missing parameters"), w)
  else
    match session_id, message with
    | Some sid, Some msg =>
        match send_message analyzer w sid (CurrentUser.id current_user) msg
                           now with
        | (Ok (Some response), w') => (Ok (Rendered response), w')
        | (Ok None, w') => (Ok (Failed 404 "Session not found"), w')
        | (Raised e, w') => (Raised e, w')
        end
    | _, _ => (Ok (Failed 400 "Missing parameters"), w)
    end.

(** The route [/api/send_agent_message]. *)
Definition api_send_agent_message (w : World) (current_user : CurrentUser.t)
           (session_id : option nat) (message : option string) (now : Z)
  : Response unit * World :=
  if negb (has_role "agent" current_user) then (Failed 403 "Unauthorized", w)
  else if missing_id session_id || missing message
  then (Failed 400 "Missing parameters", w)
  else
    match session_id, message with
    | Some sid, Some msg =>
        let (success, w') :=
          send_agent_message w sid msg (CurrentUser.id current_user) now in
        if success then (Rendered tt, w')
        else (Failed 400 "Failed to send message", w')
    | _, _ => (Failed 400 "Missing parameters", w)
    end.

(** The route [/api/close_session]. *)
Definition api_close_session (w : World) (current_user : CurrentUser.t)
           (session_id : option nat) (now : Z) : Response unit * World :=
  if negb (has_role "agent" current_user) then (Failed 403 "Unauthorized", w)
  else if missing_id session_id then (Failed 400 "Session ID required", w)
  else
    match session_id with
    | Some sid =>
        let (success, w') := close_session w sid now in
        if success then (Rendered tt, w')
        else (Failed 400 "Failed to close session", w')
    | None => (Failed 400 "Session ID required", w)
    end.

Definition has_key (id : nat) (item : KnowledgeBase.t) : bool :=
  Nat.eqb (KnowledgeBase.id item) id.

Definition or_default {A : Type} (value : option A) (default : A) : A :=
  match value with
  | Some a => a
  | None => default
  end.

Fixpoint delete_row {A : Type} (i : nat) (rows : list A) : list A :=
  match rows, i with
  | [], _ => []
  | _ :: rows', O => rows'
  | r :: rows', S i' => r :: delete_row i' rows'
  end.

(** The knowledge table after the write of a request, [None] when the entry
    that the request names does not exist.  [new_id] is the key that the
    database gives to a new entry. *)
Definition write_knowledge (kb : list KnowledgeBase.t)
           (request : KnowledgeRequest) (new_id : nat)
  : option (list KnowledgeBase.t) :=
  match request with
  | Post question answer category tags =>
      Some (kb ++ [KnowledgeBase.mk new_id question answer
                                    (or_default category "general"%string)
                                    (or_default tags EmptyString)
                                    is_active_default])
  | Put id question answer category tags is_active =>
      match first (has_key id) kb with
      | Some (i, item) =>
          Some (update_row i
                  (KnowledgeBase.mk
                     (KnowledgeBase.id item) question answer
                     (or_default category (KnowledgeBase.category item))
                     (or_default tags (KnowledgeBase.tags item))
                     (or_default is_active (KnowledgeBase.is_active item)))
                  kb)
      | None => None
      end
  | Delete id =>
      match first (has_key id) kb with
      | Some (i, _) => Some (delete_row i kb)
      | None => None
      end
  end.

(** The route [/api/knowledge_base] for POST, PUT and DELETE: the write is
    committed, then the engine singleton is retrained.  The body is the key
    of the new entry after a POST. *)
Definition manage_knowledge_base (w : World) (current_user : CurrentUser.t)
           (request : KnowledgeRequest) (new_id : nat)
  : result (Response (option nat)) * World :=
  if negb (has_role "admin" current_user)
  then (Ok (Failed 403 "Unauthorized"), w)
  else
    match write_knowledge (knowledge_base (db w)) request new_id with
    | None => (Ok (Failed 404 "Item not found"), w)
    | Some kb' =>
        let d' := mkDatabase kb' (chat_sessions (db w))
                             (chat_messages (db w)) in
        match retrain_model analyzer kb' (chatbot w) with
        | (Ok _, engine') =>
            (Ok (Rendered (match request with
                           | Post _ _ _ _ => Some new_id
                           | _ => None
                           end)),
             mkWorld d' engine')
        | (Raised e, engine') => (Raised e, mkWorld d' engine')
        end
    end.

(** The requests that can change the tables or the engine. *)
Inductive Request : Type :=
| CustomerDashboard (current_user : CurrentUser.t) (token : string) (now : Z)
| ApiSendMessage (current_user : CurrentUser.t)
                 (session_id message : option string) (now : Z)
| ApiSendAgentMessage (current_user : CurrentUser.t) (session_id : option nat)
                      (message : option string) (now : Z)
| ApiCloseSession (current_user : CurrentUser.t) (session_id : option nat)
                  (now : Z)
| ManageKnowledgeBase (current_user : CurrentUser.t)
                      (request : KnowledgeRequest) (new_id : nat).

Definition requester (r : Request) : CurrentUser.t :=
  match r with
  | CustomerDashboard u _ _ => u
  | ApiSendMessage u _ _ _ => u
  | ApiSendAgentMessage u _ _ _ => u
  | ApiCloseSession u _ _ => u
  | ManageKnowledgeBase u _ _ => u
  end.

Definition handle (w : World) (r : Request) : World :=
  match r with
  | CustomerDashboard u token now => snd (customer_dashboard w u token now)
  | ApiSendMessage u session_id message now =>
      snd (api_send_message w u session_id message now)
  | ApiSendAgentMessage u session_id message now =>
      snd (api_send_agent_message w u session_id message now)
  | ApiCloseSession u session_id now =>
      snd (api_close_session w u session_id now)
  | ManageKnowledgeBase u request new_id =>
      snd (manage_knowledge_base w u request new_id)
  end.

Definition serve (requests : list Request) (w : World) : World :=
  fold_left handle requests w.

End Controllers.

(** ** app.py: registration and the sample data *)

Module User.
(** Modelled from the spec: the model class [User] of [models.py], with the
    columns that [app.py] and the controllers read and write. *)
Record t : Type := mk {
  id : nat;
  username : string;
  email : string;
  password_hash : string;
  role : string;
  is_active : bool
}.
End User.

Section App.

(** The defaults of the columns [is_active] of a user and of a knowledge
    entry, which are declared in [models.py]. *)
Variable user_is_active_default : bool.
Variable entry_is_active_default : bool.

Definition has_username (username : string) (u : User.t) : bool :=
  String.eqb (User.username u) username.

Definition has_email (email : string) (u : User.t) : bool :=
  String.eqb (User.email u) email.

Definition with_role (role : string) (u : User.t) : bool :=
  String.eqb (User.role u) role.

(** The route [/register] for a POST.  [hash] is what
    [generate_password_hash(password)] returns and [new_id] the key that the
    database gives to the new row.  The body of a rendered page is its error
    text. *)
Definition register (users : list User.t) (username email : string)
           (role : option string) (hash : string) (new_id : nat)
  : Response string * list User.t :=
  match first (has_username username) users with
  | Some _ => (Rendered "Username already exists"%string, users)
  | None =>
      match first (has_email email) users with
      | Some _ => (Rendered "Email already exists"%string, users)
      | None =>
          let role := or_default role "customer"%string in
          let role :=
            if existsb (String.eqb role) ["customer"%string] then role
            else "customer"%string in
          (Redirected "login",
           users ++ [User.mk new_id username email hash role
                             user_is_active_default])
      end
  end.

(** The character that delimits a string. *)
Definition double_quote : string := String (ascii_of_nat 34) EmptyString.

(** The rows of [sample_data]. *)
Definition sample_data : list (string * string * string * string) :=
  [("What are your business hours?",
    "Our business hours are Monday to Friday, 9 AM to 6 PM EST.",
    "general", "hours, timing, business hours");
   ("How can I reset my password?",
    "You can reset your password by clicking on " ++ double_quote
    ++ "Forgot Password" ++ double_quote ++ " on the login page.",
    "account", "password, reset, account");
   ("Where is your office located?",
    "Our main office is located at 123 Business Street, Suite 100, City, State 12345.",
    "contact", "location, office, address");
   ("Do you offer refunds?",
    "Yes, we offer refunds within 30 days of purchase. Please contact support for assistance.",
    "billing", "refund, money back, return");
   ("How can I contact support?",
    "You can contact support via email at support@company.com or call us at 1-800-123-4567.",
    "contact", "support, contact, help")]%string.

(** What the database and the hash function supply to one run of
    [create_sample_data]: the keys of the new rows and the two hashes. *)
Record Supplied : Type := mkSupplied {
  admin_id : nat;
  admin_hash : string;
  agent_id : nat;
  agent_hash : string;
  first_entry_id : nat
}.

Fixpoint sample_entries (id : nat)
         (rows : list (string * string * string * string))
  : list KnowledgeBase.t :=
  match rows with
  | [] => []
  | (question, answer, category, tags) :: rows' =>
      KnowledgeBase.mk id question answer category tags
                       entry_is_active_default
      :: sample_entries (S id) rows'
  end.

(** The names that the module [app.py] binds: what it imports (lines 1 to
    6) and the two functions it defines. *)
Definition app_globals : list string :=
  ["Flask"; "render_template"; "redirect"; "url_for"; "request"; "jsonify";
   "LoginManager"; "login_user"; "logout_user"; "login_required";
   "current_user"; "generate_password_hash"; "check_password_hash"; "db";
   "User"; "config"; "os"; "create_app"; "create_sample_data"]%string.

(** Reading a global name of [app.py]: [NameError] when the module does not
    bind it. *)
Definition global_name (name : string) : result unit :=
  if existsb (String.eqb name) app_globals then Ok tt else Raised NameError.

(** [create_sample_data], on the committed user table and knowledge table.
    The rows that [db.session.add] has added are pending until the one
    [db.session.commit()] at the end of the function; a query sees them
    (autoflush), and they are dropped when the function raises before the
    commit. *)
Definition create_sample_data (tables : list User.t * list KnowledgeBase.t)
           (supplied : Supplied)
  : result unit * (list User.t * list KnowledgeBase.t) :=
  let (users, kb) := tables in
  let pending_admin :=
    match first (with_role "admin") users with
    | Some _ => []
    | None =>
        [User.mk (admin_id supplied) "admin" "admin@chatbot.com"
                 (admin_hash supplied) "admin" user_is_active_default]
    end in
  let pending_users :=
    match first (with_role "agent") (users ++ pending_admin) with
    | Some _ => pending_admin
    | None =>
        pending_admin
        ++ [User.mk (agent_id supplied) "agent1" "agent@chatbot.com"
                    (agent_hash supplied) "agent" user_is_active_default]
    end in
  match global_name "KnowledgeBase" with
  | Raised e => (Raised e, (users, kb))
  | Ok _ =>
      let pending_entries :=
        match List.length kb with
        | O => sample_entries (first_entry_id supplied) sample_data
        | _ => []
        end in
      (Ok tt, (users ++ pending_users, kb ++ pending_entries))
  end.

(** [create_sample_data] run once more at every start of the application,
    on the tables that the run before has left. *)
Fixpoint restarts (supplies : list Supplied)
         (tables : list User.t * list KnowledgeBase.t)
  : list User.t * list KnowledgeBase.t :=
  match supplies with
  | [] => tables
  | supplied :: supplies' =>
      restarts supplies' (snd (create_sample_data tables supplied))
  end.

End App.

Definition is_agent_message (m : ChatMessage.t) : bool :=
  match ChatMessage.message_type m with
  | agent => true
  | _ => false
  end.

(** No user has two ACTIVE sessions. *)
Definition one_active_session_per_user (w : World) : Prop :=
  forall i j s1 s2,
    session_at w i = Some s1 ->
    session_at w j = Some s2 ->
    ChatSession.user_id s1 = ChatSession.user_id s2 ->
    ChatSession.status s1 = active ->
    ChatSession.status s2 = active ->
    i = j.

(** The engine is the index of the knowledge table as it is now. *)
Definition engine_in_sync (analyzer : string -> list string) (w : World)
  : Prop :=
  exists v,
    Sklearn.fit analyzer max_features
                (loaded_questions (knowledge_base (db w))) = Ok v
    /\ chatbot w
       = index_of analyzer v (loaded_questions (knowledge_base (db w)))
                  (loaded_answers (knowledge_base (db w))).

(** ** Scenarios

    Concrete tables and engines on which the properties below are tried. *)

Module Scenario.

Definition analyzer : string -> list string := Sklearn.english_analyzer.

(** The index that a build installs when no entry is active. *)
Definition fallback_index : ChatbotEngine :=
  snd (_initialize analyzer [] new_instance).

(** What the fit of the fallback questions stores. *)
Definition fallback_fitted : Sklearn.Fitted :=
  Sklearn.mkFitted
    ["greetings"; "hello"; "hi"]%string
    (map (Sklearn.idf (map analyzer fallback_questions))
         ["greetings"; "hello"; "hi"]%string).

(** The first row of the sample data of [create_sample_data]. *)
Definition business_hours : KnowledgeBase.t :=
  KnowledgeBase.mk 1 "What are your business hours?"
    "Our business hours are Monday to Friday, 9 AM to 6 PM EST."
    "general" "hours, timing, business hours" true.

(** An entry whose question consists of stop words only. *)
Definition who_are_you : KnowledgeBase.t :=
  KnowledgeBase.mk 2 "Who are you?" "I am the support assistant."
    "general" EmptyString true.

Definition stop_word_kb : list KnowledgeBase.t :=
  [who_are_you; business_hours].

Definition stop_word_index : ChatbotEngine :=
  snd (_initialize analyzer stop_word_kb new_instance).

(** A message that shares no term with the fallback questions. *)
Definition gibberish : string := "asdkjf qpwoei".

(** A session of user 42 that an agent closed at time 10. *)
Definition closed_session : ChatSession.t :=
  ChatSession.mk 1 42 "token-1" closed 0 None (Some 10%Z).

(** A session of user 42 that was escalated at time 5. *)
Definition escalated_session : ChatSession.t :=
  ChatSession.mk 2 42 "token-2" escalated 0 (Some 5%Z) None.

Definition world_of (sessions : list ChatSession.t) : World :=
  mkWorld (mkDatabase [] sessions []) fallback_index.

End Scenario.

(** Further tables, users and engines for the properties of the services,
    the routes and the application. *)

Module Cases.

Definition analyzer : string -> list string := Sklearn.english_analyzer.

(** A session of user 42 that is still with the bot. *)
Definition active_session : ChatSession.t :=
  ChatSession.mk 3 42 "token-3" active 0 None None.

Definition active_world : World :=
  Scenario.world_of [active_session].

(** The reply to a message without any known term, and the tables after
    it. *)
Definition escalating_reply : Reply :=
  mkReply Scenario.gibberish handoff_message 0 true escalated.

Definition escalated_world : World :=
  mkWorld
    (mkDatabase
       []
       [ChatSession.mk 3 42 "token-3" escalated 0 (Some 6%Z) None]
       [ChatMessage.mk 1 3 user Scenario.gibberish 6 false;
        ChatMessage.mk 2 3 bot handoff_message 6 true])
    Scenario.fallback_index.

(** The engine after a build whose fit failed. *)
Definition engine_without_vectors : ChatbotEngine :=
  mkEngine (Some None) (Some None) (Some []) (Some []).

(** An index in which two entries have the question "hello". *)
Definition duplicate_index : ChatbotEngine :=
  index_of analyzer Scenario.fallback_fitted
           ["hello"; "hello"]%string ["first"; "second"]%string.

Definition customer : CurrentUser.t := CurrentUser.mk 42 "customer".

Definition admin : CurrentUser.t := CurrentUser.mk 1 "admin".

(** The index terms and weights of a table whose only entry asks for the
    business hours. *)
Definition business_hours_fitted : Sklearn.Fitted :=
  Sklearn.mkFitted
    ["business"; "business hours"; "hours"]%string
    (map (Sklearn.idf (map analyzer ["What are your business hours?"%string]))
         ["business"; "business hours"; "hours"]%string).

Definition customer_requests : list Request :=
  [CustomerDashboard customer "token-9" 1;
   ApiSendMessage customer (Some "token-9"%string) (Some "hello"%string) 2;
   ApiCloseSession customer (Some 1%nat) 3;
   ApiSendAgentMessage customer (Some 1%nat) (Some "hello"%string) 4;
   ManageKnowledgeBase customer (Delete 1) 5].

(** A user table with two registered customers. *)
Definition two_users : list User.t :=
  [User.mk 1 "ada" "ada@example.org" "hash-1" "customer" true;
   User.mk 2 "bob" "bob@example.org" "hash-2" "customer" true].

(** A customer who loads the dashboard twice. *)
Definition two_dashboards : list Request :=
  [CustomerDashboard customer "token-9" 1;
   CustomerDashboard customer "token-10" 2].

Definition a_message : ChatMessage.t :=
  ChatMessage.mk 1 3 bot welcome_message 0 false.

Definition welcomed_world : World :=
  mkWorld (mkDatabase [] [active_session] [a_message]) new_instance.

Definition some_operations : list Operation :=
  [StartChatSession 42 "token-1" 1;
   SendMessage "token-1" 42 "hello" 2;
   CloseChatSession 1 3;
   SendAgentMessage 1 "hello" 7 4].

(** Two conversations whose messages were stored in turn, not in the order
    of their times: session 3 of user 42 and session 4 of user 7. *)
Definition other_session : ChatSession.t :=
  ChatSession.mk 4 7 "token-4" active 0 None None.

Definition busy_messages : list ChatMessage.t :=
  [ChatMessage.mk 1 3 user "second" 5 false;
   ChatMessage.mk 2 4 user "theirs" 1 false;
   ChatMessage.mk 3 3 bot "first" 2 false;
   ChatMessage.mk 4 4 bot "theirs too" 3 false;
   ChatMessage.mk 5 3 user "third" 9 false].

(** A question with eight index words, hence fifteen terms, and what a
    build takes from a table that holds it alone. *)
Definition long_question : string :=
  "Refund policy for damaged items shipped outside Europe today".

Definition long_fitted : Sklearn.Fitted :=
  Sklearn.mkFitted
    (Sklearn.vocabulary max_features (map analyzer [long_question]))
    (map (Sklearn.idf (map analyzer [long_question]))
         (Sklearn.vocabulary max_features (map analyzer [long_question]))).

(** Two active entries with the same question, and the index that a build
    installs for them. *)
Definition twin_kb : list KnowledgeBase.t :=
  [KnowledgeBase.mk 1 "hello" "first" "general" EmptyString true;
   KnowledgeBase.mk 2 "hello" "second" "general" EmptyString true].

Definition twin_index : ChatbotEngine :=
  snd (_initialize analyzer twin_kb new_instance).

(** A table in which the entry that was written first is switched off, and
    the index terms and weights that a build takes from it. *)
Definition refund_kb : list KnowledgeBase.t :=
  [KnowledgeBase.mk 1 "Refunds" "We do not refund." "billing" EmptyString
                    false;
   KnowledgeBase.mk 2 "Refunds?" "Yes, within 30 days." "billing"
                    EmptyString true].

Definition refund_fitted : Sklearn.Fitted :=
  Sklearn.mkFitted
    ["refunds"]%string
    (map (Sklearn.idf (map analyzer ["Refunds?"%string])) ["refunds"]%string).

Definition refund_index : ChatbotEngine :=
  index_of analyzer refund_fitted ["Refunds?"]%string
           ["Yes, within 30 days."]%string.

(** Sessions of several users in the order in which they were created; three
    of them wait for an agent, and the one escalated last was created
    first. *)
Definition queue_world : World :=
  Scenario.world_of
    [ChatSession.mk 1 7 "token-a" closed 0 (Some 1%Z) (Some 2%Z);
     ChatSession.mk 2 7 "token-b" escalated 0 (Some 9%Z) None;
     ChatSession.mk 3 8 "token-c" active 0 None None;
     ChatSession.mk 4 8 "token-d" escalated 0 (Some 3%Z) None;
     ChatSession.mk 5 9 "token-e" escalated 2 (Some 4%Z) None].

Definition busy_world : World :=
  mkWorld (mkDatabase [] [active_session; other_session] busy_messages)
          new_instance.

End Cases.

(** * Properties *)

(** ** Facts about [np.max] and [np.argmax] *)

Module NpFacts.

Local Open Scope R_scope.

(** The scan keeps, for the prefix [pre] already read, the value and the
    position of its first maximum. *)
Lemma scan_invariant (a pre : list R) (best : R) (besti : nat) :
  nth_error pre besti = Some best ->
  (forall x, In x pre -> x <= best) ->
  (forall j x, (j < besti)%nat -> nth_error pre j = Some x -> x < best) ->
  let k := Np.argmax_from best besti (List.length pre) a in
  let m := Np.max_from best a in
  nth_error (pre ++ a) k = Some m
  /\ (forall x, In x (pre ++ a) -> x <= m)
  /\ (forall j x, (j < k)%nat -> nth_error (pre ++ a) j = Some x -> x < m).
Proof.
  revert pre best besti.
  induction a as [|y a IH]; intros pre best besti Hn Hle Hlt; cbn.
  - rewrite app_nil_r. repeat split; auto.
  - assert (Hsnoc : (pre ++ y :: a) = ((pre ++ [y]) ++ a))
      by (rewrite <- app_assoc; reflexivity).
    assert (Hlen : S (List.length pre) = List.length (pre ++ [y]))
      by (rewrite length_app; cbn; lia).
    destruct (Rlt_dec best y) as [Hby|Hby].
    + rewrite Hsnoc, Hlen. apply IH.
      * rewrite nth_error_app2 by lia. rewrite Nat.sub_diag. reflexivity.
      * intros x Hx. apply in_app_or in Hx. destruct Hx as [Hx|[Hx|[]]].
        -- apply Hle in Hx. lra.
        -- subst. lra.
      * intros j x Hj Hx. rewrite nth_error_app1 in Hx by lia.
        apply nth_error_In in Hx. apply Hle in Hx. lra.
    + rewrite Hsnoc, Hlen. apply IH.
      * rewrite nth_error_app1; [assumption|].
        apply nth_error_Some. rewrite Hn. discriminate.
      * intros x Hx. apply in_app_or in Hx. destruct Hx as [Hx|[Hx|[]]].
        -- apply Hle; assumption.
        -- subst. lra.
      * intros j x Hj Hx.
        assert (besti < List.length pre)%nat
          by (apply nth_error_Some; rewrite Hn; discriminate).
        rewrite nth_error_app1 in Hx by lia. eapply Hlt; eassumption.
Qed.

(** On a non-empty array both calls return; the index is that of the
    first element equal to the maximum. *)
Lemma max_argmax_spec (a : list R) :
  a <> [] ->
  exists m k,
    Np.max a = Ok m /\ Np.argmax a = Ok k
    /\ nth_error a k = Some m
    /\ (forall x, In x a -> x <= m)
    /\ (forall j x, (j < k)%nat -> nth_error a j = Some x -> x < m).
Proof.
  destruct a as [|x a]; [congruence|]. intros _.
  exists (Np.max_from x a), (Np.argmax_from x 0 1 a).
  split; [reflexivity|]. split; [reflexivity|].
  apply (scan_invariant a [x] x 0).
  - reflexivity.
  - intros y [Hy|[]]. subst. lra.
  - intros j y Hj. lia.
Qed.

End NpFacts.

(** ** Facts about the vectors *)

Module SklearnFacts.

Import Sklearn.
Local Open Scope R_scope.

Lemma sum_sq_nonneg (row : list R) : 0 <= sum_sq row.
Proof.
  induction row as [|x row IH]; cbn; [lra|].
  pose proof (Rle_0_sqr x) as Hx. unfold Rsqr in Hx. lra.
Qed.

Lemma dot_self (x : list R) : dot x x = sum_sq x.
Proof. induction x as [|a x IH]; cbn; [reflexivity|]. rewrite IH. reflexivity. Qed.

Lemma dot_nonneg (x y : list R) : nonneg x -> nonneg y -> 0 <= dot x y.
Proof.
  intros Hx. revert y. induction Hx as [|a x Ha Hx IH]; intros y Hy; cbn.
  - lra.
  - destruct Hy as [|b y Hb Hy]; [lra|].
    specialize (IH y Hy). pose proof (Rmult_le_pos a b Ha Hb). lra.
Qed.

(** Twice the product of two rows is at most the sum of their squared norms. *)
Lemma two_dot_le (x y : list R) : 2 * dot x y <= sum_sq x + sum_sq y.
Proof.
  revert y. induction x as [|a x IH]; intros y; cbn.
  - pose proof (sum_sq_nonneg y). lra.
  - destruct y as [|b y]; cbn.
    + pose proof (sum_sq_nonneg x). pose proof (Rle_0_sqr a) as Ha.
      unfold Rsqr in Ha. lra.
    + specialize (IH y). pose proof (Rle_0_sqr (a - b)) as Hab.
      unfold Rsqr in Hab. lra.
Qed.

Lemma sum_sq_scale (row : list R) (c : R) :
  sum_sq (map (fun x => x / c) row) = sum_sq row * (/ c * / c).
Proof.
  induction row as [|x row IH]; cbn; [lra|]. rewrite IH. unfold Rdiv. lra.
Qed.

Lemma sum_sq_zero_row (row : list R) :
  sum_sq row = 0 -> Forall (fun x => x = 0) row.
Proof.
  induction row as [|x row IH]; cbn; intros H; constructor.
  - pose proof (sum_sq_nonneg row). pose proof (Rle_0_sqr x) as Hx.
    unfold Rsqr in Hx. assert (x * x = 0) by lra.
    destruct (Rmult_integral _ _ H1); assumption.
  - apply IH. pose proof (sum_sq_nonneg row). pose proof (Rle_0_sqr x) as Hx.
    unfold Rsqr in Hx. lra.
Qed.

(** A normalised row has squared norm one, unless the row is zero. *)
Lemma l2_normalize_cases (row : list R) :
  (sum_sq row = 0 /\ l2_normalize row = row)
  \/ (0 < sum_sq row /\ sum_sq (l2_normalize row) = 1).
Proof.
  unfold l2_normalize. pose proof (sum_sq_nonneg row) as Hpos.
  destruct (Req_dec_T (sqrt (sum_sq row)) 0) as [Hz|Hnz].
  - left. split; [|reflexivity]. apply sqrt_eq_0; assumption.
  - right. assert (Hs : 0 < sum_sq row).
    { destruct Hpos as [Hlt|Heq]; [assumption|].
      exfalso. apply Hnz. rewrite <- Heq. apply sqrt_0. }
    split; [assumption|]. rewrite sum_sq_scale.
    rewrite <- Rinv_mult. rewrite sqrt_sqrt by lra.
    apply Rinv_r. lra.
Qed.

Lemma l2_normalize_sum_sq_le (row : list R) : sum_sq (l2_normalize row) <= 1.
Proof.
  destruct (l2_normalize_cases row) as [[Hz Heq]|[_ H1]].
  - rewrite Heq, Hz. lra.
  - rewrite H1. lra.
Qed.

Lemma l2_normalize_unit (row : list R) :
  sum_sq row = 1 -> l2_normalize row = row.
Proof.
  intros H. unfold l2_normalize. rewrite H, sqrt_1.
  destruct (Req_dec_T 1 0) as [Habs|_]; [lra|].
  rewrite <- (map_id row) at 2. apply map_ext. intros x. lra.
Qed.

(** Normalising twice is normalising once. *)
Lemma l2_normalize_idempotent (row : list R) :
  l2_normalize (l2_normalize row) = l2_normalize row.
Proof.
  destruct (l2_normalize_cases row) as [[Hz Heq]|[_ H1]].
  - rewrite Heq. assumption.
  - apply l2_normalize_unit. assumption.
Qed.

Lemma l2_normalize_nonneg (row : list R) :
  nonneg row -> nonneg (l2_normalize row).
Proof.
  intros H. unfold l2_normalize.
  destruct (Req_dec_T (sqrt (sum_sq row)) 0) as [Hz|Hnz]; [assumption|].
  apply Forall_map. eapply Forall_impl; [|exact H]. cbn. intros x Hx.
  pose proof (sqrt_pos (sum_sq row)) as Hs.
  apply Rmult_le_pos; [assumption|].
  apply Rlt_le, Rinv_0_lt_compat. lra.
Qed.

Lemma cosine_le_1 (x y : list R) : cosine x y <= 1.
Proof.
  unfold cosine.
  pose proof (two_dot_le (l2_normalize x) (l2_normalize y)).
  pose proof (l2_normalize_sum_sq_le x). pose proof (l2_normalize_sum_sq_le y).
  lra.
Qed.

Lemma cosine_nonneg (x y : list R) : nonneg x -> nonneg y -> 0 <= cosine x y.
Proof.
  intros Hx Hy. apply dot_nonneg; apply l2_normalize_nonneg; assumption.
Qed.

Lemma cosine_self (x : list R) : 0 < sum_sq x -> cosine x x = 1.
Proof.
  intros Hx. unfold cosine. rewrite dot_self.
  destruct (l2_normalize_cases x) as [[Hz _]|[_ H1]]; [lra|assumption].
Qed.

Lemma dot_zero_l (x y : list R) : Forall (fun a => a = 0) x -> dot x y = 0.
Proof.
  intros Hx. revert y. induction Hx as [|a x Ha Hx IH]; intros y; cbn.
  - reflexivity.
  - destruct y as [|b y]; [reflexivity|]. rewrite IH, Ha. lra.
Qed.

Lemma cosine_zero_l (x y : list R) : sum_sq x = 0 -> cosine x y = 0.
Proof.
  intros Hx. unfold cosine. apply dot_zero_l.
  destruct (l2_normalize_cases x) as [[_ Heq]|[Hpos _]]; [|lra].
  rewrite Heq. apply sum_sq_zero_row. assumption.
Qed.

Lemma cosine_similarity_row (x : list R) (Y : matrix) :
  List.concat (cosine_similarity [x] Y) = map (cosine x) Y.
Proof. cbn. rewrite app_nil_r. reflexivity. Qed.

Lemma sum_sq_pos (row : list R) (x : R) :
  In x row -> x <> 0 -> 0 < sum_sq row.
Proof.
  induction row as [|y row IH]; cbn; [tauto|]. intros [Hx|Hx] Hnz.
  - subst y. pose proof (sum_sq_nonneg row).
    pose proof (Rsqr_pos_lt x Hnz) as Hsq. unfold Rsqr in Hsq. lra.
  - specialize (IH Hx Hnz). pose proof (Rle_0_sqr y) as Hy.
    unfold Rsqr in Hy. lra.
Qed.

Lemma sum_sq_all_zero (row : list R) :
  Forall (fun x => x = 0) row -> sum_sq row = 0.
Proof.
  induction 1 as [|x row Hx _ IH]; cbn; [reflexivity|]. rewrite IH, Hx. lra.
Qed.

(** *** The weights of a fitted vectorizer *)

Lemma document_frequency_le (docs : list (list string)) (t : string) :
  (document_frequency docs t <= List.length docs)%nat.
Proof.
  unfold document_frequency.
  induction docs as [|d docs IH]; cbn; [lia|].
  destruct (existsb (String.eqb t) d); cbn; lia.
Qed.

Lemma ln_nonneg (x : R) : 1 <= x -> 0 <= ln x.
Proof.
  intros [Hlt|Heq].
  - rewrite <- ln_1. apply Rlt_le, ln_increasing; lra.
  - subst. rewrite ln_1. lra.
Qed.

Lemma idf_ge_1 (docs : list (list string)) (t : string) : 1 <= idf docs t.
Proof.
  unfold idf.
  pose proof (le_INR _ _ (document_frequency_le docs t)) as Hle.
  pose proof (pos_INR (document_frequency docs t)) as Hdf.
  assert (1 <= (1 + INR (List.length docs))
               / (1 + INR (document_frequency docs t))).
  { apply Rmult_le_reg_r with (1 + INR (document_frequency docs t)); [lra|].
    unfold Rdiv. rewrite Rmult_assoc, Rinv_l by lra. lra. }
  pose proof (ln_nonneg _ H). lra.
Qed.

Section Fit.

Variable analyzer : string -> list string.
Variables (mf : nat) (raw_documents : list string) (v : Fitted).
Hypothesis Hfit : fit analyzer mf raw_documents = Ok v.

Lemma fit_vocabulary :
  vocabulary_ v = vocabulary mf (map analyzer raw_documents)
  /\ vocabulary_ v <> []
  /\ idf_ v = map (idf (map analyzer raw_documents)) (vocabulary_ v).
Proof.
  unfold fit in Hfit.
  destruct (vocabulary mf (map analyzer raw_documents)) as [|t ts] eqn:E;
    [discriminate|].
  inversion Hfit; subst v; cbn. repeat split. discriminate.
Qed.

Lemma fit_weights :
  forall t w, In (t, w) (combine (vocabulary_ v) (idf_ v)) -> 1 <= w.
Proof.
  destruct fit_vocabulary as (_ & _ & Hidf). rewrite Hidf. clear Hidf.
  induction (vocabulary_ v) as [|u vocab IH]; cbn; [tauto|].
  intros t w [Heq|Hin].
  - inversion Heq; subst. apply idf_ge_1.
  - eapply IH; eassumption.
Qed.

Lemma fit_weight_of (t : string) :
  In t (vocabulary_ v) ->
  exists w, In (t, w) (combine (vocabulary_ v) (idf_ v)).
Proof.
  destruct fit_vocabulary as (_ & _ & Hidf). rewrite Hidf. clear Hidf.
  induction (vocabulary_ v) as [|u vocab IH]; cbn; [tauto|].
  intros [Heq|Hin].
  - subst. eexists. left. reflexivity.
  - destruct (IH Hin) as [w Hw]. exists w. right. assumption.
Qed.

(** No weight of a row is negative. *)
Lemma tfidf_row_nonneg (terms : list string) : nonneg (tfidf_row v terms).
Proof.
  unfold nonneg, tfidf_row. apply Forall_map, Forall_forall.
  intros [t w] Hin. pose proof (fit_weights _ _ Hin).
  pose proof (pos_INR (count terms t)). apply Rmult_le_pos; lra.
Qed.

(** A text with a term of the vocabulary has a row that is not zero. *)
Lemma tfidf_row_pos (terms : list string) (t : string) :
  In t (vocabulary_ v) -> In t terms -> 0 < sum_sq (tfidf_row v terms).
Proof.
  intros Hv Ht. destruct (fit_weight_of _ Hv) as [w Hw].
  pose proof (fit_weights _ _ Hw) as Hw1.
  apply sum_sq_pos with (INR (count terms t) * w).
  - unfold tfidf_row. apply in_map_iff. exists (t, w). split; [reflexivity|].
    assumption.
  - apply (count_occ_In string_dec) in Ht. fold (count terms t) in Ht.
    assert (1 <= INR (count terms t)).
    { change 1 with (INR 1). apply le_INR. lia. }
    apply Rgt_not_eq. apply Rmult_gt_0_compat; lra.
Qed.

End Fit.

(** A text without any term of the vocabulary has the zero row. *)
Lemma tfidf_row_zero (v : Fitted) (terms : list string) :
  (forall t, In t (vocabulary_ v) -> ~ In t terms) ->
  sum_sq (tfidf_row v terms) = 0.
Proof.
  intros H. apply sum_sq_all_zero. unfold tfidf_row.
  apply Forall_map, Forall_forall. intros [t w] Hin.
  apply in_combine_l in Hin. apply H in Hin.
  apply (count_occ_not_In string_dec) in Hin. unfold count. rewrite Hin.
  cbn. lra.
Qed.

End SklearnFacts.

(** ** Facts about the engine *)

Section EngineFacts.

Import Sklearn SklearnFacts.
Local Open Scope R_scope.

Variable analyzer : string -> list string.

Lemma loaded_questions_nonempty (kb : list KnowledgeBase.t) :
  loaded_questions kb <> [].
Proof.
  unfold loaded_questions.
  destruct (filter KnowledgeBase.is_active kb); cbn; discriminate.
Qed.

Lemma loaded_lengths (kb : list KnowledgeBase.t) :
  List.length (loaded_answers kb) = List.length (loaded_questions kb).
Proof.
  unfold loaded_questions, loaded_answers.
  destruct (filter KnowledgeBase.is_active kb); [reflexivity|].
  rewrite !length_map. reflexivity.
Qed.

(** [_initialize] in one step: the new engine does not depend on the old
    one, and a failed fit leaves an engine without vectors. *)
Lemma _initialize_eq (kb : list KnowledgeBase.t) (self : ChatbotEngine) :
  _initialize analyzer kb self =
  match fit analyzer max_features (loaded_questions kb) with
  | Ok v =>
      (Ok tt,
       index_of analyzer v (loaded_questions kb) (loaded_answers kb))
  | Raised e =>
      (Raised e,
       mkEngine (Some None) (Some None) (Some (loaded_questions kb))
                (Some (loaded_answers kb)))
  end.
Proof.
  pose proof (loaded_questions_nonempty kb) as Hne.
  unfold _initialize, _load_knowledge_base, loaded_questions, loaded_answers
    in *.
  destruct (filter KnowledgeBase.is_active kb) as [|item items]; cbn.
  - unfold vectorizer_fit_transform, bind, lift, getattr; cbn.
    destruct (fit analyzer max_features fallback_questions); reflexivity.
  - unfold vectorizer_fit_transform, bind, lift, getattr; cbn.
    destruct (fit analyzer max_features
                  (KnowledgeBase.question item
                   :: map KnowledgeBase.question items)); reflexivity.
Qed.

(** The first query on the bare singleton: no attribute has been assigned,
    so the test for the lazy initialisation itself raises. *)
Lemma get_response_new_instance (kb : list KnowledgeBase.t) (q : string)
      (threshold : R) :
  get_response analyzer kb q threshold new_instance
  = (Raised AttributeError, new_instance).
Proof. reflexivity. Qed.

Lemma installed_inv (self : ChatbotEngine) :
  installed analyzer self ->
  exists kb v,
    fit analyzer max_features (loaded_questions kb) = Ok v
    /\ self = index_of analyzer v (loaded_questions kb) (loaded_answers kb).
Proof.
  intros (kb & self0 & H). rewrite _initialize_eq in H.
  exists kb. destruct (fit analyzer max_features (loaded_questions kb)) as [v|e].
  - exists v. split; [reflexivity|]. congruence.
  - discriminate.
Qed.

Lemma installed_intro (kb : list KnowledgeBase.t) (v : Fitted) :
  fit analyzer max_features (loaded_questions kb) = Ok v ->
  installed analyzer
            (index_of analyzer v (loaded_questions kb) (loaded_answers kb)).
Proof.
  intros H. exists kb, new_instance. rewrite _initialize_eq, H. reflexivity.
Qed.

Lemma similarities_of_index (v : Fitted) (qs : list string) (q : string) :
  similarities_of (transform_fitted analyzer v [q])
                  (transform_fitted analyzer v qs)
  = map (entry_similarity analyzer v q) qs.
Proof.
  unfold similarities_of, transform_fitted. cbn [map].
  rewrite cosine_similarity_row, map_map. reflexivity.
Qed.

(** [get_response] on an index: it returns, the engine is not changed,
    and the result is decided by the first maximum of the similarities. *)
Lemma get_response_index (kb : list KnowledgeBase.t) (q : string)
      (threshold : R) (v : Fitted) (qs ans : list string) :
  qs <> [] ->
  List.length ans = List.length qs ->
  exists m k a,
    nth_error (map (entry_similarity analyzer v q) qs) k = Some m
    /\ (forall x, In x (map (entry_similarity analyzer v q) qs) -> x <= m)
    /\ (forall j x, (j < k)%nat ->
                    nth_error (map (entry_similarity analyzer v q) qs) j
                    = Some x -> x < m)
    /\ nth_error ans k = Some a
    /\ get_response analyzer kb q threshold (index_of analyzer v qs ans)
       = (Ok (if Rge_dec m threshold then (a, m, false)
              else (handoff_message, m, true)),
          index_of analyzer v qs ans).
Proof.
  intros Hne Hlen.
  remember (map (entry_similarity analyzer v q) qs) as sims eqn:Es.
  assert (Hsims : sims <> []).
  { subst sims. destruct qs; [congruence|discriminate]. }
  destruct (NpFacts.max_argmax_spec sims Hsims)
    as (m & k & Hmax & Harg & Hnth & Hle & Hfirst).
  assert (Hk : (k < List.length ans)%nat).
  { rewrite Hlen. replace (List.length qs) with (List.length sims)
      by (subst sims; apply length_map).
    apply nth_error_Some. rewrite Hnth. discriminate. }
  destruct (nth_error ans k) as [a|] eqn:Ha;
    [|apply nth_error_None in Ha; lia].
  exists m, k, a. repeat split; try assumption.
  destruct qs as [|q0 qs']; [congruence|].
  unfold get_response, index_of, bind, getattr, lift, ret, raise.
  cbn -[transform_fitted similarities_of Np.max Np.argmax Rge_dec].
  rewrite similarities_of_index, <- Es, Hmax, Harg.
  destruct (Rge_dec m threshold); cbn; [rewrite Ha|]; reflexivity.
Qed.

Lemma entry_similarity_bounds (mf : nat) (docs : list string) (v : Fitted)
      (q d : string) :
  fit analyzer mf docs = Ok v -> 0 <= entry_similarity analyzer v q d <= 1.
Proof.
  intros Hfit. unfold entry_similarity. split.
  - apply cosine_nonneg; apply l2_normalize_nonneg;
      eapply tfidf_row_nonneg; eassumption.
  - apply cosine_le_1.
Qed.

(** The similarity of a text to itself is one as soon as one of its terms
    is in the vocabulary. *)
Lemma entry_similarity_self (mf : nat) (docs : list string) (v : Fitted)
      (q : string) (t : string) :
  fit analyzer mf docs = Ok v ->
  In t (vocabulary_ v) -> In t (analyzer q) ->
  entry_similarity analyzer v q q = 1.
Proof.
  intros Hfit Hv Ht. unfold entry_similarity, cosine.
  rewrite l2_normalize_idempotent. apply cosine_self.
  eapply tfidf_row_pos; eassumption.
Qed.

(** A text none of whose terms is in the vocabulary is similar to nothing. *)
Lemma entry_similarity_unknown (v : Fitted) (q d : string) :
  (forall t, In t (vocabulary_ v) -> ~ In t (analyzer q)) ->
  entry_similarity analyzer v q d = 0.
Proof.
  intros H. unfold entry_similarity. apply cosine_zero_l.
  destruct (l2_normalize_cases (tfidf_row v (analyzer q)))
    as [[Hz Heq]|[Hpos _]].
  - rewrite Heq. assumption.
  - rewrite (tfidf_row_zero v (analyzer q) H) in Hpos. lra.
Qed.

(** A query that is the question of entry [j]: the first entry as similar
    as that one answers. *)
Lemma get_response_identical (kb : list KnowledgeBase.t) (mf : nat)
      (docs : list string) (v : Fitted) (qs ans : list string) (j : nat)
      (q t : string) (threshold : R) :
  fit analyzer mf docs = Ok v ->
  List.length ans = List.length qs ->
  nth_error qs j = Some q ->
  In t (vocabulary_ v) ->
  In t (analyzer q) ->
  threshold <= 1 ->
  exists k q_k a,
    (k <= j)%nat
    /\ nth_error qs k = Some q_k
    /\ entry_similarity analyzer v q q_k = 1
    /\ (forall i q_i, (i < k)%nat -> nth_error qs i = Some q_i ->
                      entry_similarity analyzer v q q_i < 1)
    /\ nth_error ans k = Some a
    /\ get_response analyzer kb q threshold (index_of analyzer v qs ans)
       = (Ok (a, 1, false), index_of analyzer v qs ans).
Proof.
  intros Hfit Hlen Hq Htv Htq Hthr.
  assert (Hne : qs <> []) by (destruct qs; [destruct j|]; discriminate).
  assert (Hself : entry_similarity analyzer v q q = 1)
    by (eapply entry_similarity_self; eassumption).
  destruct (get_response_index kb q threshold v qs ans Hne Hlen)
    as (m & k & a & Hnth & Hle & Hfirst & Ha & Hresp).
  assert (Hj : nth_error (map (entry_similarity analyzer v q) qs) j = Some 1).
  { rewrite nth_error_map, Hq. cbn. rewrite Hself. reflexivity. }
  assert (Hm : m = 1).
  { apply Rle_antisym.
    - apply nth_error_In, in_map_iff in Hnth. destruct Hnth as (d & <- & _).
      eapply entry_similarity_bounds; eassumption.
    - apply Hle. eapply nth_error_In; eassumption. }
  subst m.
  assert (Hkj : (k <= j)%nat).
  { destruct (Nat.le_gt_cases k j) as [|Hlt]; [assumption|].
    pose proof (Hfirst j 1 Hlt Hj). lra. }
  rewrite nth_error_map in Hnth.
  destruct (nth_error qs k) as [q_k|] eqn:Hqk; [|discriminate].
  cbn in Hnth. exists k, q_k, a. repeat split; try assumption.
  - congruence.
  - intros i q_i Hi Hqi. apply (Hfirst i); [assumption|].
    rewrite nth_error_map, Hqi. reflexivity.
  - rewrite Hresp. destruct (Rge_dec 1 threshold); [reflexivity|lra].
Qed.

(** A query without any term of the vocabulary is handed off, for every
    positive threshold. *)
Lemma get_response_unknown (kb : list KnowledgeBase.t) (v : Fitted)
      (qs ans : list string) (q : string) (threshold : R) :
  qs <> [] ->
  List.length ans = List.length qs ->
  (forall t, In t (vocabulary_ v) -> ~ In t (analyzer q)) ->
  0 < threshold ->
  get_response analyzer kb q threshold (index_of analyzer v qs ans)
  = (Ok (handoff_message, 0, true), index_of analyzer v qs ans).
Proof.
  intros Hne Hlen Hunknown Hthr.
  destruct (get_response_index kb q threshold v qs ans Hne Hlen)
    as (m & k & a & Hnth & _ & _ & _ & Hresp).
  assert (Hm : m = 0).
  { apply nth_error_In, in_map_iff in Hnth. destruct Hnth as (d & <- & _).
    apply entry_similarity_unknown. assumption. }
  subst m. rewrite Hresp. destruct (Rge_dec 0 threshold); [lra|reflexivity].
Qed.

End EngineFacts.

(** ** The scenarios, evaluated *)

Module ScenarioFacts.

Import Sklearn SklearnFacts Scenario.
Local Open Scope R_scope.

Lemma fallback_vocabulary :
  vocabulary max_features (map analyzer fallback_questions)
  = ["greetings"; "hello"; "hi"]%string.
Proof. vm_compute. reflexivity. Qed.

Lemma fallback_fit :
  exists v,
    fit analyzer max_features fallback_questions = Ok v
    /\ vocabulary_ v = ["greetings"; "hello"; "hi"]%string.
Proof.
  unfold fit. rewrite fallback_vocabulary. eexists. split; reflexivity.
Qed.

Lemma fallback_index_eq :
  exists v,
    fit analyzer max_features fallback_questions = Ok v
    /\ vocabulary_ v = ["greetings"; "hello"; "hi"]%string
    /\ _initialize analyzer [] new_instance = (Ok tt, fallback_index)
    /\ fallback_index = index_of analyzer v fallback_questions fallback_answers.
Proof.
  destruct fallback_fit as (v & Hfit & Hv). exists v.
  assert (H : _initialize analyzer [] new_instance
              = (Ok tt, index_of analyzer v fallback_questions
                                 fallback_answers)).
  { rewrite _initialize_eq. cbn [loaded_questions loaded_answers filter].
    rewrite Hfit. reflexivity. }
  unfold fallback_index. rewrite H. repeat split; assumption.
Qed.

Lemma fallback_installed : installed analyzer fallback_index.
Proof.
  destruct fallback_index_eq as (v & _ & _ & H & _).
  exists [], new_instance. exact H.
Qed.

Lemma hello_fallback (kb : list KnowledgeBase.t) :
  get_response analyzer kb "hello" default_threshold fallback_index
  = (Ok ("Hello! How can I help you today?"%string, 1, false),
     fallback_index).
Proof.
  destruct fallback_index_eq as (v & Hfit & Hv & _ & ->).
  assert (Hthr : default_threshold <= 1) by (unfold default_threshold; lra).
  assert (Htv : In "hello"%string (vocabulary_ v))
    by (rewrite Hv; cbn; auto).
  assert (Htq : In "hello"%string (analyzer "hello"))
    by (vm_compute; auto).
  destruct (get_response_identical analyzer kb max_features
              fallback_questions v fallback_questions fallback_answers
              0 "hello" "hello" default_threshold Hfit eq_refl eq_refl
              Htv Htq Hthr)
    as (k & q_k & a & Hk & _ & _ & _ & Ha & Hresp).
  assert (k = 0)%nat by lia. subst k. cbn in Ha. inversion Ha; subst a.
  exact Hresp.
Qed.

Lemma gibberish_fallback (kb : list KnowledgeBase.t) :
  get_response analyzer kb gibberish default_threshold fallback_index
  = (Ok (handoff_message, 0, true), fallback_index).
Proof.
  destruct fallback_index_eq as (v & Hfit & Hv & _ & ->).
  apply get_response_unknown.
  - discriminate.
  - reflexivity.
  - rewrite Hv. intros t Ht. vm_compute in Ht |- *.
    intuition (subst; discriminate).
  - unfold default_threshold. lra.
Qed.

Lemma stop_word_index_eq :
  exists v,
    fit analyzer max_features
        ["Who are you?"; "What are your business hours?"]%string = Ok v
    /\ vocabulary_ v = ["business"; "business hours"; "hours"]%string
    /\ _initialize analyzer stop_word_kb new_instance
       = (Ok tt, stop_word_index)
    /\ stop_word_index
       = index_of analyzer v
           ["Who are you?"; "What are your business hours?"]%string
           [KnowledgeBase.answer who_are_you;
            KnowledgeBase.answer business_hours].
Proof.
  assert (Hvoc : vocabulary max_features
                   (map analyzer
                      ["Who are you?"; "What are your business hours?"]%string)
                 = ["business"; "business hours"; "hours"]%string)
    by (vm_compute; reflexivity).
  assert (Hfit : exists v,
             fit analyzer max_features
                 ["Who are you?"; "What are your business hours?"]%string
             = Ok v
             /\ vocabulary_ v = ["business"; "business hours"; "hours"]%string).
  { unfold fit. rewrite Hvoc. eexists. split; reflexivity. }
  destruct Hfit as (v & Hfit & Hv). exists v.
  assert (H : _initialize analyzer stop_word_kb new_instance
              = (Ok tt,
                 index_of analyzer v
                   ["Who are you?"; "What are your business hours?"]%string
                   [KnowledgeBase.answer who_are_you;
                    KnowledgeBase.answer business_hours])).
  { rewrite _initialize_eq.
    change (loaded_questions stop_word_kb)
      with ["Who are you?"; "What are your business hours?"]%string.
    rewrite Hfit. reflexivity. }
  unfold stop_word_index. rewrite H. repeat split; assumption.
Qed.

Lemma stop_word_installed : installed analyzer stop_word_index.
Proof.
  destruct stop_word_index_eq as (v & _ & _ & H & _).
  exists stop_word_kb, new_instance. exact H.
Qed.

Lemma who_are_you_stop_word (kb : list KnowledgeBase.t) :
  get_response analyzer kb "Who are you?" default_threshold stop_word_index
  = (Ok (handoff_message, 0, true), stop_word_index).
Proof.
  destruct stop_word_index_eq as (v & Hfit & Hv & _ & ->).
  apply get_response_unknown.
  - discriminate.
  - reflexivity.
  - intros t _. vm_compute. tauto.
  - unfold default_threshold. lra.
Qed.

End ScenarioFacts.

(** ** Properties of the matching engine *)

Section EngineProperties.

Import Sklearn SklearnFacts.
Local Open Scope R_scope.

Variable analyzer : string -> list string.

(** C1 (amended).  On every installed index, for every query text and every
    threshold, [get_response] returns and leaves the engine as it is.  With
    [m] the maximum of the cosine similarities between the query and the
    questions of the index and [k] the first entry that reaches it, the
    result is the answer of entry [k] with [escalate = false] when
    [m >= threshold], and otherwise the fixed hand-off message that is
    built into [get_response], with [escalate = true]; the similarity that
    is returned is [m] in both cases. *)
Theorem get_response_threshold (kb : list KnowledgeBase.t)
        (self : ChatbotEngine) (user_input : string) (threshold : R) :
  installed analyzer self ->
  exists v qs ans m k a,
    vectorizer self = Some (Some v)
    /\ questions self = Some qs
    /\ answers self = Some ans
    /\ nth_error (map (entry_similarity analyzer v user_input) qs) k = Some m
    /\ (forall x, In x (map (entry_similarity analyzer v user_input) qs) ->
                  x <= m)
    /\ (forall j x, (j < k)%nat ->
                    nth_error (map (entry_similarity analyzer v user_input) qs) j
                    = Some x -> x < m)
    /\ nth_error ans k = Some a
    /\ get_response analyzer kb user_input threshold self
       = (Ok (if Rge_dec m threshold then (a, m, false)
              else (handoff_message, m, true)),
          self).
Proof.
  intros Hinst. destruct (installed_inv analyzer self Hinst) as (kb0 & v & Hfit & ->).
  destruct (get_response_index analyzer kb user_input threshold v
              (loaded_questions kb0) (loaded_answers kb0)
              (loaded_questions_nonempty kb0) (loaded_lengths kb0))
    as (m & k & a & Hnth & Hle & Hfirst & Ha & Hresp).
  exists v, (loaded_questions kb0), (loaded_answers kb0), m, k, a.
  repeat split; assumption.
Qed.

(** In exact arithmetic, on every installed index and for every query text,
    [get_response] returns, and the similarity it returns lies between 0 and
    1: no weight is negative, and a normalised row has norm at most 1. *)
Theorem similarity_in_unit_interval (kb : list KnowledgeBase.t)
        (self : ChatbotEngine) (user_input : string) (threshold : R) :
  installed analyzer self ->
  exists response s escalate,
    get_response analyzer kb user_input threshold self
    = (Ok (response, s, escalate), self)
    /\ 0 <= s <= 1.
Proof.
  intros Hinst. destruct (installed_inv analyzer self Hinst) as (kb0 & v & Hfit & ->).
  destruct (get_response_index analyzer kb user_input threshold v
              (loaded_questions kb0) (loaded_answers kb0)
              (loaded_questions_nonempty kb0) (loaded_lengths kb0))
    as (m & k & a & Hnth & _ & _ & _ & Hresp).
  assert (Hm : 0 <= m <= 1).
  { apply nth_error_In, in_map_iff in Hnth. destruct Hnth as (d & <- & _).
    eapply entry_similarity_bounds; eassumption. }
  rewrite Hresp. destruct (Rge_dec m threshold); eauto.
Qed.

(** C8 (amended).  A rebuild is done in place, one assignment after the
    other.  Run without another request in between, these assignments are
    exactly [retrain_model], and when it succeeds the engine it leaves is
    an index all of whose parts (vocabulary and IDF weights, vectors,
    questions, answers) come from one fit of the entries that were active,
    whatever the engine was before. *)
Theorem rebuild_sequential (kb : list KnowledgeBase.t)
        (self : ChatbotEngine) :
  run_statements (initialize_statements analyzer kb) self
  = retrain_model analyzer kb self
  /\ forall self',
      retrain_model analyzer kb self = (Ok tt, self') ->
      exists v,
        fit analyzer max_features (loaded_questions kb) = Ok v
        /\ self' = index_of analyzer v (loaded_questions kb)
                            (loaded_answers kb).
Proof.
  split.
  - unfold retrain_model, _initialize, initialize_statements,
      load_statements, _load_knowledge_base.
    destruct (filter KnowledgeBase.is_active kb) as [|item items]; cbn;
      unfold bind; cbn;
      match goal with
      | |- context [fit ?a ?n ?qs] => destruct (fit a n qs)
      end; reflexivity.
  - intros self' H. unfold retrain_model in H. rewrite _initialize_eq in H.
    destruct (fit analyzer max_features (loaded_questions kb)) as [v|e].
    + exists v. split; [reflexivity|]. congruence.
    + discriminate.
Qed.

End EngineProperties.


(** ** The vocabulary of a fit *)

Section VocabularySize.

Import Sklearn SklearnFacts.

(** Every term of a vocabulary occurs in one of the documents. *)
Lemma insert_term_in (t u : string) (sorted : list string) :
  In t (insert_term u sorted) -> t = u \/ In t sorted.
Proof.
  induction sorted as [|x sorted IH]; cbn.
  - intros [<-|[]]. left. reflexivity.
  - destruct (String.compare u x); cbn.
    + auto.
    + intros [<-|H]; auto.
    + intros [<-|H]; [auto|]. destruct (IH H); auto.
Qed.

Lemma vocabulary_in (mf : nat) (docs : list (list string)) (t : string) :
  In t (vocabulary mf docs) -> In t (List.concat docs).
Proof.
  unfold vocabulary, limit_features. intros H.
  assert (Hs : In t (sorted_terms (List.concat docs))).
  { destruct (List.length (sorted_terms (List.concat docs)) <=? mf);
      [assumption|]. apply filter_In in H. tauto. }
  clear H. unfold sorted_terms in Hs.
  induction (List.concat docs) as [|x terms IH]; cbn in *; [assumption|].
  destruct (insert_term_in _ _ _ Hs) as [->|H]; auto.
Qed.

Lemma ascii_compare_lt_trans (a b c : ascii) :
  Ascii.compare a b = Lt -> Ascii.compare b c = Lt -> Ascii.compare a c = Lt.
Proof.
  unfold Ascii.compare. rewrite !N.compare_lt_iff. lia.
Qed.

Lemma string_compare_lt_trans (a b c : string) :
  String.compare a b = Lt -> String.compare b c = Lt ->
  String.compare a c = Lt.
Proof.
  revert b c. induction a as [|x a IH]; intros [|y b] [|z c]; cbn;
    try discriminate; try reflexivity.
  destruct (Ascii.compare x y) eqn:Hxy; try discriminate;
    destruct (Ascii.compare y z) eqn:Hyz; try discriminate; intros H1 H2.
  - apply Ascii.compare_eq_iff in Hxy, Hyz. subst.
    assert (Hzz : Ascii.compare z z = Eq).
    { unfold Ascii.compare. apply N.compare_refl. }
    rewrite Hzz. eapply IH; eassumption.
  - apply Ascii.compare_eq_iff in Hxy. subst. rewrite Hyz. reflexivity.
  - apply Ascii.compare_eq_iff in Hyz. subst. rewrite Hxy. reflexivity.
  - rewrite (ascii_compare_lt_trans _ _ _ Hxy Hyz). reflexivity.
Qed.

Lemma string_compare_refl (a : string) : String.compare a a = Eq.
Proof.
  induction a as [|x a IH]; cbn; [reflexivity|].
  unfold Ascii.compare. rewrite N.compare_refl. exact IH.
Qed.

Lemma string_ltb_irrefl (a : string) : String.ltb a a = false.
Proof. unfold String.ltb. rewrite string_compare_refl. reflexivity. Qed.

Lemma string_ltb_trans (a b c : string) :
  String.ltb a b = true -> String.ltb b c = true -> String.ltb a c = true.
Proof.
  unfold String.ltb.
  destruct (String.compare a b) eqn:Hab; try discriminate.
  destruct (String.compare b c) eqn:Hbc; try discriminate.
  rewrite (string_compare_lt_trans _ _ _ Hab Hbc). reflexivity.
Qed.

Lemma string_ltb_total (a b : string) :
  a <> b -> String.ltb a b = true \/ String.ltb b a = true.
Proof.
  intros Hne. unfold String.ltb. rewrite (String.compare_antisym b a).
  destruct (String.compare a b) eqn:Hab; cbn; auto.
  apply String.compare_eq_iff in Hab. contradiction.
Qed.

(** [insert_term] keeps a list strictly increasing. *)
Lemma insert_term_sorted (t : string) (sorted : list string) :
  StronglySorted (fun a b => String.ltb a b = true) sorted ->
  StronglySorted (fun a b => String.ltb a b = true) (insert_term t sorted).
Proof.
  intros Hs. induction Hs as [|x sorted Hs IH Hx]; cbn.
  - constructor; constructor.
  - destruct (String.compare t x) eqn:Htx.
    + constructor; assumption.
    + assert (Hlt : String.ltb t x = true) by (unfold String.ltb; rewrite Htx; reflexivity).
      constructor; [constructor; assumption|].
      constructor; [assumption|].
      eapply Forall_impl; [|exact Hx]. cbn. intros b Hb.
      eapply string_ltb_trans; eassumption.
    + assert (Hlt : String.ltb x t = true).
      { unfold String.ltb. rewrite String.compare_antisym, Htx. reflexivity. }
      constructor; [assumption|].
      apply Forall_forall. intros b Hb.
      destruct (insert_term_in _ _ _ Hb) as [->|Hb']; [assumption|].
      rewrite Forall_forall in Hx. apply Hx. assumption.
Qed.

Lemma sorted_terms_nodup (terms : list string) : NoDup (sorted_terms terms).
Proof.
  assert (Hs : StronglySorted (fun a b => String.ltb a b = true)
                              (sorted_terms terms)).
  { unfold sorted_terms. induction terms as [|t terms IH]; cbn.
    - constructor.
    - apply insert_term_sorted. assumption. }
  induction Hs as [|x l Hs IH Hx]; constructor; [|assumption].
  intros Hin. rewrite Forall_forall in Hx. specialize (Hx x Hin).
  rewrite string_ltb_irrefl in Hx. discriminate.
Qed.


(** The order by which [rank] counts: more frequent first, alphabetical
    among equally frequent terms. *)
Lemma rank_order (docs : list (list string)) :
  let before u t :=
    (term_frequency docs t <? term_frequency docs u)
    || ((term_frequency docs u =? term_frequency docs t) && String.ltb u t) in
  (forall t, before t t = false)
  /\ (forall a b c, before a b = true -> before b c = true ->
                    before a c = true)
  /\ (forall a b, a <> b -> before a b = true \/ before b a = true).
Proof.
  cbv zeta. split; [|split].
  - intros t. rewrite Nat.ltb_irrefl, string_ltb_irrefl, andb_false_r.
    reflexivity.
  - intros a b c Hab Hbc.
    apply orb_true_iff in Hab, Hbc. apply orb_true_iff.
    destruct Hab as [Hab|Hab], Hbc as [Hbc|Hbc].
    + left. apply Nat.ltb_lt in Hab, Hbc. apply Nat.ltb_lt. lia.
    + left. apply andb_true_iff in Hbc. destruct Hbc as (Hbc & _).
      apply Nat.ltb_lt in Hab. apply Nat.eqb_eq in Hbc. apply Nat.ltb_lt. lia.
    + left. apply andb_true_iff in Hab. destruct Hab as (Hab & _).
      apply Nat.ltb_lt in Hbc. apply Nat.eqb_eq in Hab. apply Nat.ltb_lt. lia.
    + right. apply andb_true_iff in Hab, Hbc.
      destruct Hab as (Hab & Hab'), Hbc as (Hbc & Hbc').
      apply Nat.eqb_eq in Hab, Hbc. apply andb_true_iff. split.
      * apply Nat.eqb_eq. lia.
      * eapply string_ltb_trans; eassumption.
  - intros a b Hne.
    destruct (Nat.lt_trichotomy (term_frequency docs a) (term_frequency docs b))
      as [Hlt|[Heq|Hgt]].
    + right. apply orb_true_iff. left. apply Nat.ltb_lt. assumption.
    + destruct (string_ltb_total a b Hne) as [H|H].
      * left. apply orb_true_iff. right. rewrite H, Heq, Nat.eqb_refl.
        reflexivity.
      * right. apply orb_true_iff. right. rewrite H, Heq, Nat.eqb_refl.
        reflexivity.
    + left. apply orb_true_iff. left. apply Nat.ltb_lt. assumption.
Qed.

Lemma filter_length_lt {T : Type} (p q : T -> bool) (l : list T) (x : T) :
  (forall y, In y l -> p y = true -> q y = true) ->
  In x l -> q x = true -> p x = false ->
  (List.length (filter p l) < List.length (filter q l))%nat.
Proof.
  intros Hpq Hx Hq Hp.
  assert (Hle : forall l', (forall y, In y l' -> p y = true -> q y = true) ->
                           (List.length (filter p l')
                            <= List.length (filter q l'))%nat).
  { induction l' as [|y l' IH]; intros H; cbn; [lia|].
    assert (IH' := IH (fun z Hz => H z (or_intror Hz))).
    destruct (p y) eqn:Hpy.
    - rewrite (H y (or_introl eq_refl) Hpy). cbn. lia.
    - destruct (q y); cbn; lia. }
  induction l as [|y l IH]; [destruct Hx|]. cbn.
  destruct Hx as [->|Hx].
  - rewrite Hp, Hq. cbn.
    pose proof (Hle l (fun z Hz => Hpq z (or_intror Hz))). lia.
  - assert (IH' := IH (fun z Hz => Hpq z (or_intror Hz)) Hx).
    destruct (p y) eqn:Hpy.
    + rewrite (Hpq y (or_introl eq_refl) Hpy). cbn. lia.
    + destruct (q y); cbn; lia.
Qed.

Lemma rank_injective (docs : list (list string)) (vocab : list string)
      (a b : string) :
  In a vocab -> In b vocab -> rank docs vocab a = rank docs vocab b -> a = b.
Proof.
  intros Ha Hb Heq. destruct (string_dec a b) as [|Hne]; [assumption|].
  exfalso. destruct (rank_order docs) as (Hirr & Htrans & Htotal).
  cbv zeta in *.
  assert (Hlt : forall x y, In x vocab -> In y vocab ->
                  (term_frequency docs y <? term_frequency docs x)
                  || ((term_frequency docs x =? term_frequency docs y)
                      && String.ltb x y) = true ->
                  (rank docs vocab x < rank docs vocab y)%nat).
  { intros x y Hx Hy Hxy. unfold rank.
    apply filter_length_lt with (x := x).
    - intros z _ Hz. eapply Htrans; eassumption.
    - assumption.
    - assumption.
    - apply Hirr. }
  destruct (Htotal a b Hne) as [H|H].
  - pose proof (Hlt a b Ha Hb H). lia.
  - pose proof (Hlt b a Hb Ha H). lia.
Qed.

Lemma nodup_map_in {T U : Type} (f : T -> U) (l : list T) :
  (forall x y, In x l -> In y l -> f x = f y -> x = y) ->
  NoDup l -> NoDup (map f l).
Proof.
  intros Hinj Hnd. induction Hnd as [|x l Hx Hnd IH]; cbn; constructor.
  - intros Hin. apply in_map_iff in Hin. destruct Hin as (y & Hy & Hin).
    assert (y = x) by (apply Hinj; [right; assumption|left; reflexivity|assumption]).
    subst. contradiction.
  - apply IH. intros a b Ha Hb. apply Hinj; right; assumption.
Qed.

(** [max_features] bounds the vocabulary. *)
Lemma vocabulary_length (mf : nat) (docs : list (list string)) :
  (List.length (vocabulary mf docs) <= mf)%nat.
Proof.
  unfold vocabulary, limit_features.
  set (vocab := sorted_terms (List.concat docs)).
  destruct (List.length vocab <=? mf) eqn:Hle; [apply Nat.leb_le; assumption|].
  set (kept := filter (fun t => rank docs vocab t <? mf) vocab).
  assert (Hnd : NoDup kept) by (apply NoDup_filter, sorted_terms_nodup).
  assert (Hranks : NoDup (map (rank docs vocab) kept)).
  { apply nodup_map_in; [|assumption].
    intros a b Ha Hb. apply filter_In in Ha, Hb.
    apply rank_injective; tauto. }
  assert (Hincl : incl (map (rank docs vocab) kept) (seq 0 mf)).
  { intros r Hr. apply in_map_iff in Hr. destruct Hr as (t & <- & Ht).
    apply filter_In in Ht. destruct Ht as (_ & Ht). apply Nat.ltb_lt in Ht.
    apply in_seq. lia. }
  pose proof (NoDup_incl_length Hranks Hincl) as H.
  rewrite length_map, length_seq in H. exact H.
Qed.

(** What a fit stores is well formed. *)
Lemma fit_well_formed (analyzer : string -> list string)
      (docs : list string) (v : Fitted) :
  fit analyzer max_features docs = Ok v -> Binary64.well_formed v.
Proof.
  intros Hfit.
  destruct (fit_vocabulary analyzer max_features docs v Hfit)
    as (Hvoc & _ & Hidf).
  unfold Binary64.well_formed. split; [|split].
  - rewrite Hidf. apply length_map.
  - rewrite Hvoc. apply vocabulary_length.
  - rewrite Hidf. apply Forall_map, Forall_forall. intros t _.
    pose proof (idf_ge_1 (map analyzer docs) t).
    apply Rlt_le_trans with 1%R; [apply Rlt_0_1|assumption].
Qed.

End VocabularySize.

(** ** Rounded arithmetic *)

Section RoundedFacts.

Import Sklearn SklearnFacts.
Local Open Scope R_scope.

Variable fl : R -> R.
Hypothesis Hfl : Binary64.faithful fl.

Lemma unit_roundoff_bounds :
  0 < Binary64.unit_roundoff /\ Binary64.unit_roundoff * 9007199254740992 = 1.
Proof.
  unfold Binary64.unit_roundoff.
  assert (H : 2 ^ 53 = 9007199254740992) by (simpl; lra).
  rewrite H. split.
  - apply Rinv_0_lt_compat. lra.
  - apply Rinv_l. lra.
Qed.

Lemma fl_between (x : R) :
  0 <= x ->
  (1 - Binary64.unit_roundoff) * x <= fl x <= (1 + Binary64.unit_roundoff) * x.
Proof.
  intros Hx. pose proof (Hfl x) as H.
  rewrite (Rabs_pos_eq x Hx) in H.
  pose proof (Rle_abs (fl x - x)) as H1.
  pose proof (Rle_abs (- (fl x - x))) as H2. rewrite Rabs_Ropp in H2.
  lra.
Qed.

Lemma fl_nonneg (x : R) : 0 <= x -> 0 <= fl x.
Proof.
  intros Hx. destruct (fl_between x Hx) as [H _].
  destruct unit_roundoff_bounds as [Hu0 Hu1].
  assert (0 <= (1 - Binary64.unit_roundoff) * x).
  { apply Rmult_le_pos; [|assumption]. nra. }
  lra.
Qed.

Lemma fl_pos (x : R) : 0 < x -> 0 < fl x.
Proof.
  intros Hx. destruct (fl_between x (Rlt_le _ _ Hx)) as [H _].
  destruct unit_roundoff_bounds as [Hu0 Hu1].
  assert (0 < (1 - Binary64.unit_roundoff) * x).
  { apply Rmult_lt_0_compat; [|assumption]. nra. }
  lra.
Qed.

Lemma fl_zero_inv (x : R) : 0 <= x -> fl x = 0 -> x = 0.
Proof.
  intros [Hx|Hx] H; [|congruence].
  pose proof (fl_pos x Hx). lra.
Qed.


#[local] Abbreviation u := Binary64.unit_roundoff.

Lemma u_small : 0 < u /\ u < 1 / 1000000.
Proof. destruct unit_roundoff_bounds as [H0 H1]. split; [assumption|lra]. Qed.

Lemma total_nonneg {T : Type} (G : T -> R) (xs : list T) :
  (forall x, In x xs -> 0 <= G x) -> 0 <= fold_right Rplus 0 (map G xs).
Proof.
  induction xs as [|x xs IH]; cbn; intros H; [lra|].
  pose proof (H x (or_introl eq_refl)). assert (0 <= fold_right Rplus 0 (map G xs)) by auto.
  lra.
Qed.

(** A sum that is accumulated with one rounding per addition, of terms that
    are each within one rounding of their exact value. *)
Lemma accumulate_bounds {T : Type} (g G : T -> R) (xs : list T) (acc : R) :
  0 <= acc ->
  (forall x, In x xs ->
             0 <= G x /\ (1 - u) * G x <= g x <= (1 + u) * G x) ->
  0 <= fold_left (fun s x => fl (s + g x)) xs acc
  /\ (1 - u) ^ List.length xs
     * (acc + (1 - u) * fold_right Rplus 0 (map G xs))
     <= fold_left (fun s x => fl (s + g x)) xs acc
  /\ fold_left (fun s x => fl (s + g x)) xs acc
     <= (1 + u) ^ List.length xs
        * (acc + (1 + u) * fold_right Rplus 0 (map G xs)).
Proof.
  destruct u_small as [Hu0 Hu1].
  revert acc. induction xs as [|x xs IH]; intros acc Hacc Hg.
  - cbn. split; [assumption|]. split; lra.
  - cbn [fold_left List.length map fold_right].
    destruct (Hg x (or_introl eq_refl)) as (HG & Hlo & Hhi).
    assert (Hm : 0 <= (1 - u) * G x) by (apply Rmult_le_pos; lra).
    assert (Hsum : 0 <= acc + g x) by lra.
    destruct (fl_between _ Hsum) as [Hflo Hfhi].
    assert (Hacc' : 0 <= fl (acc + g x)) by (apply fl_nonneg; assumption).
    assert (Hg' : forall y, In y xs ->
                   0 <= G y /\ (1 - u) * G y <= g y <= (1 + u) * G y)
      by (intros y Hy; apply Hg; right; assumption).
    destruct (IH _ Hacc' Hg') as (H0 & Hl & Hh).
    assert (HT : 0 <= fold_right Rplus 0 (map G xs)).
    { apply total_nonneg. intros y Hy. apply Hg'. assumption. }
    set (T' := fold_right Rplus 0 (map G xs)) in *.
    set (r := fold_left (fun s x0 => fl (s + g x0)) xs (fl (acc + g x))) in *.
    assert (Hmk : 0 <= (1 - u) ^ List.length xs) by (apply pow_le; lra).
    assert (Hpk : 0 <= (1 + u) ^ List.length xs) by (apply pow_le; lra).
    split; [assumption|]. split.
    + eapply Rle_trans; [|exact Hl].
      rewrite <- tech_pow_Rmult.
      replace ((1 - u) * (1 - u) ^ List.length xs * (acc + (1 - u) * (G x + T')))
        with ((1 - u) ^ List.length xs * ((1 - u) * (acc + (1 - u) * (G x + T'))))
        by ring.
      apply Rmult_le_compat_l; [assumption|].
      assert ((1 - u) * (1 - u) * T' <= (1 - u) * T').
      { assert (0 <= (1 - u) * T') by (apply Rmult_le_pos; lra).
        assert (0 <= u * ((1 - u) * T')) by (apply Rmult_le_pos; lra). lra. }
      assert ((1 - u) * ((1 - u) * G x) <= (1 - u) * g x)
        by (apply Rmult_le_compat_l; lra).
      lra.
    + eapply Rle_trans; [exact Hh|].
      rewrite <- tech_pow_Rmult.
      replace ((1 + u) * (1 + u) ^ List.length xs * (acc + (1 + u) * (G x + T')))
        with ((1 + u) ^ List.length xs * ((1 + u) * (acc + (1 + u) * (G x + T'))))
        by ring.
      apply Rmult_le_compat_l; [assumption|].
      assert ((1 + u) * T' <= (1 + u) * (1 + u) * T').
      { assert (0 <= (1 + u) * T') by (apply Rmult_le_pos; lra).
        assert (0 <= u * ((1 + u) * T')) by (apply Rmult_le_pos; lra). lra. }
      assert ((1 + u) * g x <= (1 + u) * ((1 + u) * G x))
        by (apply Rmult_le_compat_l; lra).
      lra.
Qed.


#[local] Abbreviation A := (Binary64.rounded fl).

Lemma sum_sq_total (row : list R) :
  fold_right Rplus 0 (map (fun x => x * x) row) = sum_sq row.
Proof. induction row as [|x row IH]; cbn; [reflexivity|]. rewrite IH. reflexivity. Qed.

Lemma dot_total (x y : list R) :
  fold_right Rplus 0 (map (fun p => fst p * snd p) (combine x y)) = dot x y.
Proof.
  revert y. induction x as [|a x IH]; intros [|b y]; cbn; try reflexivity.
  rewrite IH. reflexivity.
Qed.

Lemma square_between (x : R) :
  0 <= x * x /\ (1 - u) * (x * x) <= fl (x * x) <= (1 + u) * (x * x).
Proof.
  assert (H : 0 <= x * x) by (pose proof (Rle_0_sqr x) as H; unfold Rsqr in H; exact H).
  split; [assumption|]. apply fl_between. assumption.
Qed.

(** The rounded sum of squares against the exact one. *)
Lemma sum_sq_rounded (row : list R) :
  0 <= Binary64.sum_sq A row
  /\ (1 - u) ^ S (List.length row) * sum_sq row <= Binary64.sum_sq A row
  /\ Binary64.sum_sq A row <= (1 + u) ^ S (List.length row) * sum_sq row.
Proof.
  pose proof (accumulate_bounds (fun x => fl (x * x)) (fun x => x * x) row 0
                                (Rle_refl 0)
                                (fun x _ => square_between x)) as (H0 & Hl & Hh).
  rewrite sum_sq_total in Hl, Hh. rewrite <- !tech_pow_Rmult.
  unfold Binary64.sum_sq. cbn [Binary64.add Binary64.mul Binary64.zero Binary64.rounded].
  split; [exact H0|]. split; [eapply Rle_trans; [|exact Hl]|eapply Rle_trans; [exact Hh|]];
    apply Req_le; ring.
Qed.

Lemma product_between (p : R * R) (x y : list R) :
  nonneg x -> nonneg y -> In p (combine x y) ->
  0 <= fst p * snd p
  /\ (1 - u) * (fst p * snd p) <= fl (fst p * snd p) <= (1 + u) * (fst p * snd p).
Proof.
  intros Hx Hy Hp. destruct p as [a b]. cbn [fst snd].
  pose proof (in_combine_l _ _ _ _ Hp) as Ha.
  pose proof (in_combine_r _ _ _ _ Hp) as Hb.
  unfold nonneg in *. rewrite Forall_forall in Hx, Hy.
  assert (H : 0 <= a * b) by (apply Rmult_le_pos; auto).
  split; [assumption|]. apply fl_between. assumption.
Qed.

(** The rounded product of two rows without negative weights. *)
Lemma dot_rounded (x y : list R) :
  nonneg x -> nonneg y ->
  0 <= Binary64.dot A x y
  /\ (1 - u) ^ S (List.length (combine x y)) * dot x y <= Binary64.dot A x y
  /\ Binary64.dot A x y <= (1 + u) ^ S (List.length (combine x y)) * dot x y.
Proof.
  intros Hx Hy.
  pose proof (accumulate_bounds (fun p => fl (fst p * snd p))
                                (fun p => fst p * snd p) (combine x y) 0
                                (Rle_refl 0)
                                (fun p Hp => product_between p x y Hx Hy Hp))
    as (H0 & Hl & Hh).
  rewrite dot_total in Hl, Hh. rewrite <- !tech_pow_Rmult.
  unfold Binary64.dot. cbn [Binary64.add Binary64.mul Binary64.zero Binary64.rounded].
  split; [exact H0|]. split; [eapply Rle_trans; [|exact Hl]|eapply Rle_trans; [exact Hh|]];
    apply Req_le; ring.
Qed.


Lemma scaled_squares (h : R -> R) (N c1 c2 : R) (row : list R) :
  nonneg row -> 0 <= c1 ->
  (forall x, 0 <= x -> 0 <= h x /\ c1 * x <= h x * N <= c2 * x) ->
  nonneg (map h row)
  /\ c1 * c1 * sum_sq row <= sum_sq (map h row) * (N * N)
  /\ sum_sq (map h row) * (N * N) <= c2 * c2 * sum_sq row.
Proof.
  intros Hrow Hc1 Hh. induction Hrow as [|x row Hx Hrow IH]; cbn.
  - split; [constructor|]. split; lra.
  - destruct IH as (Hn & Hl & Hu). destruct (Hh x Hx) as (H0 & Hlo & Hhi).
    split; [constructor; assumption|].
    assert (Hc1x : 0 <= c1 * x) by (apply Rmult_le_pos; assumption).
    assert (H1 : (c1 * x) * (c1 * x) <= (h x * N) * (h x * N))
      by (apply Rmult_le_compat; lra).
    assert (H2 : (h x * N) * (h x * N) <= (c2 * x) * (c2 * x))
      by (apply Rmult_le_compat; lra).
    split; lra.
Qed.

Lemma fl_0 : fl 0 = 0.
Proof.
  pose proof (Hfl 0) as H. rewrite Rabs_R0, Rmult_0_r, Rminus_0_r in H.
  pose proof (Rabs_pos (fl 0)). destruct (Req_dec (fl 0) 0) as [|Hne]; [assumption|].
  pose proof (Rabs_pos_lt _ Hne). lra.
Qed.

(** A row as the library normalises it: its squared norm is one up to the
    roundings of the sum, the root and the divisions. *)
Lemma l2_normalize_rounded (row : list R) :
  nonneg row ->
  List.length (Binary64.l2_normalize A row) = List.length row
  /\ nonneg (Binary64.l2_normalize A row)
  /\ sum_sq (Binary64.l2_normalize A row) * (1 - u) ^ (3 + List.length row)
     <= (1 + u) ^ 2
  /\ (0 < sum_sq row ->
      (1 - u) ^ 2
      <= sum_sq (Binary64.l2_normalize A row) * (1 + u) ^ (3 + List.length row)).
Proof.
  intros Hrow. destruct u_small as [Hu0 Hu1].
  destruct (sum_sq_rounded row) as (HS0 & HSl & HSh).
  pose proof (sum_sq_nonneg row) as Hsum.
  assert (Hmk : 0 < (1 - u) ^ S (List.length row)) by (apply pow_lt; lra).
  assert (Hpk : 0 < (1 + u) ^ S (List.length row)) by (apply pow_lt; lra).
  unfold Binary64.l2_normalize.
  cbn [Binary64.sqrt Binary64.is_zero Binary64.div Binary64.rounded].
  set (S_ := Binary64.sum_sq A row) in *.
  destruct (Req_dec_T (fl (sqrt S_)) 0) as [Hz|Hnz].
  - assert (HS : S_ = 0).
    { apply sqrt_eq_0; [assumption|].
      apply fl_zero_inv; [apply sqrt_pos|assumption]. }
    assert (Hzero : sum_sq row = 0).
    { rewrite HS in HSl.
      destruct Hsum as [Hlt|Heq]; [|symmetry; assumption].
      pose proof (Rmult_lt_0_compat _ _ Hmk Hlt). lra. }
    split; [reflexivity|]. split; [assumption|]. rewrite Hzero. split.
    + rewrite Rmult_0_l. apply pow_le. lra.
    + intros H. lra.
  - set (N := fl (sqrt S_)) in *.
    assert (HSpos : 0 < S_).
    { destruct HS0 as [Hlt|Heq]; [assumption|].
      exfalso. apply Hnz. unfold N. rewrite <- Heq, sqrt_0. apply fl_0. }
    assert (Hsqrt : 0 < sqrt S_) by (apply sqrt_lt_R0; assumption).
    destruct (fl_between _ (Rlt_le _ _ Hsqrt)) as [HNl HNh]. fold N in HNl, HNh.
    assert (HN : 0 < N) by (apply fl_pos; assumption).
    assert (Hsq : sqrt S_ * sqrt S_ = S_) by (apply sqrt_sqrt; lra).
    assert (Hpos : 0 < sum_sq row).
    { destruct Hsum as [Hlt|Heq]; [assumption|].
      rewrite <- Heq, Rmult_0_r in HSh. lra. }
    assert (Hh : forall x, 0 <= x ->
                  0 <= fl (x / N)
                  /\ (1 - u) * x <= fl (x / N) * N <= (1 + u) * x).
    { intros x Hx.
      assert (Hq : 0 <= x / N) by (apply Rmult_le_pos; [assumption|apply Rlt_le, Rinv_0_lt_compat; assumption]).
      destruct (fl_between _ Hq) as [Hl Hh].
      assert (Hx' : x / N * N = x) by (field; lra).
      split; [apply fl_nonneg; assumption|].
      split.
      - replace ((1 - u) * x) with ((1 - u) * (x / N) * N) by (rewrite Rmult_assoc, Hx'; reflexivity).
        apply Rmult_le_compat_r; lra.
      - replace ((1 + u) * x) with ((1 + u) * (x / N) * N) by (rewrite Rmult_assoc, Hx'; reflexivity).
        apply Rmult_le_compat_r; lra. }
    destruct (scaled_squares (fun x => fl (x / N)) N (1 - u) (1 + u) row Hrow
                             ltac:(lra) Hh) as (Hn & Hl & Hu).
    set (a := map (fun x => fl (x / N)) row) in *.
    pose proof (sum_sq_nonneg a) as Ha.
    (* bounds on N * N *)
    assert (HNNl : (1 - u) * (1 - u) * S_ <= N * N).
    { rewrite <- Hsq.
      replace ((1 - u) * (1 - u) * (sqrt S_ * sqrt S_))
        with (((1 - u) * sqrt S_) * ((1 - u) * sqrt S_)) by ring.
      apply Rmult_le_compat; try lra;
        apply Rmult_le_pos; lra. }
    assert (HNNh : N * N <= (1 + u) * (1 + u) * S_).
    { rewrite <- Hsq.
      replace ((1 + u) * (1 + u) * (sqrt S_ * sqrt S_))
        with (((1 + u) * sqrt S_) * ((1 + u) * sqrt S_)) by ring.
      apply Rmult_le_compat; lra. }
    split; [apply length_map|]. split; [assumption|].
    replace (3 + List.length row)%nat with (2 + S (List.length row))%nat by lia.
    rewrite !pow_add. split.
    + (* sum_sq a * (m^2 * m^(n+1)) <= p^2 *)
      apply Rmult_le_reg_r with (sum_sq row); [assumption|].
      assert (H1 : (1 - u) ^ 2 * (1 - u) ^ S (List.length row) * sum_sq row
                   <= N * N).
      { eapply Rle_trans; [|exact HNNl].
        replace ((1 - u) ^ 2 * (1 - u) ^ S (List.length row) * sum_sq row)
          with ((1 - u) * (1 - u)
                * ((1 - u) ^ S (List.length row) * sum_sq row)) by ring.
        apply Rmult_le_compat_l; [|assumption].
        apply Rmult_le_pos; lra. }
      replace (sum_sq a * ((1 - u) ^ 2 * (1 - u) ^ S (List.length row)) * sum_sq row)
        with (sum_sq a * ((1 - u) ^ 2 * (1 - u) ^ S (List.length row) * sum_sq row))
        by ring.
      eapply Rle_trans; [apply Rmult_le_compat_l; [assumption|exact H1]|].
      eapply Rle_trans; [exact Hu|]. apply Req_le. ring.
    + intros _.
      apply Rmult_le_reg_r with (sum_sq row); [assumption|].
      assert (H1 : N * N
                   <= (1 + u) ^ 2 * (1 + u) ^ S (List.length row) * sum_sq row).
      { eapply Rle_trans; [exact HNNh|].
        replace ((1 + u) ^ 2 * (1 + u) ^ S (List.length row) * sum_sq row)
          with ((1 + u) * (1 + u)
                * ((1 + u) ^ S (List.length row) * sum_sq row)) by ring.
        apply Rmult_le_compat_l; [|assumption].
        apply Rmult_le_pos; lra. }
      replace (sum_sq a * ((1 + u) ^ 2 * (1 + u) ^ S (List.length row)) * sum_sq row)
        with (sum_sq a * ((1 + u) ^ 2 * (1 + u) ^ S (List.length row) * sum_sq row))
        by ring.
      eapply Rle_trans; [|apply Rmult_le_compat_l; [assumption|exact H1]].
      eapply Rle_trans; [|exact Hl]. apply Req_le. ring.
Qed.


(** The similarity of two rows without negative weights, normalised twice
    and multiplied with one rounding per operation. *)
Lemma similarity_rounded (x y : list R) (n : nat) :
  nonneg x -> nonneg y -> List.length x = n -> List.length y = n ->
  0 <= Binary64.cosine A (Binary64.l2_normalize A x) (Binary64.l2_normalize A y)
  /\ Binary64.cosine A (Binary64.l2_normalize A x) (Binary64.l2_normalize A y)
     * (1 - u) ^ (3 + n)
     <= (1 + u) ^ (3 + n).
Proof.
  intros Hx Hy Hlx Hly. destruct u_small as [Hu0 Hu1].
  destruct (l2_normalize_rounded x Hx) as (Hl1 & Hn1 & _ & _).
  destruct (l2_normalize_rounded y Hy) as (Hl1' & Hn1' & _ & _).
  destruct (l2_normalize_rounded _ Hn1) as (Hl2 & Hn2 & Hb2 & _).
  destruct (l2_normalize_rounded _ Hn1') as (Hl2' & Hn2' & Hb2' & _).
  unfold Binary64.cosine.
  set (x2 := Binary64.l2_normalize A (Binary64.l2_normalize A x)) in *.
  set (y2 := Binary64.l2_normalize A (Binary64.l2_normalize A y)) in *.
  rewrite Hl1, Hlx in Hl2, Hb2. rewrite Hl1', Hly in Hl2', Hb2'.
  destruct (dot_rounded x2 y2 Hn2 Hn2') as (H0 & _ & Hh).
  rewrite length_combine, Hl2, Hl2', Nat.min_id in Hh.
  split; [assumption|].
  pose proof (two_dot_le x2 y2) as H2.
  assert (Hm : 0 < (1 - u) ^ (3 + n)) by (apply pow_lt; lra).
  assert (Hp : 0 < (1 + u) ^ S n) by (apply pow_lt; lra).
  assert (Hd : dot x2 y2 * (1 - u) ^ (3 + n) <= (1 + u) ^ 2).
  { assert (2 * (dot x2 y2 * (1 - u) ^ (3 + n))
            <= (sum_sq x2 + sum_sq y2) * (1 - u) ^ (3 + n)).
    { rewrite <- Rmult_assoc. apply Rmult_le_compat_r; lra. }
    lra. }
  replace ((1 + u) ^ (3 + n)) with ((1 + u) ^ S n * (1 + u) ^ 2)
    by (replace (3 + n)%nat with (S n + 2)%nat by lia; rewrite pow_add; reflexivity).
  eapply Rle_trans.
  - apply Rmult_le_compat_r; [lra|exact Hh].
  - rewrite Rmult_assoc. apply Rmult_le_compat_l; lra.
Qed.

(** The similarity of a row that is not zero to itself. *)
Lemma self_similarity_rounded (x : list R) (n : nat) :
  nonneg x -> List.length x = n -> 0 < sum_sq x ->
  (1 - u) ^ (3 + n)
  <= Binary64.cosine A (Binary64.l2_normalize A x) (Binary64.l2_normalize A x)
     * (1 + u) ^ (3 + n).
Proof.
  intros Hx Hlx Hpos. destruct u_small as [Hu0 Hu1].
  destruct (l2_normalize_rounded x Hx) as (Hl1 & Hn1 & _ & Hlow1).
  specialize (Hlow1 Hpos).
  assert (Hpos1 : 0 < sum_sq (Binary64.l2_normalize A x)).
  { assert (Hp : 0 < (1 + u) ^ (3 + List.length x)) by (apply pow_lt; lra).
    assert (Hm : 0 < (1 - u) ^ 2) by (apply pow_lt; lra).
    pose proof (sum_sq_nonneg (Binary64.l2_normalize A x)) as [Hlt|Heq];
      [assumption|].
    rewrite <- Heq, Rmult_0_l in Hlow1. lra. }
  destruct (l2_normalize_rounded _ Hn1) as (Hl2 & Hn2 & _ & Hlow2).
  specialize (Hlow2 Hpos1).
  unfold Binary64.cosine.
  set (x2 := Binary64.l2_normalize A (Binary64.l2_normalize A x)) in *.
  rewrite Hl1, Hlx in Hl2, Hlow2.
  destruct (dot_rounded x2 x2 Hn2 Hn2) as (H0 & Hl & _).
  rewrite length_combine, Hl2, Nat.min_id, dot_self in Hl.
  assert (Hp : 0 < (1 + u) ^ (3 + n)) by (apply pow_lt; lra).
  assert (Hm : 0 < (1 - u) ^ S n) by (apply pow_lt; lra).
  replace ((1 - u) ^ (3 + n)) with ((1 - u) ^ S n * (1 - u) ^ 2)
    by (replace (3 + n)%nat with (S n + 2)%nat by lia; rewrite pow_add; reflexivity).
  eapply Rle_trans.
  - apply Rmult_le_compat_l; [lra|exact Hlow2].
  - rewrite <- Rmult_assoc. apply Rmult_le_compat_r; lra.
Qed.

End RoundedFacts.

Section Slack.

Local Open Scope R_scope.
#[local] Abbreviation u := Binary64.unit_roundoff.

Lemma bernoulli_lower (k : nat) : 1 - INR k * u <= (1 - u) ^ k.
Proof.
  destruct unit_roundoff_bounds as [Hu0 Hu1].
  induction k as [|k IH].
  - cbn. lra.
  - rewrite S_INR. cbn [pow].
    assert (H : (1 - u) * (1 - INR k * u) <= (1 - u) * (1 - u) ^ k)
      by (apply Rmult_le_compat_l; lra).
    pose proof (pos_INR k). assert (0 <= INR k * u * u).
    { apply Rmult_le_pos; [apply Rmult_le_pos|]; lra. }
    lra.
Qed.

Lemma bernoulli_upper (k : nat) :
  INR k * u < 1 -> (1 + u) ^ k * (1 - INR k * u) <= 1.
Proof.
  destruct unit_roundoff_bounds as [Hu0 Hu1].
  induction k as [|k IH]; intros Hk.
  - cbn. lra.
  - rewrite S_INR in *. cbn [pow]. pose proof (pos_INR k) as Hk0.
    assert (Hk' : INR k * u < 1) by lra. specialize (IH Hk').
    assert (Hp : 0 <= (1 + u) ^ k) by (apply pow_le; lra).
    assert (H : (1 + u) * (1 - (INR k + 1) * u) <= 1 - INR k * u).
    { assert (0 <= (INR k + 1) * u * u).
      { apply Rmult_le_pos; [apply Rmult_le_pos|]; lra. }
      lra. }
    replace ((1 + u) * (1 + u) ^ k * (1 - (INR k + 1) * u))
      with ((1 + u) ^ k * ((1 + u) * (1 - (INR k + 1) * u))) by ring.
    eapply Rle_trans; [apply Rmult_le_compat_l; [assumption|exact H]|].
    assumption.
Qed.

Lemma slack_bounds (k : nat) :
  (k <= 1003)%nat ->
  0 < 1 - INR k * u
  /\ 1 <= (1 + Binary64.rounding_slack) * ((1 - INR k * u) * (1 - INR k * u))
  /\ 1 - Binary64.rounding_slack <= (1 - INR k * u) * (1 - INR k * u).
Proof.
  intros Hk. destruct unit_roundoff_bounds as [Hu0 Hu1].
  apply le_INR in Hk. pose proof (pos_INR k) as Hk0.
  replace (INR 1003) with 1003 in Hk by (rewrite INR_IZR_INZ; reflexivity).
  assert (Hc : INR k * u <= 1003 * u) by (apply Rmult_le_compat_r; lra).
  assert (Hc0 : 0 <= INR k * u) by (apply Rmult_le_pos; lra).
  set (c := INR k * u) in *.
  assert (Hs : Binary64.rounding_slack * 1000000000000 = 1).
  { unfold Binary64.rounding_slack.
    replace (10 ^ 12) with 1000000000000 by (simpl; lra).
    apply Rinv_l. lra. }
  assert (Hcc : 0 <= c * c) by (apply Rmult_le_pos; assumption).
  assert (Hsl : 0 < Binary64.rounding_slack) by lra.
  assert (Hsc : 0 <= Binary64.rounding_slack * c)
    by (apply Rmult_le_pos; lra).
  assert (Hscc : 0 <= Binary64.rounding_slack * (c * c))
    by (apply Rmult_le_pos; lra).
  assert (Hsc' : Binary64.rounding_slack * c <= Binary64.rounding_slack * (1003 * u))
    by (apply Rmult_le_compat_l; lra).
  assert (Hsu : Binary64.rounding_slack * (1003 * u) <= 1003 * u).
  { assert (Binary64.rounding_slack <= 1) by lra.
    assert (0 <= 1003 * u) by lra.
    replace (1003 * u) with (1 * (1003 * u)) at 2 by ring.
    apply Rmult_le_compat_r; assumption. }
  split; [lra|]. split.
  - (* (1+s)(1-c)^2 = 1 + s - 2c - 2sc + c^2 + s c^2 >= 1 + s - 2c - 2 s c *)
    replace ((1 + Binary64.rounding_slack) * ((1 - c) * (1 - c)))
      with (1 + Binary64.rounding_slack - 2 * c
            - 2 * (Binary64.rounding_slack * c) + c * c
            + Binary64.rounding_slack * (c * c)) by ring.
    lra.
  - replace ((1 - c) * (1 - c)) with (1 - 2 * c + c * c) by ring. lra.
Qed.

(** What the bounds of [similarity_rounded] and [self_similarity_rounded]
    come to for an index with at most [max_features] terms. *)
Lemma ratio_upper (s : R) (k : nat) :
  (k <= 1003)%nat -> 0 <= s ->
  s * (1 - u) ^ k <= (1 + u) ^ k ->
  s <= 1 + Binary64.rounding_slack.
Proof.
  intros Hk Hs H. destruct (slack_bounds k Hk) as (Hd & Hup & _).
  pose proof (bernoulli_lower k) as Hl.
  pose proof (bernoulli_upper k ltac:(lra)) as Hh.
  set (d := 1 - INR k * u) in *.
  assert (H1 : s * d <= (1 + u) ^ k).
  { eapply Rle_trans; [|exact H]. apply Rmult_le_compat_l; assumption. }
  assert (H2 : s * d * d <= 1).
  { eapply Rle_trans; [|exact Hh]. apply Rmult_le_compat_r; lra. }
  assert (Hdd : 0 < d * d) by (apply Rmult_lt_0_compat; assumption).
  apply Rmult_le_reg_r with (d * d); [assumption|].
  eapply Rle_trans; [|exact Hup]. lra.
Qed.

Lemma ratio_lower (s : R) (k : nat) :
  (k <= 1003)%nat ->
  (1 - u) ^ k <= s * (1 + u) ^ k ->
  1 - Binary64.rounding_slack <= s.
Proof.
  intros Hk H. destruct (slack_bounds k Hk) as (Hd & _ & Hlow).
  destruct unit_roundoff_bounds as [Hu0 Hu1].
  pose proof (bernoulli_lower k) as Hl.
  pose proof (bernoulli_upper k ltac:(lra)) as Hh.
  set (d := 1 - INR k * u) in *.
  assert (Hp : 0 < (1 + u) ^ k) by (apply pow_lt; lra).
  assert (Hs : 0 <= s).
  { destruct (Rle_or_lt 0 s) as [|Hneg]; [assumption|].
    assert (s * (1 + u) ^ k < 0).
    { rewrite Rmult_comm. apply Rmult_pos_neg; assumption. }
    lra. }
  (* d <= s p^k, p^k d <= 1, so d*d <= s p^k d <= s *)
  assert (H1 : d * d <= s * ((1 + u) ^ k * d)).
  { rewrite <- Rmult_assoc. apply Rmult_le_compat_r; lra. }
  assert (H2 : s * ((1 + u) ^ k * d) <= s * 1)
    by (apply Rmult_le_compat_l; assumption).
  lra.
Qed.

End Slack.

Section RoundedEngine.

Import Sklearn SklearnFacts.
Local Open Scope R_scope.

Variable analyzer : string -> list string.
Variable fl : R -> R.
Hypothesis Hfl : Binary64.faithful fl.

#[local] Abbreviation A := (Binary64.rounded fl).

Lemma tfidf_row_rounded (v : Fitted) (terms : list string) :
  Binary64.well_formed v ->
  nonneg (Binary64.tfidf_row A (vocabulary_ v) (idf_ v) terms)
  /\ List.length (Binary64.tfidf_row A (vocabulary_ v) (idf_ v) terms)
     = List.length (vocabulary_ v).
Proof.
  intros (Hlen & _ & Hw). unfold Binary64.tfidf_row. split.
  - unfold nonneg. apply Forall_map, Forall_forall. intros [t w] Hin.
    apply in_combine_r in Hin. rewrite Forall_forall in Hw.
    pose proof (Hw w Hin).
    cbn [Binary64.mul Binary64.of_nat Binary64.rounded].
    apply fl_nonneg; [assumption|].
    apply Rmult_le_pos; [|lra].
    apply fl_nonneg; [assumption|apply pos_INR].
  - rewrite length_map, length_combine, Hlen. apply Nat.min_id.
Qed.

Lemma weight_of (vocab : list string) (idf : list R) (t : string) :
  List.length idf = List.length vocab -> In t vocab ->
  exists w, In (t, w) (combine vocab idf).
Proof.
  revert idf. induction vocab as [|x vocab IH]; intros [|w idf] Hlen Hin;
    cbn in *; try tauto; try discriminate.
  destruct Hin as [->|Hin].
  - exists w. left. reflexivity.
  - destruct (IH idf) as [w' Hw']; [lia|assumption|]. exists w'. right. assumption.
Qed.

Lemma tfidf_row_rounded_pos (v : Fitted) (terms : list string) (t : string) :
  Binary64.well_formed v ->
  In t (vocabulary_ v) -> In t terms ->
  0 < sum_sq (Binary64.tfidf_row A (vocabulary_ v) (idf_ v) terms).
Proof.
  intros (Hlen & _ & Hw) Hv Ht.
  destruct (weight_of _ _ t Hlen Hv) as [w Hin].
  pose proof (in_combine_r _ _ _ _ Hin) as Hwin.
  rewrite Forall_forall in Hw. pose proof (Hw w Hwin) as Hw0.
  apply sum_sq_pos with (fl (fl (INR (count terms t)) * w)).
  - unfold Binary64.tfidf_row. apply in_map_iff. exists (t, w).
    split; [reflexivity|assumption].
  - apply (count_occ_In string_dec) in Ht. fold (count terms t) in Ht.
    assert (1 <= INR (count terms t)).
    { change 1 with (INR 1). apply le_INR. lia. }
    apply Rgt_not_eq. apply fl_pos; [assumption|].
    apply Rmult_lt_0_compat; [|assumption].
    apply fl_pos; [assumption|lra].
Qed.

(** Every similarity is between 0 and 1, up to the slack of the roundings. *)
Lemma entry_similarity_rounded (v : Fitted) (q e : string) :
  Binary64.well_formed v ->
  0 <= Binary64.entry_similarity A analyzer (vocabulary_ v) (idf_ v) q e
  <= 1 + Binary64.rounding_slack.
Proof.
  intros Hv. pose proof Hv as (_ & Hmax & _).
  destruct (tfidf_row_rounded v (analyzer q) Hv) as (Hq & Hlq).
  destruct (tfidf_row_rounded v (analyzer e) Hv) as (He & Hle).
  destruct (similarity_rounded fl Hfl _ _ _ Hq He Hlq Hle) as (H0 & Hup).
  unfold Binary64.entry_similarity. split; [assumption|].
  apply (ratio_upper _ (3 + List.length (vocabulary_ v))); try assumption.
  unfold max_features in Hmax. lia.
Qed.

(** The similarity of a text to itself is 1, up to the slack of the
    roundings, as soon as one of its terms is in the vocabulary. *)
Lemma entry_similarity_self_rounded (v : Fitted) (q t : string) :
  Binary64.well_formed v ->
  In t (vocabulary_ v) -> In t (analyzer q) ->
  1 - Binary64.rounding_slack
  <= Binary64.entry_similarity A analyzer (vocabulary_ v) (idf_ v) q q.
Proof.
  intros Hv Htv Htq. pose proof Hv as (_ & Hmax & _).
  destruct (tfidf_row_rounded v (analyzer q) Hv) as (Hq & Hlq).
  pose proof (tfidf_row_rounded_pos v (analyzer q) t Hv Htv Htq) as Hpos.
  pose proof (self_similarity_rounded fl Hfl _ _ Hq Hlq Hpos) as Hlow.
  unfold Binary64.entry_similarity.
  apply (ratio_lower _ (3 + List.length (vocabulary_ v))); try assumption.
  unfold max_features in Hmax. lia.
Qed.

End RoundedEngine.

Section AnyArithmetic.

Import Sklearn SklearnFacts.
Local Open Scope R_scope.

Variable analyzer : string -> list string.
Variable A : Binary64.Arithmetic R.

(** Lines 59 to 70 of [get_response] in any arithmetic: the result is
    decided by the first maximum of the similarities. *)
Lemma get_response_decision (v : Fitted) (qs ans : list string) (q : string)
      (threshold : R) :
  qs <> [] ->
  List.length ans = List.length qs ->
  exists m k a,
    nth_error (map (Binary64.entry_similarity A analyzer (vocabulary_ v)
                                              (idf_ v) q) qs) k = Some m
    /\ (forall x,
          In x (map (Binary64.entry_similarity A analyzer (vocabulary_ v)
                                               (idf_ v) q) qs) -> x <= m)
    /\ (forall j x, (j < k)%nat ->
                    nth_error (map (Binary64.entry_similarity
                                      A analyzer (vocabulary_ v) (idf_ v) q)
                                   qs) j = Some x -> x < m)
    /\ nth_error ans k = Some a
    /\ Binary64.get_response A analyzer v qs ans q threshold
       = Ok (if Rge_dec m threshold then (a, m, false)
             else (handoff_message, m, true)).
Proof.
  intros Hne Hlen. unfold Binary64.get_response.
  set (sims := map (Binary64.entry_similarity A analyzer (vocabulary_ v)
                                              (idf_ v) q) qs).
  assert (Hsims : sims <> []).
  { subst sims. destruct qs; [congruence|discriminate]. }
  destruct (NpFacts.max_argmax_spec sims Hsims)
    as (m & k & Hmax & Harg & Hnth & Hle & Hfirst).
  assert (Hk : (k < List.length ans)%nat).
  { rewrite Hlen. replace (List.length qs) with (List.length sims)
      by (subst sims; apply length_map).
    apply nth_error_Some. rewrite Hnth. discriminate. }
  destruct (nth_error ans k) as [a|] eqn:Ha;
    [|apply nth_error_None in Ha; lia].
  exists m, k, a. repeat split; try assumption.
  rewrite Hmax, Harg. destruct (Rge_dec m threshold); [rewrite Ha|]; reflexivity.
Qed.

End AnyArithmetic.

(** ** Exact arithmetic *)

Section ExactArithmetic.

Import Sklearn SklearnFacts.
Local Open Scope R_scope.

Variable analyzer : string -> list string.

Lemma exact_is_faithful : Binary64.faithful (fun x => x).
Proof.
  intros x. unfold Rminus. rewrite Rplus_opp_r, Rabs_R0.
  apply Rmult_le_pos; [|apply Rabs_pos].
  unfold Binary64.unit_roundoff. apply Rlt_le, Rinv_0_lt_compat, pow_lt. lra.
Qed.

Lemma round_away_is_faithful : Binary64.faithful Binary64.round_away.
Proof.
  intros x. unfold Binary64.round_away.
  replace (x * (1 + Binary64.unit_roundoff) - x)
    with (Binary64.unit_roundoff * x) by ring.
  rewrite Rabs_mult, (Rabs_pos_eq Binary64.unit_roundoff); [apply Rle_refl|].
  unfold Binary64.unit_roundoff. apply Rlt_le, Rinv_0_lt_compat, pow_lt. lra.
Qed.

Lemma exact_sum_sq_from (row : list R) (acc : R) :
  fold_left (fun s x => s + x * x) row acc = acc + sum_sq row.
Proof.
  revert acc. induction row as [|x row IH]; intros acc; cbn; [lra|].
  rewrite IH. lra.
Qed.

Lemma exact_sum_sq (row : list R) :
  Binary64.sum_sq Binary64.exact row = sum_sq row.
Proof.
  unfold Binary64.sum_sq, Binary64.exact. cbn.
  rewrite exact_sum_sq_from. lra.
Qed.

Lemma exact_dot_from (x y : list R) (acc : R) :
  fold_left (fun s p => s + fst p * snd p) (combine x y) acc = acc + dot x y.
Proof.
  revert y acc. induction x as [|a x IH]; intros [|b y] acc; cbn; try lra.
  rewrite IH. lra.
Qed.

Lemma exact_dot (x y : list R) : Binary64.dot Binary64.exact x y = dot x y.
Proof.
  unfold Binary64.dot, Binary64.exact. cbn. rewrite exact_dot_from. lra.
Qed.

Lemma exact_l2_normalize (row : list R) :
  Binary64.l2_normalize Binary64.exact row = l2_normalize row.
Proof.
  unfold Binary64.l2_normalize, l2_normalize. rewrite exact_sum_sq.
  unfold Binary64.exact. cbn.
  destruct (Req_dec_T (sqrt (sum_sq row)) 0); reflexivity.
Qed.

Lemma exact_tfidf_row (v : Fitted) (terms : list string) :
  Binary64.tfidf_row Binary64.exact (vocabulary_ v) (idf_ v) terms
  = tfidf_row v terms.
Proof.
  unfold Binary64.tfidf_row, tfidf_row. apply map_ext. intros [t w].
  reflexivity.
Qed.

(** Without rounding the kernel is the one of [Sklearn]. *)
Lemma exact_entry_similarity (v : Fitted) (q e : string) :
  Binary64.entry_similarity Binary64.exact analyzer (vocabulary_ v) (idf_ v)
                            q e
  = entry_similarity analyzer v q e.
Proof.
  unfold Binary64.entry_similarity, entry_similarity, Binary64.cosine, cosine.
  rewrite !exact_tfidf_row, !exact_l2_normalize, exact_dot. reflexivity.
Qed.

(** In exact arithmetic, [Binary64.get_response] is [get_response] on the
    index. *)
Lemma exact_get_response (kb : list KnowledgeBase.t) (v : Fitted)
      (qs ans : list string) (q : string) (threshold : R) :
  qs <> [] ->
  get_response analyzer kb q threshold (index_of analyzer v qs ans)
  = (Binary64.get_response Binary64.exact analyzer v qs ans q threshold,
     index_of analyzer v qs ans).
Proof.
  intros Hne. destruct qs as [|q0 qs']; [congruence|].
  unfold Binary64.get_response.
  rewrite (map_ext _ _ (exact_entry_similarity v q)).
  unfold get_response, index_of, bind, getattr, lift, ret, raise.
  cbn -[transform_fitted similarities_of Np.max Np.argmax Rge_dec map].
  rewrite similarities_of_index.
  destruct (Np.max _); [|reflexivity].
  destruct (Np.argmax _); [|reflexivity].
  destruct (Rge_dec _ _); [|reflexivity].
  cbn. destruct (nth_error ans _); reflexivity.
Qed.

End ExactArithmetic.

(** ** The similarity under rounding *)

Section NumericalProperties.

Import Sklearn SklearnFacts.
Local Open Scope R_scope.

Variable analyzer : string -> list string.

Lemma default_threshold_below_slack :
  default_threshold <= 1 - Binary64.rounding_slack.
Proof.
  unfold default_threshold, Binary64.rounding_slack.
  assert (H : / 10 ^ 12 <= / 1).
  { apply Rinv_le_contravar; [lra|]. simpl. lra. }
  rewrite Rinv_1 in H. lra.
Qed.

(** C7 (amended).  For every index with positive weights and at most
    [max_features] terms (every built index is one), every query text and
    every threshold, [get_response] returns, and the similarity it returns
    is at least 0 and at most 1 + 10^-12, when every operation of the
    binary64 computation is rounded with a relative error of at most 2^-53.
    In exact arithmetic the bound is 1 ([similarity_in_unit_interval]); the
    roundings can carry the value above 1, but not further than that. *)
Theorem similarity_within_rounding (fl : R -> R) (v : Fitted)
        (qs ans : list string) (user_input : string) (threshold : R) :
  Binary64.faithful fl ->
  Binary64.well_formed v ->
  qs <> [] ->
  List.length ans = List.length qs ->
  exists response s escalate,
    Binary64.get_response (Binary64.rounded fl) analyzer v qs ans user_input
                          threshold
    = Ok (response, s, escalate)
    /\ 0 <= s <= 1 + Binary64.rounding_slack.
Proof.
  intros Hfl Hv Hne Hlen.
  destruct (get_response_decision analyzer (Binary64.rounded fl) v qs ans
                                  user_input threshold Hne Hlen)
    as (m & k & a & Hnth & _ & _ & _ & Hresp).
  assert (Hm : 0 <= m <= 1 + Binary64.rounding_slack).
  { apply nth_error_In, in_map_iff in Hnth. destruct Hnth as (e & <- & _).
    apply entry_similarity_rounded; assumption. }
  rewrite Hresp. destruct (Rge_dec m threshold); eauto.
Qed.

(** C5 (amended).  On every index with positive weights and at most
    [max_features] terms, let the query text be the question of entry [j],
    and let one term of that question be in the vocabulary.  When every
    operation of the binary64 computation is rounded with a relative error
    of at most 2^-53, the similarity computed for entry [j] is within
    10^-12 of 1, and for every threshold up to 1 - 10^-12 (the default 0.3
    is one) [get_response] returns [escalate = false], a similarity within
    10^-12 of 1, and the answer of the first entry whose similarity to the
    query is the maximum; that is the answer of entry [j] itself when the
    similarity of every other entry is smaller than that of entry [j]. *)
Theorem identical_question_within_rounding (fl : R -> R) (v : Fitted)
        (qs ans : list string) (j : nat) (q a_j t : string)
        (threshold : R) :
  Binary64.faithful fl ->
  Binary64.well_formed v ->
  List.length ans = List.length qs ->
  nth_error qs j = Some q ->
  nth_error ans j = Some a_j ->
  In t (vocabulary_ v) ->
  In t (analyzer q) ->
  threshold <= 1 - Binary64.rounding_slack ->
  Rabs (Binary64.entry_similarity (Binary64.rounded fl) analyzer
                                  (vocabulary_ v) (idf_ v) q q - 1)
  <= Binary64.rounding_slack
  /\ exists k q_k a s,
      nth_error qs k = Some q_k
      /\ nth_error ans k = Some a
      /\ s = Binary64.entry_similarity (Binary64.rounded fl) analyzer
                                       (vocabulary_ v) (idf_ v) q q_k
      /\ Binary64.entry_similarity (Binary64.rounded fl) analyzer
                                   (vocabulary_ v) (idf_ v) q q <= s
      /\ Rabs (s - 1) <= Binary64.rounding_slack
      /\ (forall i q_i,
            nth_error qs i = Some q_i ->
            Binary64.entry_similarity (Binary64.rounded fl) analyzer
                                      (vocabulary_ v) (idf_ v) q q_i <= s)
      /\ (forall i q_i,
            (i < k)%nat -> nth_error qs i = Some q_i ->
            Binary64.entry_similarity (Binary64.rounded fl) analyzer
                                      (vocabulary_ v) (idf_ v) q q_i < s)
      /\ Binary64.get_response (Binary64.rounded fl) analyzer v qs ans q
                               threshold
         = Ok (a, s, false)
      /\ ((forall i q_i,
              i <> j -> nth_error qs i = Some q_i ->
              Binary64.entry_similarity (Binary64.rounded fl) analyzer
                                        (vocabulary_ v) (idf_ v) q q_i
              < Binary64.entry_similarity (Binary64.rounded fl) analyzer
                                          (vocabulary_ v) (idf_ v) q q) ->
          a = a_j).
Proof.
  intros Hfl Hv Hlen Hq Haj Htv Htq Hthr.
  set (sim := Binary64.entry_similarity (Binary64.rounded fl) analyzer
                                        (vocabulary_ v) (idf_ v) q) in *.
  assert (Hne : qs <> []) by (destruct qs; [destruct j|]; discriminate).
  assert (Hall : forall e, 0 <= sim e <= 1 + Binary64.rounding_slack)
    by (intros e; apply entry_similarity_rounded; assumption).
  assert (Hself : 1 - Binary64.rounding_slack <= sim q)
    by (eapply entry_similarity_self_rounded; eassumption).
  assert (Hnear : forall x,
             sim q <= x -> x <= 1 + Binary64.rounding_slack ->
             Rabs (x - 1) <= Binary64.rounding_slack).
  { intros x Hlo Hhi. apply Rabs_le. lra. }
  split; [apply Hnear; [lra|apply Hall]|].
  destruct (get_response_decision analyzer (Binary64.rounded fl) v qs ans q
                                  threshold Hne Hlen)
    as (m & k & a & Hnth & Hle & Hfirst & Ha & Hresp).
  fold sim in Hnth, Hle, Hfirst.
  rewrite nth_error_map in Hnth.
  destruct (nth_error qs k) as [q_k|] eqn:Hqk; [|discriminate].
  cbn in Hnth. inversion Hnth as [Hm]. clear Hnth.
  assert (Hmax : sim q <= m).
  { apply Hle. apply in_map. eapply nth_error_In. exact Hq. }
  exists k, q_k, a, m. split; [exact Hqk|]. split; [exact Ha|].
  split; [symmetry; exact Hm|]. split; [exact Hmax|].
  split; [apply Hnear; [exact Hmax|rewrite <- Hm; apply Hall]|].
  split.
  { intros i q_i Hqi. apply Hle. apply in_map. eapply nth_error_In.
    exact Hqi. }
  split.
  { intros i q_i Hi Hqi. apply (Hfirst i); [exact Hi|].
    rewrite nth_error_map, Hqi. reflexivity. }
  split.
  { rewrite Hresp. destruct (Rge_dec m threshold); [reflexivity|lra]. }
  intros Hothers. destruct (Nat.eq_dec k j) as [->|Hkj]; [congruence|].
  exfalso. pose proof (Hothers k q_k Hkj Hqk). lra.
Qed.

End NumericalProperties.

(** ** Facts about the tables and the services *)

Section ServiceFacts.

Variable analyzer : string -> list string.

Lemma first_from_spec {A : Type} (p : A -> bool) (rows : list A) :
  forall i j r,
    first_from p i rows = Some (j, r) ->
    (i <= j)%nat /\ nth_error rows (j - i) = Some r /\ p r = true.
Proof.
  induction rows as [|r0 rows IH]; cbn; intros i j r H; [discriminate|].
  destruct (p r0) eqn:Hp.
  - inversion H; subst. rewrite Nat.sub_diag. auto.
  - apply IH in H. destruct H as (Hle & Hnth & Hpr).
    replace (j - i)%nat with (S (j - S i)) by lia. cbn. split; [lia|auto].
Qed.

Lemma first_spec {A : Type} (p : A -> bool) (rows : list A) (j : nat) (r : A) :
  first p rows = Some (j, r) -> nth_error rows j = Some r /\ p r = true.
Proof.
  intros H. apply first_from_spec in H. rewrite Nat.sub_0_r in H. tauto.
Qed.

Lemma first_from_none {A : Type} (p : A -> bool) (rows : list A) (i : nat) :
  (forall r, In r rows -> p r = false) -> first_from p i rows = None.
Proof.
  revert i. induction rows as [|r0 rows IH]; cbn; intros i H; [reflexivity|].
  rewrite (H r0) by auto. apply IH. auto.
Qed.

Lemma nth_error_update_row {A : Type} (rows : list A) (i j : nat) (r : A) :
  nth_error (update_row i r rows) j
  = if Nat.eqb j i
    then match nth_error rows j with Some _ => Some r | None => None end
    else nth_error rows j.
Proof.
  revert i j. induction rows as [|r0 rows IH]; intros [|i] [|j]; cbn;
    try reflexivity.
  - destruct (Nat.eqb j i); reflexivity.
  - apply IH.
Qed.

Lemma update_row_same {A : Type} (rows : list A) (i : nat) (r : A) :
  nth_error rows i = Some r -> update_row i r rows = rows.
Proof.
  revert i. induction rows as [|r0 rows IH]; intros [|i]; cbn; intros H;
    try reflexivity.
  - congruence.
  - rewrite IH by assumption. reflexivity.
Qed.

(** What one [send_message] does to the row at position [i]: nothing, or
    the escalation of an active session. *)
Lemma send_message_row (w : World) (session_id : string) (user_id : nat)
      (message : string) (now : Z) (i : nat) (s : ChatSession.t) :
  session_at w i = Some s ->
  exists s',
    session_at (snd (send_message analyzer w session_id user_id message now))
               i = Some s'
    /\ (s' = s
        \/ (ChatSession.status s = active
            /\ ChatSession.status s' = escalated
            /\ ChatSession.id s' = ChatSession.id s)).
Proof.
  intros Hs. unfold send_message.
  destruct (first (owned_by session_id user_id) (chat_sessions (db w)))
    as [[k session]|] eqn:Hfirst; [|eauto].
  apply first_spec in Hfirst. destruct Hfirst as (Hk & _).
  destruct (get_response analyzer (knowledge_base (db w)) message
                         default_threshold (chatbot w))
    as [[[[response sim] escalate]|e] engine']; cbn; [|eauto].
  unfold session_at in *. cbn. rewrite nth_error_update_row.
  destruct (Nat.eqb i k) eqn:Hik; [|eauto].
  apply Nat.eqb_eq in Hik. subst k. rewrite Hs in *.
  inversion Hk; subst session.
  destruct escalate, (ChatSession.status s) eqn:Hst; cbn; eauto.
  eexists. split; [reflexivity|]. right. cbn. auto.
Qed.

(** What [close_session] does to the row at position [i]: nothing, or it
    closes it. *)
Lemma close_session_row (w : World) (session_id : nat) (now : Z) (i : nat)
      (s : ChatSession.t) :
  session_at w i = Some s ->
  exists s',
    session_at (snd (close_session w session_id now)) i = Some s'
    /\ (s' = s
        \/ (ChatSession.status s' = closed
            /\ ChatSession.id s' = ChatSession.id s)).
Proof.
  intros Hs. unfold close_session.
  destruct (first (has_id session_id) (chat_sessions (db w)))
    as [[k session]|] eqn:Hfirst; [|eauto].
  apply first_spec in Hfirst. destruct Hfirst as (Hk & _).
  unfold session_at in *. cbn. rewrite nth_error_update_row.
  destruct (Nat.eqb i k) eqn:Hik; [|eauto].
  apply Nat.eqb_eq in Hik. subst k. rewrite Hs in *.
  inversion Hk; subst session. cbn. eauto.
Qed.

(** A session that is not active is out of the reach of [send_message]. *)
Lemma send_message_inactive_row (w : World) (session_id : string)
      (user_id : nat) (message : string) (now : Z) (i : nat)
      (s : ChatSession.t) :
  session_at w i = Some s ->
  ChatSession.status s <> active ->
  session_at (snd (send_message analyzer w session_id user_id message now)) i
  = Some s.
Proof.
  intros Hs Hst.
  destruct (send_message_row w session_id user_id message now i s Hs)
    as (s' & Hs' & [->|(Hact & _)]); [assumption|contradiction].
Qed.

End ServiceFacts.

(** ** Properties of the session life cycle *)

Section SessionProperties.

Variable analyzer : string -> list string.

(** C9.  When no session carries the given token for the given user,
    [send_message] returns [None] (which the caller reports as "Session
    not found") and changes nothing: no message is added, no session is
    touched, and the engine is not even consulted. *)
Theorem send_message_session_not_found (w : World) (session_id : string)
        (user_id : nat) (message : string) (now : Z) :
  (forall s, In s (chat_sessions (db w)) ->
             ~ (ChatSession.session_id s = session_id
                /\ ChatSession.user_id s = user_id)) ->
  send_message analyzer w session_id user_id message now = (Ok None, w).
Proof.
  intros Hnone. unfold send_message, first.
  rewrite first_from_none; [reflexivity|].
  intros s Hs. specialize (Hnone s Hs). unfold owned_by.
  destruct (String.eqb_spec (ChatSession.session_id s) session_id);
    destruct (Nat.eqb_spec (ChatSession.user_id s) user_id);
    cbn; tauto.
Qed.

(** C3.  From any state of the tables and through any sequence of
    [send_message] and [close_session] calls, a session whose status is
    ESCALATED or CLOSED stays the same row and never gets the status
    ACTIVE again. *)
Theorem status_never_back_to_active (calls : list Call) (w : World)
        (i : nat) (s : ChatSession.t) :
  session_at w i = Some s ->
  ChatSession.status s = escalated \/ ChatSession.status s = closed ->
  exists s',
    session_at (run analyzer calls w) i = Some s'
    /\ ChatSession.id s' = ChatSession.id s
    /\ (ChatSession.status s' = escalated \/ ChatSession.status s' = closed).
Proof.
  revert w s. unfold run.
  induction calls as [|c calls IH]; intros w s Hs Hst; cbn.
  - eauto.
  - assert (Hstep : exists s1,
               session_at (step analyzer w c) i = Some s1
               /\ ChatSession.id s1 = ChatSession.id s
               /\ (ChatSession.status s1 = escalated
                   \/ ChatSession.status s1 = closed)).
    { destruct c as [sid uid msg now|pk now]; cbn.
      - exists s. split; [|auto].
        apply send_message_inactive_row; [assumption|].
        destruct Hst as [H|H]; rewrite H; discriminate.
      - destruct (close_session_row w pk now i s Hs)
          as (s' & Hs' & [->|(Hcl & Hid)]); eauto. }
    destruct Hstep as (s1 & Hs1 & Hid1 & Hst1).
    destruct (IH _ _ Hs1 Hst1) as (s' & Hs' & Hid' & Hst').
    exists s'. repeat split; [assumption|congruence|assumption].
Qed.

(** C10.  A session that is not ACTIVE is left as it is by [send_message],
    successful or not: its status and [escalated_at] are unchanged after
    one call, and after any sequence of [send_message] calls; so the time
    of the escalation, once written, is not written again. *)
Theorem send_message_keeps_escalated_at (calls : list Call) (w : World)
        (i : nat) (s : ChatSession.t) (session_id : string) (user_id : nat)
        (message : string) (now : Z) :
  session_at w i = Some s ->
  ChatSession.status s <> active ->
  Forall is_HandleUserMessage calls ->
  (exists s',
      session_at (snd (send_message analyzer w session_id user_id message now))
                 i = Some s'
      /\ ChatSession.status s' = ChatSession.status s
      /\ ChatSession.escalated_at s' = ChatSession.escalated_at s)
  /\ (exists s',
         session_at (run analyzer calls w) i = Some s'
         /\ ChatSession.status s' = ChatSession.status s
         /\ ChatSession.escalated_at s' = ChatSession.escalated_at s).
Proof.
  intros Hs Hst Hcalls. split.
  - exists s. split; [|auto]. apply send_message_inactive_row; assumption.
  - exists s. split; [|auto]. revert w Hs. unfold run.
    induction Hcalls as [|c calls Hc _ IH]; intros w Hs; cbn; [assumption|].
    apply IH. destruct c as [sid uid msg t|pk t]; [|contradiction]. cbn.
    apply send_message_inactive_row; assumption.
Qed.

(** C2 (amended).  For a session whose status is CLOSED: [send_message]
    is not rejected; it never changes a row of the session table, and when
    the engine answers it stores the USER and the BOT message and returns
    the reply with the status CLOSED (when the engine raises, nothing is
    stored).  [send_agent_message] is rejected: it returns [False] and
    changes nothing. *)
Theorem closed_session_operations (w : World) (i : nat) (s : ChatSession.t)
        (session_id : string) (user_id : nat) (message : string) (now : Z) :
  first (owned_by session_id user_id) (chat_sessions (db w)) = Some (i, s) ->
  first (has_id (ChatSession.id s)) (chat_sessions (db w)) = Some (i, s) ->
  ChatSession.status s = closed ->
  chat_sessions
    (db (snd (send_message analyzer w session_id user_id message now)))
  = chat_sessions (db w)
  /\ (forall response sim escalate engine',
         get_response analyzer (knowledge_base (db w)) message
                      default_threshold (chatbot w)
         = (Ok (response, sim, escalate), engine') ->
         send_message analyzer w session_id user_id message now
         = (Ok (Some (mkReply message response sim escalate closed)),
            mkWorld
              (mkDatabase
                 (knowledge_base (db w)) (chat_sessions (db w))
                 (chat_messages (db w)
                  ++ [ChatMessage.mk (next_id (chat_messages (db w)))
                                     (ChatSession.id s) user message now
                                     false;
                      ChatMessage.mk (S (next_id (chat_messages (db w))))
                                     (ChatSession.id s) bot response now
                                     escalate]))
              engine'))
  /\ (forall e engine',
         get_response analyzer (knowledge_base (db w)) message
                      default_threshold (chatbot w)
         = (Raised e, engine') ->
         send_message analyzer w session_id user_id message now
         = (Raised e, mkWorld (db w) engine'))
  /\ (forall text agent_id,
         send_agent_message w (ChatSession.id s) text agent_id now
         = (false, w)).
Proof.
  intros Hfirst Hpk Hst.
  pose proof (first_spec _ _ _ _ Hfirst) as (Hnth & _).
  unfold send_message, send_agent_message. rewrite Hfirst, Hpk, Hst.
  repeat split.
  - destruct (get_response analyzer (knowledge_base (db w)) message
                           default_threshold (chatbot w))
      as [[[[response sim] escalate]|e] engine']; cbn; [|reflexivity].
    rewrite andb_false_r. apply update_row_same. assumption.
  - intros response sim escalate engine' ->. cbn.
    rewrite andb_false_r, Hst, update_row_same by assumption. reflexivity.
  - intros e engine' ->. reflexivity.
Qed.

(** C4 (amended).  [close_session] on a session that is already CLOSED is
    not rejected: it returns [True], the status stays CLOSED, and
    [closed_at] is overwritten with the current time.  The other columns of
    the session, the other sessions, the messages, the knowledge base and
    the engine are unchanged. *)
Theorem close_session_closed (w : World) (i : nat) (s : ChatSession.t)
        (session_id : nat) (now : Z) :
  first (has_id session_id) (chat_sessions (db w)) = Some (i, s) ->
  ChatSession.status s = closed ->
  exists w',
    close_session w session_id now = (true, w')
    /\ session_at w' i
       = Some (ChatSession.mk (ChatSession.id s) (ChatSession.user_id s)
                              (ChatSession.session_id s) closed
                              (ChatSession.created_at s)
                              (ChatSession.escalated_at s) (Some now))
    /\ (forall j, j <> i -> session_at w' j = session_at w j)
    /\ chat_messages (db w') = chat_messages (db w)
    /\ knowledge_base (db w') = knowledge_base (db w)
    /\ chatbot w' = chatbot w.
Proof.
  intros Hfirst Hst. pose proof (first_spec _ _ _ _ Hfirst) as (Hnth & _).
  unfold close_session. rewrite Hfirst. eexists. split; [reflexivity|].
  unfold session_at. cbn. repeat split.
  - rewrite nth_error_update_row, Nat.eqb_refl, Hnth. reflexivity.
  - intros j Hj. rewrite nth_error_update_row.
    apply Nat.eqb_neq in Hj. rewrite Hj. reflexivity.
Qed.

End SessionProperties.

(** ** The scenarios: fallback corpus, counterexamples and instances *)

Section ScenarioProperties.

Import Sklearn SklearnFacts Scenario ScenarioFacts.
Local Open Scope R_scope.

(** C6.  When no knowledge entry is active, a build installs the built-in
    greeting questions and answers, so the index has three vectors and is
    not empty; the query "hello" is then answered with the first greeting
    answer, similarity 1 and [escalate = false]. *)
Theorem empty_knowledge_base_fallback (kb : list KnowledgeBase.t)
        (self0 : ChatbotEngine) :
  filter KnowledgeBase.is_active kb = [] ->
  exists self X a,
    _initialize english_analyzer kb self0 = (Ok tt, self)
    /\ questions self = Some fallback_questions
    /\ answers self = Some fallback_answers
    /\ knowledge_vectors self = Some (Some X)
    /\ List.length X = 3%nat
    /\ In a fallback_answers
    /\ get_response english_analyzer kb "hello" default_threshold self
       = (Ok (a, 1, false), self).
Proof.
  intros Hempty.
  destruct fallback_index_eq as (v & Hfit & Hv & _ & Hidx).
  exists fallback_index,
    (transform_fitted english_analyzer v fallback_questions),
    "Hello! How can I help you today?"%string.
  split.
  { rewrite _initialize_eq. unfold loaded_questions, loaded_answers.
    rewrite Hempty. fold analyzer. rewrite Hfit, Hidx. reflexivity. }
  rewrite Hidx at 1 2 3. cbn [questions answers knowledge_vectors index_of].
  repeat split.
  - cbn. auto.
  - apply hello_fallback.
Qed.

Lemma empty_knowledge_base_fallback_witness :
  filter KnowledgeBase.is_active [] = []
  /\ exists self X a,
    _initialize english_analyzer [] new_instance = (Ok tt, self)
    /\ questions self = Some fallback_questions
    /\ answers self = Some fallback_answers
    /\ knowledge_vectors self = Some (Some X)
    /\ List.length X = 3%nat
    /\ In a fallback_answers
    /\ get_response english_analyzer [] "hello" default_threshold self
       = (Ok (a, 1, false), self).
Proof.
  split; [reflexivity|].
  apply (empty_knowledge_base_fallback [] new_instance eq_refl).
Defined.

(** C1, as stated, fails: the caller of [get_response] passes the text and
    the threshold only.  On the fallback index the query "asdkjf qpwoei"
    has similarity 0 to every entry; the specification's [Query], called
    with the fallback "Please hold.", returns that message, whereas
    [get_response] returns its own fixed message. *)
Lemma get_response_fallback_is_fixed :
  exists v,
    vectorizer fallback_index = Some (Some v)
    /\ Query_spec "Please hold." fallback_answers
                  (map (entry_similarity analyzer v gibberish)
                       fallback_questions)
                  default_threshold
       = Ok ("Please hold."%string, 0, true)
    /\ get_response analyzer [] gibberish default_threshold fallback_index
       = (Ok (handoff_message, 0, true), fallback_index)
    /\ handoff_message <> "Please hold."%string.
Proof.
  destruct fallback_index_eq as (v & Hfit & Hv & _ & Hidx). exists v.
  split; [rewrite Hidx; reflexivity|].
  split; [|split; [apply gibberish_fallback|discriminate]].
  assert (Hsims : map (entry_similarity analyzer v gibberish)
                      fallback_questions = [0; 0; 0]).
  { cbn [map fallback_questions].
    rewrite !(entry_similarity_unknown analyzer v gibberish);
      [reflexivity| | |];
      rewrite Hv; intros t Ht; vm_compute in Ht |- *;
      intuition (subst; discriminate). }
  rewrite Hsims.
  destruct (NpFacts.max_argmax_spec [0; 0; 0])
    as (m & k & Hmax & Harg & Hnth & _); [discriminate|].
  assert (Hm : m = 0).
  { apply nth_error_In in Hnth. cbn in Hnth. intuition congruence. }
  subst m. unfold Query_spec. rewrite Hmax, Harg.
  unfold default_threshold. destruct (Rge_dec 0 (3 / 10)); [lra|reflexivity].
Qed.

Lemma get_response_threshold_witness :
  installed analyzer fallback_index
  /\ exists v qs ans m k a,
      vectorizer fallback_index = Some (Some v)
      /\ questions fallback_index = Some qs
      /\ answers fallback_index = Some ans
      /\ nth_error (map (entry_similarity analyzer v "hello") qs) k = Some m
      /\ (forall x, In x (map (entry_similarity analyzer v "hello") qs) ->
                    x <= m)
      /\ (forall j x, (j < k)%nat ->
                      nth_error (map (entry_similarity analyzer v "hello") qs) j
                      = Some x -> x < m)
      /\ nth_error ans k = Some a
      /\ get_response analyzer [] "hello" default_threshold fallback_index
         = (Ok (if Rge_dec m default_threshold then (a, m, false)
                else (handoff_message, m, true)),
            fallback_index).
Proof.
  split; [exact fallback_installed|].
  apply (get_response_threshold analyzer [] fallback_index "hello"
                                default_threshold).
  exact fallback_installed.
Defined.

(** The question "Who are you?" consists of stop words only.  Queried with
    exactly that text, the similarity computed for the entry is 0, and
    [get_response] escalates instead of returning the entry's answer. *)
Lemma identical_stop_word_question_escalates :
  exists v,
    installed analyzer stop_word_index
    /\ vectorizer stop_word_index = Some (Some v)
    /\ nth_error stop_word_kb 0 = Some who_are_you
    /\ KnowledgeBase.question who_are_you = "Who are you?"%string
    /\ entry_similarity analyzer v "Who are you?" "Who are you?" = 0
    /\ entry_similarity analyzer v "Who are you?" "Who are you?" <> 1
    /\ get_response analyzer stop_word_kb "Who are you?" default_threshold
                    stop_word_index
       = (Ok (handoff_message, 0, true), stop_word_index).
Proof.
  destruct stop_word_index_eq as (v & Hfit & Hv & _ & Hidx). exists v.
  assert (Hsim : entry_similarity analyzer v "Who are you?" "Who are you?"
                 = 0).
  { apply entry_similarity_unknown. intros t _. vm_compute. tauto. }
  repeat split.
  - exact stop_word_installed.
  - rewrite Hidx. reflexivity.
  - exact Hsim.
  - rewrite Hsim. lra.
  - apply who_are_you_stop_word.
Qed.

(** C8, as stated, fails: the rebuild assigns the attributes of the shared
    engine one after the other, starting with a new vectorizer that is not
    fitted yet.  A query that reads the engine after that first assignment
    finds the new vectorizer next to the old vectors, questions and answers,
    and raises [NotFittedError]; on the old index and on the new one the
    same query returns. *)
Lemma rebuild_exposes_unfitted_vectorizer :
  let old := fallback_index in
  let kb := [business_hours] in
  let mid := during_rebuild analyzer kb 1 old in
  let new := snd (retrain_model analyzer kb old) in
  vectorizer mid = Some None
  /\ knowledge_vectors mid = knowledge_vectors old
  /\ questions mid = questions old
  /\ answers mid = answers old
  /\ fst (get_response analyzer kb "hello" default_threshold mid)
     = Raised NotFittedError
  /\ (exists r, fst (get_response analyzer kb "hello" default_threshold old)
                = Ok r)
  /\ (exists r, fst (get_response analyzer kb "hello" default_threshold new)
                = Ok r).
Proof.
  cbv zeta.
  split; [reflexivity|]. split; [reflexivity|]. split; [reflexivity|].
  split; [reflexivity|]. split; [|split].
  - destruct fallback_index_eq as (v & _ & _ & _ & ->).
    unfold during_rebuild, get_response, index_of, bind, getattr, lift, ret.
    cbn -[transform_fitted]. reflexivity.
  - rewrite hello_fallback. eexists. reflexivity.
  - assert (Hvoc : vocabulary max_features
                     (map analyzer ["What are your business hours?"]%string)
                   <> []) by (vm_compute; discriminate).
    unfold retrain_model. rewrite _initialize_eq.
    change (loaded_questions [business_hours])
      with ["What are your business hours?"]%string.
    unfold fit.
    destruct (vocabulary max_features
                (map analyzer ["What are your business hours?"]%string))
      as [|t ts] eqn:E; [congruence|].
    cbn [snd].
    destruct (get_response_index analyzer [business_hours] "hello"
                default_threshold
                (mkFitted (t :: ts)
                   (map (idf (map analyzer
                                  ["What are your business hours?"]%string))
                        (t :: ts)))
                ["What are your business hours?"]%string
                (loaded_answers [business_hours]))
      as (m & k & a & _ & _ & _ & _ & Hresp);
      [discriminate|reflexivity|].
    rewrite Hresp. eexists. reflexivity.
Qed.

(** C2, as stated, fails: a message sent to a closed session of its owner
    is answered, and the USER and BOT messages are stored. *)
Lemma send_message_to_closed_session_is_served :
  let w := world_of [closed_session] in
  ChatSession.status closed_session = closed
  /\ send_message analyzer w "token-1" 42 "hello" 20
     = (Ok (Some (mkReply "hello" "Hello! How can I help you today?" 1
                          false closed)),
        mkWorld
          (mkDatabase
             [] [closed_session]
             [ChatMessage.mk 1 1 user "hello" 20 false;
              ChatMessage.mk 2 1 bot "Hello! How can I help you today?" 20
                             false])
          fallback_index).
Proof.
  cbv zeta. split; [reflexivity|].
  unfold send_message, world_of. cbn -[get_response fallback_index].
  rewrite hello_fallback. reflexivity.
Qed.

Lemma closed_session_operations_witness :
  let w := world_of [closed_session] in
  (first (owned_by "token-1" 42) (chat_sessions (db w))
   = Some (0%nat, closed_session)
   /\ first (has_id 1) (chat_sessions (db w)) = Some (0%nat, closed_session)
   /\ ChatSession.status closed_session = closed)
  /\ chat_sessions (db (snd (send_message analyzer w "token-1" 42 "hello" 20)))
     = chat_sessions (db w)
  /\ (forall text agent_id,
         send_agent_message w 1 text agent_id 20 = (false, w)).
Proof.
  cbv zeta. split; [repeat split|].
  destruct (closed_session_operations analyzer (world_of [closed_session])
              0 closed_session "token-1" 42 "hello" 20 eq_refl eq_refl
              eq_refl) as (Hrows & _ & _ & Hagent).
  split; [exact Hrows|exact Hagent].
Defined.

(** C4, as stated, fails: closing the session that was closed at time 10
    again at time 20 succeeds and replaces [closed_at]. *)
Lemma close_session_overwrites_closed_at :
  let w := world_of [closed_session] in
  ChatSession.status closed_session = closed
  /\ ChatSession.closed_at closed_session = Some 10%Z
  /\ close_session w 1 20
     = (true,
        world_of [ChatSession.mk 1 42 "token-1" closed 0 None (Some 20%Z)])
  /\ snd (close_session w 1 20) <> w.
Proof.
  cbv zeta. repeat split. intros H.
  apply (f_equal (fun w => map ChatSession.closed_at (chat_sessions (db w))))
    in H.
  cbn in H. discriminate.
Qed.

Lemma close_session_closed_witness :
  let w := world_of [closed_session] in
  (first (has_id 1) (chat_sessions (db w)) = Some (0%nat, closed_session)
   /\ ChatSession.status closed_session = closed)
  /\ exists w',
      close_session w 1 20 = (true, w')
      /\ session_at w' 0
         = Some (ChatSession.mk 1 42 "token-1" closed 0 None (Some 20%Z))
      /\ (forall j, j <> 0%nat -> session_at w' j = session_at w j)
      /\ chat_messages (db w') = chat_messages (db w)
      /\ knowledge_base (db w') = knowledge_base (db w)
      /\ chatbot w' = chatbot w.
Proof.
  cbv zeta. split; [split; reflexivity|].
  apply (close_session_closed (world_of [closed_session]) 0 closed_session
                              1 20 eq_refl eq_refl).
Defined.

Lemma send_message_session_not_found_witness :
  let w := world_of [closed_session] in
  (forall s, In s (chat_sessions (db w)) ->
             ~ (ChatSession.session_id s = "token-1"%string
                /\ ChatSession.user_id s = 7%nat))
  /\ send_message analyzer w "token-1" 7 "hello" 20 = (Ok None, w).
Proof.
  cbv zeta.
  assert (H : forall s, In s (chat_sessions (db (world_of [closed_session]))) ->
                        ~ (ChatSession.session_id s = "token-1"%string
                           /\ ChatSession.user_id s = 7%nat)).
  { intros s [<-|[]] [_ Hu]. discriminate. }
  split; [exact H|].
  apply (send_message_session_not_found analyzer
           (world_of [closed_session]) "token-1" 7 "hello" 20 H).
Defined.

Lemma status_never_back_to_active_witness :
  let w := world_of [escalated_session] in
  let calls := [HandleUserMessage "token-2" 42 "hello" 6;
                CloseSession 2 7;
                HandleUserMessage "token-2" 42 gibberish 8] in
  (session_at w 0 = Some escalated_session
   /\ (ChatSession.status escalated_session = escalated
       \/ ChatSession.status escalated_session = closed))
  /\ exists s',
      session_at (run analyzer calls w) 0 = Some s'
      /\ ChatSession.id s' = ChatSession.id escalated_session
      /\ (ChatSession.status s' = escalated
          \/ ChatSession.status s' = closed).
Proof.
  cbv zeta. split; [split; [reflexivity|left; reflexivity]|].
  apply (status_never_back_to_active analyzer
           [HandleUserMessage "token-2" 42 "hello" 6;
            CloseSession 2 7;
            HandleUserMessage "token-2" 42 gibberish 8]
           (world_of [escalated_session]) 0 escalated_session eq_refl
           (or_introl eq_refl)).
Defined.

Lemma send_message_keeps_escalated_at_witness :
  let w := world_of [escalated_session] in
  let calls := [HandleUserMessage "token-2" 42 "hello" 6;
                HandleUserMessage "token-2" 42 gibberish 8] in
  (session_at w 0 = Some escalated_session
   /\ ChatSession.status escalated_session <> active
   /\ Forall is_HandleUserMessage calls)
  /\ (exists s',
         session_at (snd (send_message analyzer w "token-2" 42 gibberish 6))
                    0 = Some s'
         /\ ChatSession.status s' = ChatSession.status escalated_session
         /\ ChatSession.escalated_at s'
            = ChatSession.escalated_at escalated_session)
  /\ (exists s',
         session_at (run analyzer calls w) 0 = Some s'
         /\ ChatSession.status s' = ChatSession.status escalated_session
         /\ ChatSession.escalated_at s'
            = ChatSession.escalated_at escalated_session).
Proof.
  cbv zeta.
  assert (Hst : ChatSession.status escalated_session <> active)
    by discriminate.
  assert (Hcalls : Forall is_HandleUserMessage
                     [HandleUserMessage "token-2" 42 "hello" 6;
                      HandleUserMessage "token-2" 42 gibberish 8])
    by (repeat constructor).
  split; [repeat split; [exact Hst|exact Hcalls]|].
  apply (send_message_keeps_escalated_at analyzer
           [HandleUserMessage "token-2" 42 "hello" 6;
            HandleUserMessage "token-2" 42 gibberish 8]
           (world_of [escalated_session]) 0 escalated_session "token-2" 42
           gibberish 6 eq_refl Hst Hcalls).
Defined.

(** The escalated session does receive a successful reply: the call of the
    instance above is not a failed one. *)
Lemma send_message_to_escalated_session_succeeds :
  fst (send_message analyzer (world_of [escalated_session]) "token-2" 42
                    gibberish 6)
  = Ok (Some (mkReply gibberish handoff_message 0 true escalated)).
Proof.
  unfold send_message, world_of. cbn -[get_response fallback_index].
  rewrite gibberish_fallback. reflexivity.
Qed.

End ScenarioProperties.

(** * Further properties of the services *)

(** ** Facts about [order_by] *)

Section OrderByFacts.

Context {A : Type} (le : A -> A -> bool).

Lemma insert_by_perm (x : A) (l : list A) :
  Permutation (insert_by le x l) (x :: l).
Proof.
  induction l as [|y l IH]; cbn; [reflexivity|].
  destruct (le x y); [reflexivity|].
  rewrite IH. apply perm_swap.
Qed.

Lemma order_by_perm (l : list A) : Permutation (order_by le l) l.
Proof.
  induction l as [|x l IH]; cbn; [reflexivity|].
  rewrite insert_by_perm. constructor. exact IH.
Qed.

Hypothesis le_total : forall a b, le a b = false -> le b a = true.

Lemma insert_by_sorted (x : A) (l : list A) :
  Sorted (fun a b => le a b = true) l ->
  Sorted (fun a b => le a b = true) (insert_by le x l).
Proof.
  induction 1 as [|y l Hl IH Hhd]; cbn.
  - repeat constructor.
  - destruct (le x y) eqn:Hxy.
    + repeat constructor; assumption.
    + constructor; [exact IH|].
      destruct l as [|z l]; cbn.
      * constructor. apply le_total. assumption.
      * destruct (le x z); constructor.
        -- apply le_total. assumption.
        -- inversion Hhd. assumption.
Qed.

Lemma order_by_sorted (l : list A) :
  Sorted (fun a b => le a b = true) (order_by le l).
Proof.
  induction l as [|x l IH]; cbn; [constructor|].
  apply insert_by_sorted. exact IH.
Qed.

End OrderByFacts.

Lemma Forall_update_row {A : Type} (P : A -> Prop) (rows : list A) (i : nat)
      (r : A) :
  Forall P rows -> P r -> Forall P (update_row i r rows).
Proof.
  intros Hrows Hr. revert i.
  induction Hrows as [|r0 rows H0 Hrows IH]; intros [|i]; cbn;
    constructor; auto.
Qed.

Lemma length_update_row {A : Type} (rows : list A) (i : nat) (r : A) :
  List.length (update_row i r rows) = List.length rows.
Proof.
  revert i. induction rows as [|r0 rows IH]; intros [|i]; cbn; auto.
Qed.

(** ** Invariants of the tables *)

Section TableInvariants.

Variable analyzer : string -> list string.

Lemma keeps_records_refl (w : World) : keeps_records w w.
Proof.
  repeat split.
  - exists []. rewrite app_nil_r. reflexivity.
  - intros i s Hs. exists s. auto.
Qed.

Lemma keeps_records_trans (w1 w2 w3 : World) :
  keeps_records w1 w2 -> keeps_records w2 w3 -> keeps_records w1 w3.
Proof.
  intros ((a1 & Hm1) & Hk1 & Hs1) ((a2 & Hm2) & Hk2 & Hs2). repeat split.
  - exists (a1 ++ a2). rewrite Hm2, Hm1, app_assoc. reflexivity.
  - congruence.
  - intros i s Hs. destruct (Hs1 i s Hs) as (s' & Hs' & H1 & H2 & H3 & H4).
    destruct (Hs2 i s' Hs') as (s'' & Hs'' & H1' & H2' & H3' & H4').
    exists s''. repeat split; congruence.
Qed.

(** Replacing the row at [i] by one with the same identity keeps the
    records. *)
Lemma keeps_records_update (w : World) (i : nat) (s s' : ChatSession.t)
      (added : list ChatMessage.t) (engine : ChatbotEngine) :
  session_at w i = Some s ->
  ChatSession.id s' = ChatSession.id s ->
  ChatSession.user_id s' = ChatSession.user_id s ->
  ChatSession.session_id s' = ChatSession.session_id s ->
  ChatSession.created_at s' = ChatSession.created_at s ->
  keeps_records w
    (mkWorld (mkDatabase (knowledge_base (db w))
                         (update_row i s' (chat_sessions (db w)))
                         (chat_messages (db w) ++ added))
             engine).
Proof.
  intros Hs Hid Hu Ht Hc. repeat split.
  - exists added. reflexivity.
  - intros j r Hr. unfold session_at in *. cbn.
    rewrite nth_error_update_row. destruct (Nat.eqb j i) eqn:Hji.
    + apply Nat.eqb_eq in Hji. subst j. rewrite Hr.
      assert (r = s) by congruence. subst r. exists s'. auto.
    + exists r. auto.
Qed.

Lemma keeps_records_operation (w : World) (op : Operation) :
  keeps_records w (apply_operation analyzer w op).
Proof.
  destruct op as [uid token now|sid uid msg now|pk msg aid now|pk now|]; cbn.
  - repeat split.
    + eexists. reflexivity.
    + intros i s Hs. exists s. unfold session_at in *. cbn.
      rewrite nth_error_app1; [auto|].
      apply nth_error_Some. rewrite Hs. discriminate.
  - unfold send_message.
    destruct (first (owned_by sid uid) (chat_sessions (db w)))
      as [[i s]|] eqn:Hfirst; [|apply keeps_records_refl].
    apply first_spec in Hfirst. destruct Hfirst as (Hnth & _).
    destruct (get_response analyzer (knowledge_base (db w)) msg
                           default_threshold (chatbot w))
      as [[[[response sim] escalate]|e] engine']; cbn.
    + apply keeps_records_update with (s := s); [exact Hnth| | | |];
        destruct (escalate && Status_eqb (ChatSession.status s) active);
        reflexivity.
    + repeat split.
      * exists []. rewrite app_nil_r. reflexivity.
      * intros j r Hr. exists r. auto.
  - unfold send_agent_message.
    destruct (first (has_id pk) (chat_sessions (db w))) as [[i s]|];
      [|apply keeps_records_refl].
    destruct (negb (Status_eqb (ChatSession.status s) escalated));
      [apply keeps_records_refl|]. cbn.
    repeat split.
    + eexists. reflexivity.
    + intros j r Hr. exists r. auto.
  - unfold close_session.
    destruct (first (has_id pk) (chat_sessions (db w)))
      as [[i s]|] eqn:Hfirst; [|apply keeps_records_refl].
    apply first_spec in Hfirst. destruct Hfirst as (Hnth & _). cbn.
    rewrite <- (app_nil_r (chat_messages (db w))).
    apply keeps_records_update with (s := s); auto.
  - repeat split.
    + exists []. rewrite app_nil_r. reflexivity.
    + intros j r Hr. exists r. auto.
Qed.

(** X1.  No sequence of service calls (starting sessions, customer and agent
    messages, closing, retraining) removes or alters a stored message,
    touches the knowledge table, or changes the key, the owner, the token or
    the creation time of a session: the tables only grow, and only the
    status and the two life-cycle times of a session are ever rewritten. *)
Theorem operations_keep_records (ops : list Operation) (w : World) :
  keeps_records w (run_operations analyzer ops w).
Proof.
  revert w. unfold run_operations.
  induction ops as [|op ops IH]; intros w; cbn.
  - apply keeps_records_refl.
  - eapply keeps_records_trans; [apply keeps_records_operation|apply IH].
Qed.

Lemma consistent_operation (w : World) (op : Operation) :
  Forall consistent_session (chat_sessions (db w)) ->
  Forall consistent_session
         (chat_sessions (db (apply_operation analyzer w op))).
Proof.
  intros Hw.
  destruct op as [uid token now|sid uid msg now|pk msg aid now|pk now|]; cbn.
  - apply Forall_app. split; [assumption|].
    constructor; [|constructor]. unfold consistent_session. cbn. auto.
  - unfold send_message.
    destruct (first (owned_by sid uid) (chat_sessions (db w)))
      as [[i s]|] eqn:Hfirst; [|assumption].
    apply first_spec in Hfirst. destruct Hfirst as (Hnth & _).
    destruct (get_response analyzer (knowledge_base (db w)) msg
                           default_threshold (chatbot w))
      as [[[[response sim] escalate]|e] engine']; cbn; [|assumption].
    apply Forall_update_row; [assumption|].
    assert (Hs : consistent_session s).
    { eapply Forall_forall; [exact Hw|]. eapply nth_error_In; eassumption. }
    unfold consistent_session in *.
    destruct escalate, (ChatSession.status s) eqn:Hst; cbn;
      rewrite ?Hst; try assumption.
    destruct Hs as (_ & Hc). split; [discriminate|assumption].
  - unfold send_agent_message.
    destruct (first (has_id pk) (chat_sessions (db w))) as [[i s]|];
      [|assumption].
    destruct (negb (Status_eqb (ChatSession.status s) escalated));
      assumption.
  - unfold close_session.
    destruct (first (has_id pk) (chat_sessions (db w))) as [[i s]|];
      [|assumption].
    cbn. apply Forall_update_row; [assumption|].
    unfold consistent_session. cbn. discriminate.
  - assumption.
Qed.

(** X2.  The services keep the life-cycle columns of every session
    consistent with its status: through any sequence of calls an ACTIVE
    session has neither an escalation nor a closing time, an ESCALATED one
    has an escalation time and no closing time, and a CLOSED one has a
    closing time. *)
Theorem operations_keep_sessions_consistent (ops : list Operation)
        (w : World) :
  Forall consistent_session (chat_sessions (db w)) ->
  Forall consistent_session
         (chat_sessions (db (run_operations analyzer ops w))).
Proof.
  revert w. unfold run_operations.
  induction ops as [|op ops IH]; intros w Hw; cbn; [assumption|].
  apply IH. apply consistent_operation. assumption.
Qed.

End TableInvariants.

(** ** The chat history and the effect of a message on it *)

Section HistoryProperties.

Variable analyzer : string -> list string.

Lemma timestamp_le_total (a b : ChatMessage.t) :
  timestamp_le a b = false -> timestamp_le b a = true.
Proof. unfold timestamp_le. intros H. apply Z.leb_gt in H. apply Z.leb_le. lia. Qed.

Lemma history_sorted (msgs : list ChatMessage.t) :
  StronglySorted
    (fun a b => (HistoryEntry.timestamp a <= HistoryEntry.timestamp b)%Z)
    (map history_entry (order_by timestamp_le msgs)).
Proof.
  assert (H : StronglySorted (fun a b => timestamp_le a b = true)
                             (order_by timestamp_le msgs)).
  { apply Sorted_StronglySorted.
    - intros a b c Hab Hbc. unfold timestamp_le in *.
      apply Z.leb_le in Hab, Hbc. apply Z.leb_le. lia.
    - apply order_by_sorted. exact timestamp_le_total. }
  induction H as [|m l Hl IH Hm]; cbn; constructor; [exact IH|].
  apply Forall_map. eapply Forall_impl; [|exact Hm]. cbn.
  intros b Hb. apply Z.leb_le. exact Hb.
Qed.

(** X3.  For a session that the user owns, [get_chat_history] returns the
    messages of that session, all of them and each once, and no message of
    another session, by non-decreasing time. *)
Theorem get_chat_history_complete_and_sorted (w : World)
        (session_id : string) (user_id : nat) (i : nat) (s : ChatSession.t) :
  first (owned_by session_id user_id) (chat_sessions (db w)) = Some (i, s) ->
  Permutation
    (get_chat_history w session_id user_id)
    (map history_entry
         (filter (of_session (ChatSession.id s)) (chat_messages (db w))))
  /\ StronglySorted
       (fun a b => (HistoryEntry.timestamp a <= HistoryEntry.timestamp b)%Z)
       (get_chat_history w session_id user_id).
Proof.
  intros Hfirst. unfold get_chat_history. rewrite Hfirst. split.
  - apply Permutation_map, order_by_perm.
  - apply history_sorted.
Qed.

(** X4.  [get_chat_history] never fails and never shows a user someone
    else's conversation: every entry it returns is a stored message of a
    session that carries the given token and belongs to the given user; in
    particular the history is empty when there is no such session. *)
Theorem get_chat_history_only_own_messages (w : World) (session_id : string)
        (user_id : nat) (entry : HistoryEntry.t) :
  In entry (get_chat_history w session_id user_id) ->
  exists s msg,
    In s (chat_sessions (db w))
    /\ ChatSession.session_id s = session_id
    /\ ChatSession.user_id s = user_id
    /\ In msg (chat_messages (db w))
    /\ ChatMessage.session_id msg = ChatSession.id s
    /\ entry = history_entry msg.
Proof.
  unfold get_chat_history.
  destruct (first (owned_by session_id user_id) (chat_sessions (db w)))
    as [[i s]|] eqn:Hfirst; [|intros []].
  apply first_spec in Hfirst. destruct Hfirst as (Hnth & Howned).
  intros Hin. apply in_map_iff in Hin. destruct Hin as (msg & <- & Hmsg).
  eapply Permutation_in in Hmsg; [|apply order_by_perm].
  apply filter_In in Hmsg. destruct Hmsg as (Hmsg & Hof).
  unfold owned_by in Howned. apply andb_true_iff in Howned.
  destruct Howned as (Ht & Hu).
  exists s, msg. repeat split.
  - eapply nth_error_In; eassumption.
  - apply String.eqb_eq. assumption.
  - apply Nat.eqb_eq. assumption.
  - assumption.
  - apply Nat.eqb_eq. assumption.
Qed.

(** X5.  A successful [send_message] adds exactly two messages to the
    conversation of the session it resolves to, the user's text and the
    bot's response with the escalation flag of the reply, and leaves the
    messages of every other session as they were. *)
Theorem send_message_adds_two_messages (w w' : World) (session_id : string)
        (user_id : nat) (message : string) (now : Z) (i : nat)
        (s : ChatSession.t) (reply : Reply) :
  first (owned_by session_id user_id) (chat_sessions (db w)) = Some (i, s) ->
  send_message analyzer w session_id user_id message now
  = (Ok (Some reply), w') ->
  (exists user_msg bot_msg,
      ChatMessage.message_type user_msg = user
      /\ ChatMessage.content user_msg = message
      /\ ChatMessage.message_type bot_msg = bot
      /\ ChatMessage.content bot_msg = bot_response reply
      /\ ChatMessage.is_escalation_trigger bot_msg = needs_escalation reply
      /\ chat_messages (db w') = chat_messages (db w) ++ [user_msg; bot_msg]
      /\ Permutation
           (get_session_messages w' (ChatSession.id s))
           (get_session_messages w (ChatSession.id s) ++ [user_msg; bot_msg]))
  /\ forall other,
      other <> ChatSession.id s ->
      get_session_messages w' other = get_session_messages w other.
Proof.
  intros Hfirst Hsend. unfold send_message in Hsend. rewrite Hfirst in Hsend.
  destruct (get_response analyzer (knowledge_base (db w)) message
                         default_threshold (chatbot w))
    as [[[[response sim] escalate]|e] engine']; [|discriminate].
  inversion Hsend; subst reply w'; clear Hsend. cbn. split.
  - exists (ChatMessage.mk (next_id (chat_messages (db w)))
                           (ChatSession.id s) user message now false),
           (ChatMessage.mk (S (next_id (chat_messages (db w))))
                           (ChatSession.id s) bot response now escalate).
    do 6 (split; [reflexivity|]).
    unfold get_session_messages. cbn. rewrite filter_app. cbn.
    rewrite !Nat.eqb_refl.
    etransitivity; [apply (order_by_perm timestamp_le)|].
    apply Permutation_app; [symmetry; apply order_by_perm|reflexivity].
  - intros other Hother. unfold get_session_messages. cbn.
    rewrite filter_app. cbn.
    assert (Hneq : (ChatSession.id s =? other)%nat = false)
      by (apply Nat.eqb_neq; congruence).
    rewrite !Hneq, app_nil_r. reflexivity.
Qed.

(** X6.  What a successful [send_message] does to the session it resolves
    to: the session is escalated, with the time of the call as its
    escalation time, exactly when it was ACTIVE and the response needs
    escalation; in every other case the row is not changed at all.  The
    status in the reply is the status the session has afterwards, and no
    other session is touched. *)
Theorem send_message_escalates_exactly (w w' : World) (session_id : string)
        (user_id : nat) (message : string) (now : Z) (i : nat)
        (s : ChatSession.t) (reply : Reply) :
  first (owned_by session_id user_id) (chat_sessions (db w)) = Some (i, s) ->
  send_message analyzer w session_id user_id message now
  = (Ok (Some reply), w') ->
  exists s',
    session_at w' i = Some s'
    /\ session_status reply = ChatSession.status s'
    /\ (ChatSession.status s = active /\ needs_escalation reply = true ->
        ChatSession.status s' = escalated
        /\ ChatSession.escalated_at s' = Some now
        /\ ChatSession.closed_at s' = ChatSession.closed_at s)
    /\ (~ (ChatSession.status s = active /\ needs_escalation reply = true) ->
        s' = s)
    /\ (forall j, j <> i -> session_at w' j = session_at w j).
Proof.
  intros Hfirst Hsend. pose proof (first_spec _ _ _ _ Hfirst) as (Hnth & _).
  unfold send_message in Hsend. rewrite Hfirst in Hsend.
  destruct (get_response analyzer (knowledge_base (db w)) message
                         default_threshold (chatbot w))
    as [[[[response sim] escalate]|e] engine']; [|discriminate].
  inversion Hsend; subst reply w'; clear Hsend.
  unfold session_at. cbn. rewrite nth_error_update_row, Nat.eqb_refl, Hnth.
  eexists. split; [reflexivity|]. split; [reflexivity|].
  split; [|split].
  - intros (Hst & Hesc). subst escalate. rewrite Hst. cbn. auto.
  - intros Hnot. destruct escalate; [|reflexivity].
    destruct (ChatSession.status s) eqn:Hst; cbn; try reflexivity.
    exfalso. apply Hnot. auto.
  - intros j Hj. rewrite nth_error_update_row.
    apply Nat.eqb_neq in Hj. rewrite Hj. reflexivity.
Qed.

(** X7.  [send_agent_message] succeeds exactly when a session with the
    given key exists and is ESCALATED.  Then it stores one AGENT message
    with the given text for that session and changes nothing else; when it
    fails it changes nothing at all. *)
Theorem send_agent_message_only_when_escalated (w : World)
        (session_id : nat) (message : string) (agent_id : nat) (now : Z) :
  (fst (send_agent_message w session_id message agent_id now) = true
   <-> exists i s,
       first (has_id session_id) (chat_sessions (db w)) = Some (i, s)
       /\ ChatSession.status s = escalated)
  /\ (fst (send_agent_message w session_id message agent_id now) = true ->
      exists agent_msg,
        ChatMessage.message_type agent_msg = agent
        /\ ChatMessage.content agent_msg = message
        /\ ChatMessage.session_id agent_msg = session_id
        /\ ChatMessage.is_escalation_trigger agent_msg = false
        /\ snd (send_agent_message w session_id message agent_id now)
           = mkWorld (mkDatabase (knowledge_base (db w))
                                 (chat_sessions (db w))
                                 (chat_messages (db w) ++ [agent_msg]))
                     (chatbot w))
  /\ (fst (send_agent_message w session_id message agent_id now) = false ->
      snd (send_agent_message w session_id message agent_id now) = w).
Proof.
  unfold send_agent_message.
  destruct (first (has_id session_id) (chat_sessions (db w)))
    as [[i s]|] eqn:Hfirst; cbn.
  - destruct (ChatSession.status s) eqn:Hst; cbn;
      (split; [split|split]); try discriminate; try reflexivity.
    + intros (i0 & s0 & H & Hs0). inversion H; subst. congruence.
    + intros _. exists i, s. auto.
    + intros _.
      exists (ChatMessage.mk (next_id (chat_messages (db w))) session_id agent
                             message now false).
      repeat split.
    + intros (i0 & s0 & H & Hs0). inversion H; subst. congruence.
  - (split; [split|split]); try discriminate; try reflexivity.
    intros (i0 & s0 & H & _). discriminate.
Qed.

End HistoryProperties.

(** ** The queue of the agents *)

Section QueueProperties.

Variable analyzer : string -> list string.

Lemma escalated_at_le_total (a b : ChatSession.t) :
  escalated_at_le a b = false -> escalated_at_le b a = true.
Proof.
  unfold escalated_at_le.
  destruct (ChatSession.escalated_at a), (ChatSession.escalated_at b);
    try discriminate; try reflexivity.
  intros H. apply Z.leb_gt in H. apply Z.leb_le. lia.
Qed.

Lemma escalated_at_le_trans (a b c : ChatSession.t) :
  escalated_at_le a b = true -> escalated_at_le b c = true ->
  escalated_at_le a c = true.
Proof.
  unfold escalated_at_le.
  destruct (ChatSession.escalated_at a), (ChatSession.escalated_at b),
    (ChatSession.escalated_at c); try discriminate; try reflexivity.
  intros H1 H2. apply Z.leb_le in H1, H2. apply Z.leb_le. lia.
Qed.

(** Rewriting one row changes the selection of a filter by that row only. *)
Lemma filter_update_row {A : Type} (p : A -> bool) (rows : list A) (i : nat)
      (s s' : A) :
  nth_error rows i = Some s ->
  Permutation
    ((if p s then [s] else []) ++ filter p (update_row i s' rows))
    ((if p s' then [s'] else []) ++ filter p rows).
Proof.
  revert i. induction rows as [|r rows IH]; intros [|i] H; cbn in *;
    try discriminate.
  - inversion H; subst r.
    destruct (p s), (p s'); cbn; try reflexivity.
    apply perm_swap.
  - specialize (IH i H). destruct (p r); [|exact IH].
    rewrite <- !Permutation_middle. constructor. exact IH.
Qed.

Lemma sorted_by_escalation_time (l : list ChatSession.t) :
  (forall s, In s l -> ChatSession.escalated_at s <> None) ->
  StronglySorted (fun a b => escalated_at_le a b = true) l ->
  StronglySorted by_escalation_time l.
Proof.
  intros Htime Hsorted.
  induction Hsorted as [|a l Hl IH Ha]; constructor.
  - apply IH. intros s Hs. apply Htime. right. assumption.
  - apply Forall_forall. intros b Hb.
    pose proof (Htime a (or_introl eq_refl)) as Hta.
    pose proof (Htime b (or_intror Hb)) as Htb.
    eapply Forall_forall in Ha; [|exact Hb].
    unfold escalated_at_le in Ha. unfold by_escalation_time.
    destruct (ChatSession.escalated_at a) as [x|]; [|congruence].
    destruct (ChatSession.escalated_at b) as [y|]; [|congruence].
    exists x, y. repeat split. apply Z.leb_le. assumption.
Qed.

(** X8.  [get_escalated_sessions] returns the ESCALATED sessions, all of
    them and each once, and no other session, ordered by the column
    [escalated_at] (a row without a time before the others).  When the
    life-cycle columns are consistent, every session of the queue has an
    escalation time and the queue is by non-decreasing escalation time. *)
Theorem get_escalated_sessions_queue (w : World) :
  Permutation (get_escalated_sessions w)
              (filter is_escalated (chat_sessions (db w)))
  /\ (forall s, In s (get_escalated_sessions w) <->
                In s (chat_sessions (db w))
                /\ ChatSession.status s = escalated)
  /\ StronglySorted (fun a b => escalated_at_le a b = true)
                    (get_escalated_sessions w)
  /\ (Forall consistent_session (chat_sessions (db w)) ->
      StronglySorted by_escalation_time (get_escalated_sessions w)).
Proof.
  assert (Hperm : Permutation (get_escalated_sessions w)
                              (filter is_escalated (chat_sessions (db w))))
    by apply order_by_perm.
  assert (Hin : forall s, In s (get_escalated_sessions w) <->
                          In s (chat_sessions (db w))
                          /\ ChatSession.status s = escalated).
  { intros s. split.
    - intros H. eapply Permutation_in in H; [|exact Hperm].
      apply filter_In in H. destruct H as (H & Hs). split; [assumption|].
      unfold is_escalated in Hs. destruct (ChatSession.status s);
        [discriminate|reflexivity|discriminate].
    - intros (H & Hs). eapply Permutation_in; [symmetry; exact Hperm|].
      apply filter_In. split; [assumption|].
      unfold is_escalated. rewrite Hs. reflexivity. }
  assert (Hsorted : StronglySorted (fun a b => escalated_at_le a b = true)
                                   (get_escalated_sessions w)).
  { apply Sorted_StronglySorted.
    - intros a b c. apply escalated_at_le_trans.
    - apply order_by_sorted. exact escalated_at_le_total. }
  split; [exact Hperm|]. split; [exact Hin|]. split; [exact Hsorted|].
  intros Hw.
  assert (Htime : forall s, In s (get_escalated_sessions w) ->
                            ChatSession.escalated_at s <> None).
  { intros s Hs. apply Hin in Hs. destruct Hs as (Hs & Hst).
    eapply Forall_forall in Hw; [|exact Hs].
    unfold consistent_session in Hw. rewrite Hst in Hw. tauto. }
  apply sorted_by_escalation_time; assumption.
Qed.

(** X9.  Closing an ESCALATED session takes it, and nothing else, out of
    the queue of the agents. *)
Theorem close_session_leaves_queue (w : World) (session_id : nat) (now : Z)
        (i : nat) (s : ChatSession.t) :
  first (has_id session_id) (chat_sessions (db w)) = Some (i, s) ->
  ChatSession.status s = escalated ->
  Permutation (get_escalated_sessions w)
              (s :: get_escalated_sessions
                      (snd (close_session w session_id now))).
Proof.
  intros Hfirst Hst. pose proof (first_spec _ _ _ _ Hfirst) as (Hnth & _).
  unfold close_session. rewrite Hfirst. unfold get_escalated_sessions. cbn.
  etransitivity; [apply order_by_perm|].
  etransitivity;
    [|constructor; symmetry; apply (order_by_perm escalated_at_le)].
  pose proof (filter_update_row is_escalated (chat_sessions (db w)) i s
                (ChatSession.mk (ChatSession.id s) (ChatSession.user_id s)
                                (ChatSession.session_id s) closed
                                (ChatSession.created_at s)
                                (ChatSession.escalated_at s) (Some now))
                Hnth) as H.
  unfold is_escalated at 1 3 in H. rewrite Hst in H. cbn in H.
  symmetry. exact H.
Qed.

(** X10.  A message that escalates an ACTIVE session puts that session,
    with the time of the call as its escalation time, into the queue of the
    agents, next to the sessions that were there. *)
Theorem send_message_enters_queue (w w' : World) (session_id : string)
        (user_id : nat) (message : string) (now : Z) (i : nat)
        (s : ChatSession.t) (reply : Reply) :
  first (owned_by session_id user_id) (chat_sessions (db w)) = Some (i, s) ->
  send_message analyzer w session_id user_id message now
  = (Ok (Some reply), w') ->
  ChatSession.status s = active ->
  needs_escalation reply = true ->
  exists s',
    session_at w' i = Some s'
    /\ ChatSession.id s' = ChatSession.id s
    /\ ChatSession.escalated_at s' = Some now
    /\ Permutation (get_escalated_sessions w')
                   (s' :: get_escalated_sessions w).
Proof.
  intros Hfirst Hsend Hst Hesc.
  pose proof (first_spec _ _ _ _ Hfirst) as (Hnth & _).
  unfold send_message in Hsend. rewrite Hfirst in Hsend.
  destruct (get_response analyzer (knowledge_base (db w)) message
                         default_threshold (chatbot w))
    as [[[[response sim] escalate]|e] engine']; [|discriminate].
  inversion Hsend; subst reply w'; clear Hsend. cbn in Hesc. subst escalate.
  rewrite Hst. cbn.
  eexists. unfold session_at. cbn.
  rewrite nth_error_update_row, Nat.eqb_refl, Hnth.
  split; [reflexivity|]. split; [reflexivity|]. split; [reflexivity|].
  unfold get_escalated_sessions. cbn.
  etransitivity; [apply order_by_perm|].
  etransitivity;
    [|constructor; symmetry; apply (order_by_perm escalated_at_le)].
  match goal with
  | |- Permutation (filter _ (update_row i ?new _)) _ =>
      pose proof (filter_update_row is_escalated (chat_sessions (db w)) i s
                                    new Hnth) as H
  end.
  unfold is_escalated at 1 3 in H. rewrite Hst in H. cbn in H. exact H.
Qed.

End QueueProperties.

(** ** Building, failing and reusing the index *)

Section IndexProperties.

Import Sklearn SklearnFacts.
Local Open Scope R_scope.

Variable analyzer : string -> list string.

(** X11.  When the fit of the loaded questions fails (no question has a
    term), [retrain_model] raises, whatever index the engine had before is
    gone (the vectorizer is unfitted and there are no vectors), and every
    later query raises the same error for as long as the table gives the
    same questions. *)
Theorem failed_build_leaves_no_index (kb : list KnowledgeBase.t)
        (self : ChatbotEngine) (e : exn) (q : string) (threshold : R) :
  fit analyzer max_features (loaded_questions kb) = Raised e ->
  fst (retrain_model analyzer kb self) = Raised e
  /\ vectorizer (snd (retrain_model analyzer kb self)) = Some None
  /\ knowledge_vectors (snd (retrain_model analyzer kb self)) = Some None
  /\ get_response analyzer kb q threshold
                  (snd (retrain_model analyzer kb self))
     = (Raised e, snd (retrain_model analyzer kb self)).
Proof.
  intros Hfit. unfold retrain_model. rewrite _initialize_eq, Hfit. cbn.
  split; [reflexivity|]. split; [reflexivity|]. split; [reflexivity|].
  unfold get_response, bind, getattr. cbn -[_initialize].
  rewrite _initialize_eq, Hfit. reflexivity.
Qed.

(** X12.  A query on an engine that has no vectors (its last build failed)
    builds the index from the table as it is now: when that fit succeeds,
    the query is answered exactly as by the new index, which stays
    installed. *)
Theorem get_response_builds_lazily (kb : list KnowledgeBase.t)
        (self : ChatbotEngine) (v : Fitted) (q : string) (threshold : R) :
  knowledge_vectors self = Some None ->
  fit analyzer max_features (loaded_questions kb) = Ok v ->
  get_response analyzer kb q threshold self
  = get_response analyzer kb q threshold
                 (index_of analyzer v (loaded_questions kb)
                           (loaded_answers kb))
  /\ snd (get_response analyzer kb q threshold self)
     = index_of analyzer v (loaded_questions kb) (loaded_answers kb).
Proof.
  intros Hkv Hfit.
  destruct (get_response_index analyzer kb q threshold v
              (loaded_questions kb) (loaded_answers kb)
              (loaded_questions_nonempty kb) (loaded_lengths kb))
    as (m & k & a & _ & _ & _ & _ & Hresp).
  assert (H : get_response analyzer kb q threshold self
              = get_response analyzer kb q threshold
                  (index_of analyzer v (loaded_questions kb)
                            (loaded_answers kb))).
  { unfold get_response at 1. unfold bind at 1. unfold getattr at 1.
    rewrite Hkv. unfold bind at 1. rewrite _initialize_eq, Hfit.
    unfold get_response, bind, getattr, index_of, ret. cbn. reflexivity. }
  split; [exact H|]. rewrite H, Hresp. reflexivity.
Qed.

(** X13.  An installed index answers from the snapshot it was built from:
    the result of a query does not depend on the content of the knowledge
    table at the time of the query, so an edit of the table shows only after
    the next [retrain_model]. *)
Theorem get_response_ignores_table (kb1 kb2 : list KnowledgeBase.t)
        (self : ChatbotEngine) (q : string) (threshold : R) :
  installed analyzer self ->
  get_response analyzer kb1 q threshold self
  = get_response analyzer kb2 q threshold self.
Proof.
  intros Hinst. destruct (installed_inv analyzer self Hinst)
    as (kb0 & v & _ & ->).
  unfold get_response, bind, getattr, index_of, ret. cbn. reflexivity.
Qed.

(** X14.  What an index built from a table can answer: an escalating
    response carries the fixed hand-off message; any other response is the
    answer of an active entry of that table, the one whose question has the
    similarity that is returned, or one of the built-in greetings when the
    table has no active entry.  An inactive entry is never the source of a
    response. *)
Theorem get_response_answers_from_active_entries
        (kb kb' : list KnowledgeBase.t) (self0 self self' : ChatbotEngine)
        (q response : string) (sim threshold : R) (escalate : bool) :
  _initialize analyzer kb self0 = (Ok tt, self) ->
  get_response analyzer kb' q threshold self
  = (Ok (response, sim, escalate), self') ->
  (escalate = true -> response = handoff_message)
  /\ (escalate = false ->
      (exists v item,
          vectorizer self = Some (Some v)
          /\ In item kb
          /\ KnowledgeBase.is_active item = true
          /\ KnowledgeBase.answer item = response
          /\ entry_similarity analyzer v q (KnowledgeBase.question item) = sim)
      \/ (filter KnowledgeBase.is_active kb = []
          /\ In response fallback_answers)).
Proof.
  intros Hinit Hresp. rewrite _initialize_eq in Hinit.
  destruct (fit analyzer max_features (loaded_questions kb)) as [v|e] eqn:Hfit;
    [|discriminate].
  inversion Hinit; subst self; clear Hinit.
  destruct (get_response_index analyzer kb' q threshold v
              (loaded_questions kb) (loaded_answers kb)
              (loaded_questions_nonempty kb) (loaded_lengths kb))
    as (m & k & a & Hnth & _ & _ & Ha & Heq).
  rewrite Heq in Hresp.
  destruct (Rge_dec m threshold); inversion Hresp; subst; clear Hresp.
  - split; [discriminate|]. intros _.
    unfold loaded_questions, loaded_answers in *.
    destruct (filter KnowledgeBase.is_active kb) as [|it items] eqn:Hact.
    + right. split; [reflexivity|]. eapply nth_error_In; eassumption.
    + left. rewrite nth_error_map in Ha, Hnth.
      rewrite nth_error_map in Hnth.
      destruct (nth_error (it :: items) k) as [item|] eqn:Hitem;
        [|discriminate].
      cbn in Ha, Hnth. inversion Ha; inversion Hnth; subst.
      apply nth_error_In in Hitem. rewrite <- Hact in Hitem.
      apply filter_In in Hitem. destruct Hitem as (Hin & Hactive).
      exists v, item. repeat split; assumption.
  - split; [reflexivity|discriminate].
Qed.

(** X15.  When two entries of an index have the same question text, the
    later one is never the one that answers: every non-escalating response
    is the answer of an entry at another position. *)
Theorem duplicate_question_never_answers (kb : list KnowledgeBase.t)
        (v : Fitted) (qs ans : list string) (i j : nat) (question q : string)
        (threshold : R) (response : string) (sim : R)
        (self' : ChatbotEngine) :
  List.length ans = List.length qs ->
  nth_error qs i = Some question ->
  nth_error qs j = Some question ->
  (i < j)%nat ->
  get_response analyzer kb q threshold (index_of analyzer v qs ans)
  = (Ok (response, sim, false), self') ->
  exists k,
    k <> j
    /\ nth_error ans k = Some response
    /\ nth_error (map (entry_similarity analyzer v q) qs) k = Some sim.
Proof.
  intros Hlen Hi Hj Hij Hresp.
  assert (Hne : qs <> []) by (destruct qs; [destruct i|]; discriminate).
  destruct (get_response_index analyzer kb q threshold v qs ans Hne Hlen)
    as (m & k & a & Hnth & Hle & Hfirst & Ha & Heq).
  rewrite Heq in Hresp.
  destruct (Rge_dec m threshold); inversion Hresp; subst; clear Hresp.
  exists k. repeat split; try assumption.
  intros ->.
  assert (Hsim_i : nth_error (map (entry_similarity analyzer v q) qs) i
                   = Some sim).
  { rewrite nth_error_map in Hnth |- *. rewrite Hj in Hnth. rewrite Hi.
    exact Hnth. }
  pose proof (Hfirst i sim Hij Hsim_i). lra.
Qed.

(** X16.  Raising the threshold never turns an escalation into an answer,
    and the similarity that is returned does not depend on the threshold. *)
Theorem threshold_is_monotone (kb : list KnowledgeBase.t)
        (self : ChatbotEngine) (q : string) (t1 t2 : R) :
  installed analyzer self ->
  t1 <= t2 ->
  exists r1 s e1 r2 e2,
    get_response analyzer kb q t1 self = (Ok (r1, s, e1), self)
    /\ get_response analyzer kb q t2 self = (Ok (r2, s, e2), self)
    /\ (e1 = true -> e2 = true)
    /\ (e2 = false -> r1 = r2).
Proof.
  intros Hinst Ht. destruct (installed_inv analyzer self Hinst)
    as (kb0 & v & _ & ->).
  destruct (get_response_index analyzer kb q t1 v
              (loaded_questions kb0) (loaded_answers kb0)
              (loaded_questions_nonempty kb0) (loaded_lengths kb0))
    as (m1 & k1 & a1 & Hn1 & Hle1 & Hf1 & Ha1 & H1).
  destruct (get_response_index analyzer kb q t2 v
              (loaded_questions kb0) (loaded_answers kb0)
              (loaded_questions_nonempty kb0) (loaded_lengths kb0))
    as (m2 & k2 & a2 & Hn2 & Hle2 & Hf2 & Ha2 & H2).
  assert (Hm : m1 = m2).
  { apply Rle_antisym.
    - apply Hle2. eapply nth_error_In; eassumption.
    - apply Hle1. eapply nth_error_In; eassumption. }
  subst m2.
  assert (Hk : k1 = k2).
  { destruct (Nat.lt_trichotomy k1 k2) as [Hlt|[Heq|Hgt]]; [|assumption|].
    - pose proof (Hf2 k1 m1 Hlt Hn1). lra.
    - pose proof (Hf1 k2 m1 Hgt Hn2). lra. }
  subst k2. assert (a1 = a2) by congruence. subst a2.
  rewrite H1, H2.
  destruct (Rge_dec m1 t1), (Rge_dec m1 t2);
    eexists _, _, _, _, _; (split; [reflexivity|]);
    (split; [reflexivity|]); split; intros;
    try discriminate; try reflexivity; lra.
Qed.

(** X17.  A query none of whose terms is in the vocabulary of the index is
    handed off with similarity 0, for every positive threshold. *)
Theorem unknown_terms_escalate (kb : list KnowledgeBase.t)
        (self : ChatbotEngine) (v : Fitted) (q : string) (threshold : R) :
  installed analyzer self ->
  vectorizer self = Some (Some v) ->
  (forall t, In t (vocabulary_ v) -> ~ In t (analyzer q)) ->
  0 < threshold ->
  get_response analyzer kb q threshold self
  = (Ok (handoff_message, 0, true), self).
Proof.
  intros Hinst Hv Hunknown Hthr.
  destruct (installed_inv analyzer self Hinst) as (kb0 & v0 & _ & ->).
  cbn in Hv. assert (v0 = v) by congruence. subst v0.
  apply get_response_unknown; try assumption.
  - apply loaded_questions_nonempty.
  - apply loaded_lengths.
Qed.

End IndexProperties.

(** ** Messages and the state of the engine *)

Section EngineAndMessages.

Import Sklearn SklearnFacts.
Local Open Scope R_scope.

Variable analyzer : string -> list string.

(** X18.  With an installed index, a message to a session of the user is
    always served: [send_message] returns a reply that echoes the text and
    leaves the engine as it is, and the reply asks for escalation exactly
    when its similarity is below the threshold 0.3. *)
Theorem send_message_is_served (w : World) (session_id : string)
        (user_id : nat) (message : string) (now : Z) (i : nat)
        (s : ChatSession.t) :
  installed analyzer (chatbot w) ->
  first (owned_by session_id user_id) (chat_sessions (db w)) = Some (i, s) ->
  exists reply w',
    send_message analyzer w session_id user_id message now
    = (Ok (Some reply), w')
    /\ chatbot w' = chatbot w
    /\ user_message reply = message
    /\ (needs_escalation reply = true <-> similarity reply < default_threshold)
    /\ (needs_escalation reply = true -> bot_response reply = handoff_message).
Proof.
  intros Hinst Hfirst.
  destruct (installed_inv analyzer _ Hinst) as (kb0 & v & _ & Hidx).
  destruct (get_response_index analyzer (knowledge_base (db w)) message
              default_threshold v
              (loaded_questions kb0) (loaded_answers kb0)
              (loaded_questions_nonempty kb0) (loaded_lengths kb0))
    as (m & k & a & _ & _ & _ & _ & Hresp).
  unfold send_message. rewrite Hfirst, Hidx, Hresp.
  destruct (Rge_dec m default_threshold) as [Hge|Hlt];
    eexists _, _; (split; [reflexivity|]); cbn; repeat split;
    try discriminate; try reflexivity; intros; lra.
Qed.

(** X19.  Until [retrain_model] has run once, the engine singleton has no
    attributes.  No other service call gives it any, and in that state
    [send_message] never returns a reply: it returns [None] when the user
    has no session with the token, and for a session of the user, whatever
    its status, it raises [AttributeError] and stores nothing. *)
Theorem send_message_before_first_build (ops : list Operation) (w : World)
        (session_id : string) (user_id : nat) (message : string) (now : Z) :
  knowledge_vectors (chatbot w) = None ->
  Forall (fun op => ~ is_RetrainModel op) ops ->
  chatbot (run_operations analyzer ops w) = chatbot w
  /\ (first (owned_by session_id user_id)
            (chat_sessions (db (run_operations analyzer ops w))) = None ->
      send_message analyzer (run_operations analyzer ops w) session_id
                   user_id message now
      = (Ok None, run_operations analyzer ops w))
  /\ (forall i s,
        first (owned_by session_id user_id)
              (chat_sessions (db (run_operations analyzer ops w)))
        = Some (i, s) ->
        send_message analyzer (run_operations analyzer ops w) session_id
                     user_id message now
        = (Raised AttributeError, run_operations analyzer ops w)).
Proof.
  intros Hkv Hops.
  assert (Hfound : forall w0 sid uid msg t i s,
             knowledge_vectors (chatbot w0) = None ->
             first (owned_by sid uid) (chat_sessions (db w0)) = Some (i, s) ->
             send_message analyzer w0 sid uid msg t
             = (Raised AttributeError, w0)).
  { intros w0 sid uid msg t i s H0 Hfirst. unfold send_message.
    rewrite Hfirst. unfold get_response, bind, getattr. rewrite H0.
    destruct w0; reflexivity. }
  assert (Hbare : forall w0 sid uid msg t,
             knowledge_vectors (chatbot w0) = None ->
             send_message analyzer w0 sid uid msg t = (Ok None, w0)
             \/ send_message analyzer w0 sid uid msg t
                = (Raised AttributeError, w0)).
  { intros w0 sid uid msg t H0.
    destruct (first (owned_by sid uid) (chat_sessions (db w0)))
      as [[i s]|] eqn:Hfirst.
    - right. eapply Hfound; eassumption.
    - left. unfold send_message. rewrite Hfirst. reflexivity. }
  assert (Hrun : chatbot (run_operations analyzer ops w) = chatbot w).
  { revert w Hkv. unfold run_operations.
    induction Hops as [|op ops Hop _ IH]; intros w Hkv; cbn; [reflexivity|].
    assert (Hstep : chatbot (apply_operation analyzer w op) = chatbot w).
    { destruct op as [uid token t|sid uid msg t|pk msg aid t|pk t|]; cbn.
      - reflexivity.
      - destruct (Hbare w sid uid msg t Hkv) as [H|H]; rewrite H; reflexivity.
      - unfold send_agent_message.
        destruct (first (has_id pk) (chat_sessions (db w))) as [[i s]|];
          [|reflexivity].
        destruct (negb (Status_eqb (ChatSession.status s) escalated));
          reflexivity.
      - unfold close_session.
        destruct (first (has_id pk) (chat_sessions (db w))) as [[i s]|];
          reflexivity.
      - exfalso. apply Hop. exact I. }
    rewrite IH; [exact Hstep|]. rewrite Hstep. exact Hkv. }
  split; [exact Hrun|]. split.
  - intros Hnone. unfold send_message. rewrite Hnone. reflexivity.
  - intros i s Hfirst. eapply Hfound; [|exact Hfirst].
    rewrite Hrun. exact Hkv.
Qed.

End EngineAndMessages.

(** ** Properties of the routes *)

Section ControllerProperties.

Import Sklearn SklearnFacts.

Variable analyzer : string -> list string.
Variable is_active_default : bool.

Lemma first_from_none_inv {A : Type} (p : A -> bool) (rows : list A) (i : nat) :
  first_from p i rows = None -> forall r, In r rows -> p r = false.
Proof.
  revert i. induction rows as [|r0 rows IH]; cbn; intros i H r Hr; [tauto|].
  destruct (p r0) eqn:Hp; [discriminate|].
  destruct Hr as [<-|Hr]; [assumption|]. eapply IH; eassumption.
Qed.




(** What a request does to the row at position [i] of the session table. *)
Lemma handle_session (w : World) (r : Request) (i : nat)
      (s' : ChatSession.t) :
  session_at (handle analyzer is_active_default w r) i = Some s' ->
  (exists s,
      session_at w i = Some s
      /\ ChatSession.user_id s' = ChatSession.user_id s
      /\ (s' = s
          \/ (ChatSession.status s = active
              /\ ChatSession.status s' = escalated)
          \/ (ChatSession.status s' = closed
              /\ has_role "agent" (requester r) = true)))
  \/ (i = List.length (chat_sessions (db w))
      /\ ChatSession.status s' = active
      /\ forall s,
          In s (chat_sessions (db w)) ->
          ChatSession.user_id s = ChatSession.user_id s' ->
          ChatSession.status s <> active).
Proof.
  intros Hs'.
  assert (Hsame : forall w0, chat_sessions (db w0) = chat_sessions (db w) ->
                             session_at w0 i = Some s' ->
                             exists s, session_at w i = Some s
                                       /\ ChatSession.user_id s'
                                          = ChatSession.user_id s
                                       /\ s' = s).
  { intros w0 Heq H. unfold session_at in *. rewrite Heq in H.
    exists s'. auto. }
  assert (Hupd : forall k s0 s1,
             nth_error (chat_sessions (db w)) k = Some s0 ->
             ChatSession.user_id s1 = ChatSession.user_id s0 ->
             nth_error (update_row k s1 (chat_sessions (db w))) i = Some s' ->
             exists s,
               session_at w i = Some s
               /\ ChatSession.user_id s' = ChatSession.user_id s
               /\ (s' = s \/ (i = k /\ s = s0 /\ s' = s1))).
  { intros k s0 s1 Hk Hu H. rewrite nth_error_update_row in H.
    unfold session_at. destruct (Nat.eqb i k) eqn:Hik.
    - apply Nat.eqb_eq in Hik. subst k. rewrite Hk in *.
      inversion H; subst s'. exists s0.
      split; [reflexivity|]. split; [assumption|]. right. auto.
    - exists s'. auto. }
  destruct r as [u token now|u sid msg now|u sid msg now|u sid now
                 |u request new_id]; cbn in Hs'.
  - unfold customer_dashboard in Hs'.
    destruct (negb (has_role "customer" u)).
    { left. destruct (Hsame w eq_refl Hs') as (s & H1 & H2 & H3). eauto. }
    destruct (first (active_session_of (CurrentUser.id u))
                    (chat_sessions (db w))) as [[k s]|] eqn:Hfirst.
    { left. destruct (Hsame w eq_refl Hs') as (s0 & H1 & H2 & H3). eauto. }
    unfold session_at in *. cbn in Hs'.
    destruct (Nat.lt_ge_cases i (List.length (chat_sessions (db w))))
      as [Hlt|Hge].
    + rewrite nth_error_app1 in Hs' by assumption. left. exists s'. auto.
    + rewrite nth_error_app2 in Hs' by assumption. right.
      destruct (i - List.length (chat_sessions (db w)))%nat as [|n] eqn:Hi;
        [|destruct n; discriminate].
      split; [lia|].
      inversion Hs'; subst s'. cbn. split; [reflexivity|].
      intros s Hs Hu Hst.
      pose proof (first_from_none_inv _ _ _ Hfirst s Hs) as Hp.
      unfold active_session_of in Hp. rewrite Hu, Nat.eqb_refl, Hst in Hp.
      discriminate.
  - left. unfold api_send_message in Hs'.
    destruct (missing sid || missing msg).
    { destruct (Hsame w eq_refl Hs') as (s & H1 & H2 & H3). eauto. }
    destruct sid as [sid|], msg as [msg|];
      try (destruct (Hsame w eq_refl Hs') as (s & H1 & H2 & H3); eauto; fail).
    unfold send_message in Hs'.
    destruct (first (owned_by sid (CurrentUser.id u)) (chat_sessions (db w)))
      as [[k s0]|] eqn:Hfirst;
      [|destruct (Hsame w eq_refl Hs') as (s & H1 & H2 & H3); eauto].
    pose proof (first_spec _ _ _ _ Hfirst) as (Hk & _).
    destruct (get_response analyzer (knowledge_base (db w)) msg
                           default_threshold (chatbot w))
      as [[[[response sim] escalate]|e] engine'];
      [|destruct (Hsame w eq_refl Hs') as (s & H1 & H2 & H3); eauto].
    unfold session_at in Hs'. cbn in Hs'.
    destruct (escalate && Status_eqb (ChatSession.status s0) active) eqn:Hesc.
    + eapply (Hupd k s0) in Hs'; [|exact Hk|reflexivity].
      destruct Hs' as (s & H1 & H2 & [H3|(-> & -> & ->)]); [eauto|].
      exists s0. split; [assumption|]. split; [reflexivity|].
      right. left. apply andb_true_iff in Hesc. destruct Hesc as (_ & Hact).
      destruct (ChatSession.status s0); try discriminate. auto.
    + eapply (Hupd k s0) in Hs'; [|exact Hk|reflexivity].
      destruct Hs' as (s & H1 & H2 & [H3|(-> & -> & ->)]); eauto.
  - left. unfold api_send_agent_message in Hs'.
    destruct (negb (has_role "agent" u)).
    { destruct (Hsame w eq_refl Hs') as (s & H1 & H2 & H3). eauto. }
    destruct (missing_id sid || missing msg).
    { destruct (Hsame w eq_refl Hs') as (s & H1 & H2 & H3). eauto. }
    destruct sid as [sid|], msg as [msg|];
      try (destruct (Hsame w eq_refl Hs') as (s & H1 & H2 & H3); eauto; fail).
    unfold send_agent_message in Hs'.
    destruct (first (has_id sid) (chat_sessions (db w))) as [[k s0]|];
      [|destruct (Hsame w eq_refl Hs') as (s & H1 & H2 & H3); eauto].
    destruct (negb (Status_eqb (ChatSession.status s0) escalated));
      cbn in Hs';
      [destruct (Hsame w eq_refl Hs') as (s & H1 & H2 & H3); eauto|].
    exists s'. auto.
  - left. unfold api_close_session in Hs'.
    destruct (has_role "agent" u) eqn:Hrole; cbn [negb] in Hs';
      [|destruct (Hsame w eq_refl Hs') as (s & H1 & H2 & H3); eauto].
    destruct (missing_id sid).
    { destruct (Hsame w eq_refl Hs') as (s & H1 & H2 & H3). eauto. }
    destruct sid as [sid|];
      [|destruct (Hsame w eq_refl Hs') as (s & H1 & H2 & H3); eauto].
    unfold close_session in Hs'.
    destruct (first (has_id sid) (chat_sessions (db w)))
      as [[k s0]|] eqn:Hfirst; cbn in Hs';
      [|destruct (Hsame w eq_refl Hs') as (s & H1 & H2 & H3); eauto].
    pose proof (first_spec _ _ _ _ Hfirst) as (Hk & _).
    unfold session_at in Hs'. cbn in Hs'.
    eapply (Hupd k s0) in Hs'; [|exact Hk|reflexivity].
    destruct Hs' as (s & H1 & H2 & [H3|(-> & -> & ->)]); [eauto|].
    exists s0. split; [assumption|]. split; [reflexivity|].
    right. right. cbn. auto.
  - left. unfold manage_knowledge_base in Hs'.
    destruct (negb (has_role "admin" u)).
    { destruct (Hsame w eq_refl Hs') as (s & H1 & H2 & H3). eauto. }
    destruct (write_knowledge is_active_default (knowledge_base (db w))
                              request new_id) as [kb'|].
    + destruct (retrain_model analyzer kb' (chatbot w)) as [[[]|e] engine'];
        exists s'; auto.
    + destruct (Hsame w eq_refl Hs') as (s & H1 & H2 & H3). eauto.
Qed.

(** [customer_dashboard] is its query followed by [dashboard_after_query]. *)
Lemma customer_dashboard_steps (w : World) (current_user : CurrentUser.t)
      (token : string) (now : Z) :
  customer_dashboard w current_user token now
  = if negb (has_role "customer" current_user)
    then (Redirected "unauthorized", w)
    else dashboard_after_query
           (first (active_session_of (CurrentUser.id current_user))
                  (chat_sessions (db w)))
           w current_user token now.
Proof. reflexivity. Qed.

Lemma serve_keeps_one_active_session (requests : list Request) (w : World) :
  one_active_session_per_user w ->
  one_active_session_per_user
    (serve analyzer is_active_default requests w).
Proof.
  revert w. unfold serve.
  induction requests as [|r requests IH]; intros w Hw; cbn; [assumption|].
  apply IH. clear IH. intros i j s1' s2' Hi Hj Hu Hst1 Hst2.
  destruct (handle_session w r i s1' Hi)
    as [(s1 & Hs1 & Hu1 & Hc1)|(Hi1 & _ & Hnone1)];
    destruct (handle_session w r j s2' Hj)
      as [(s2 & Hs2 & Hu2 & Hc2)|(Hj2 & _ & Hnone2)].
  - assert (Ha1 : ChatSession.status s1 = active).
    { destruct Hc1 as [->|[(_ & Hx)|(Hx & _)]]; congruence. }
    assert (Ha2 : ChatSession.status s2 = active).
    { destruct Hc2 as [->|[(_ & Hx)|(Hx & _)]]; congruence. }
    apply (Hw i j s1 s2); congruence.
  - exfalso. apply (Hnone2 s1).
    + unfold session_at in Hs1. eapply nth_error_In; eassumption.
    + congruence.
    + destruct Hc1 as [->|[(_ & Hx)|(Hx & _)]]; congruence.
  - exfalso. apply (Hnone1 s2).
    + unfold session_at in Hs2. eapply nth_error_In; eassumption.
    + congruence.
    + destruct Hc2 as [->|[(_ & Hx)|(Hx & _)]]; congruence.
  - congruence.
Qed.

(** X21.  When the requests are served one after another, no user comes to
    have two ACTIVE sessions: the dashboard creates a session only for a
    customer who has no ACTIVE one, and no route makes a session ACTIVE
    again.  The guarantee is for requests that do not overlap only: when two
    dashboard requests of a customer without an ACTIVE session both run
    their query before either stores its session, the customer has two
    ACTIVE sessions afterwards. *)
Theorem routes_keep_one_active_session (requests : list Request)
        (w : World) (current_user : CurrentUser.t) (token_a token_b : string)
        (now_a now_b : Z) :
  one_active_session_per_user w ->
  one_active_session_per_user
    (serve analyzer is_active_default requests w)
  /\ (CurrentUser.role current_user = "customer"%string ->
      first (active_session_of (CurrentUser.id current_user))
            (chat_sessions (db w)) = None ->
      ~ one_active_session_per_user
          (interleaved_dashboards w current_user token_a now_a token_b
                                  now_b)).
Proof.
  intros Hw. split; [apply serve_keeps_one_active_session; exact Hw|].
  intros Hrole Hnone Hone. unfold interleaved_dashboards in Hone.
  assert (Hcust : has_role "customer" current_user = true)
    by (unfold has_role; rewrite Hrole; reflexivity).
  rewrite Hcust, Hnone in Hone. cbn in Hone.
  match type of Hone with
  | one_active_session_per_user
      (mkWorld (mkDatabase _ ((?l ++ [?a]) ++ [?b]) _) _) =>
      assert (Ha : nth_error ((l ++ [a]) ++ [b]) (List.length l) = Some a)
        by (rewrite nth_error_app1 by (rewrite length_app; cbn; lia);
            rewrite nth_error_app2, Nat.sub_diag by lia; reflexivity);
      assert (Hb : nth_error ((l ++ [a]) ++ [b]) (S (List.length l)) = Some b)
        by (rewrite nth_error_app2 by (rewrite length_app; cbn; lia);
            rewrite length_app; cbn [List.length];
            replace (S (List.length l) - (List.length l + 1))%nat
              with 0%nat by lia;
            reflexivity);
      pose proof (Hone (List.length l) (S (List.length l)) a b Ha Hb
                       eq_refl eq_refl eq_refl) as Heq
  end.
  lia.
Qed.

Lemma handle_agent_messages (w : World) (r : Request) :
  has_role "agent" (requester r) = false ->
  filter is_agent_message
         (chat_messages (db (handle analyzer is_active_default w r)))
  = filter is_agent_message (chat_messages (db w)).
Proof.
  intros Hrole.
  destruct r as [u token now|u sid msg now|u sid msg now|u sid now
                 |u request new_id]; cbn in *.
  - unfold customer_dashboard.
    destruct (negb (has_role "customer" u)); [reflexivity|].
    destruct (first (active_session_of (CurrentUser.id u))
                    (chat_sessions (db w))) as [[k s]|]; [reflexivity|].
    cbn. rewrite filter_app. cbn. apply app_nil_r.
  - unfold api_send_message.
    destruct (missing sid || missing msg); [reflexivity|].
    destruct sid as [sid|], msg as [msg|]; try reflexivity.
    unfold send_message.
    destruct (first (owned_by sid (CurrentUser.id u)) (chat_sessions (db w)))
      as [[k s0]|]; [|reflexivity].
    destruct (get_response analyzer (knowledge_base (db w)) msg
                           default_threshold (chatbot w))
      as [[[[response sim] escalate]|e] engine']; [|reflexivity].
    cbn. rewrite filter_app. cbn. apply app_nil_r.
  - unfold api_send_agent_message. rewrite Hrole. reflexivity.
  - unfold api_close_session. rewrite Hrole. reflexivity.
  - unfold manage_knowledge_base.
    destruct (negb (has_role "admin" u)); [reflexivity|].
    destruct (write_knowledge is_active_default (knowledge_base (db w))
                              request new_id) as [kb'|]; [|reflexivity].
    destruct (retrain_model analyzer kb' (chatbot w)) as [[[]|e] engine'];
      reflexivity.
Qed.

(** X22.  Only an agent can close a session or write as an agent: through
    any sequence of requests none of which comes from a user with the role
    [agent], every session that is CLOSED afterwards was CLOSED before, and
    the AGENT messages are the same as before. *)
Theorem only_agents_close_sessions (requests : list Request) (w : World) :
  Forall (fun r => has_role "agent" (requester r) = false) requests ->
  (forall i s',
      session_at (serve analyzer is_active_default requests w) i = Some s' ->
      ChatSession.status s' = closed ->
      exists s, session_at w i = Some s /\ ChatSession.status s = closed)
  /\ filter is_agent_message
            (chat_messages
               (db (serve analyzer is_active_default requests w)))
     = filter is_agent_message (chat_messages (db w)).
Proof.
  intros Hreqs. revert w. unfold serve.
  induction Hreqs as [|r requests Hr _ IH]; intros w; cbn.
  - split; [eauto|reflexivity].
  - destruct (IH (handle analyzer is_active_default w r)) as (IH1 & IH2).
    split.
    + intros i s' Hs' Hst. destruct (IH1 i s' Hs' Hst) as (s1 & Hs1 & Hst1).
      destruct (handle_session w r i s1 Hs1)
        as [(s & Hs & _ & Hc)|(_ & Hact & _)]; [|congruence].
      exists s. split; [assumption|].
      destruct Hc as [->|[(_ & H)|(_ & H)]]; congruence.
    + rewrite IH2. apply handle_agent_messages. assumption.
Qed.

Lemma handle_non_admin (w : World) (r : Request) :
  has_role "admin" (requester r) = false ->
  knowledge_base (db (handle analyzer is_active_default w r))
  = knowledge_base (db w)
  /\ (installed analyzer (chatbot w) ->
      chatbot (handle analyzer is_active_default w r) = chatbot w).
Proof.
  intros Hrole.
  destruct r as [u token now|u sid msg now|u sid msg now|u sid now
                 |u request new_id]; cbn in *.
  - unfold customer_dashboard.
    destruct (negb (has_role "customer" u)); [auto|].
    destruct (first (active_session_of (CurrentUser.id u))
                    (chat_sessions (db w))) as [[k s]|]; auto.
  - unfold api_send_message.
    destruct (missing sid || missing msg); [auto|].
    destruct sid as [sid|], msg as [msg|]; auto.
    unfold send_message.
    destruct (first (owned_by sid (CurrentUser.id u)) (chat_sessions (db w)))
      as [[k s0]|]; [|auto].
    split.
    + destruct (get_response analyzer (knowledge_base (db w)) msg
                             default_threshold (chatbot w))
        as [[[[response sim] escalate]|e] engine']; reflexivity.
    + intros Hinst.
      destruct (installed_inv analyzer _ Hinst) as (kb0 & v & _ & Hidx).
      destruct (get_response_index analyzer (knowledge_base (db w)) msg
                  default_threshold v
                  (loaded_questions kb0) (loaded_answers kb0)
                  (loaded_questions_nonempty kb0) (loaded_lengths kb0))
        as (m & k' & a & _ & _ & _ & _ & Hresp).
      rewrite Hidx, Hresp.
      destruct (Rge_dec m default_threshold); reflexivity.
  - unfold api_send_agent_message.
    destruct (negb (has_role "agent" u)); [auto|].
    destruct (missing_id sid || missing msg); [auto|].
    destruct sid as [sid|], msg as [msg|]; auto.
    unfold send_agent_message.
    destruct (first (has_id sid) (chat_sessions (db w))) as [[k s0]|];
      [|auto].
    destruct (negb (Status_eqb (ChatSession.status s0) escalated)); auto.
  - unfold api_close_session.
    destruct (negb (has_role "agent" u)); [auto|].
    destruct (missing_id sid); [auto|].
    destruct sid as [sid|]; [|auto].
    unfold close_session.
    destruct (first (has_id sid) (chat_sessions (db w))) as [[k s0]|]; auto.
  - unfold manage_knowledge_base. rewrite Hrole. auto.
Qed.

(** X23.  Only an admin can change what the bot answers: through any
    sequence of requests none of which comes from a user with the role
    [admin], the knowledge table stays as it is, and an installed index
    stays installed and unchanged. *)
Theorem only_admins_change_knowledge (requests : list Request) (w : World) :
  Forall (fun r => has_role "admin" (requester r) = false) requests ->
  knowledge_base (db (serve analyzer is_active_default requests w))
  = knowledge_base (db w)
  /\ (installed analyzer (chatbot w) ->
      chatbot (serve analyzer is_active_default requests w) = chatbot w).
Proof.
  intros Hreqs. revert w. unfold serve.
  induction Hreqs as [|r requests Hr _ IH]; intros w; cbn; [auto|].
  destruct (IH (handle analyzer is_active_default w r)) as (IH1 & IH2).
  destruct (handle_non_admin w r Hr) as (H1 & H2).
  split; [congruence|].
  intros Hinst. rewrite IH2; rewrite (H2 Hinst); auto.
Qed.

(** X24.  A write of an admin to the knowledge table is committed first and
    the engine is retrained after it.  When the route answers, the engine is
    the index of the table as written; when the retraining raises, the write
    stays committed and the engine is left without vectors.  Sessions and
    messages are not touched. *)
Theorem manage_knowledge_base_retrains (w : World)
        (current_user : CurrentUser.t) (request : KnowledgeRequest)
        (new_id : nat) (kb' : list KnowledgeBase.t) :
  CurrentUser.role current_user = "admin"%string ->
  write_knowledge is_active_default (knowledge_base (db w)) request new_id
  = Some kb' ->
  db (snd (manage_knowledge_base analyzer is_active_default w current_user
                                 request new_id))
  = mkDatabase kb' (chat_sessions (db w)) (chat_messages (db w))
  /\ ((exists body,
          fst (manage_knowledge_base analyzer is_active_default w
                                     current_user request new_id)
          = Ok (Rendered body)
          /\ engine_in_sync
               analyzer
               (snd (manage_knowledge_base analyzer is_active_default w
                                           current_user request new_id)))
      \/ (exists e,
             fst (manage_knowledge_base analyzer is_active_default w
                                        current_user request new_id)
             = Raised e
             /\ knowledge_vectors
                  (chatbot
                     (snd (manage_knowledge_base analyzer is_active_default
                             w current_user request new_id)))
                = Some None)).
Proof.
  intros Hrole Hwrite. unfold manage_knowledge_base, has_role.
  rewrite Hrole, Hwrite.
  change (("admin" =? "admin")%string) with true. cbn [negb].
  unfold retrain_model. rewrite _initialize_eq.
  destruct (fit analyzer max_features (loaded_questions kb')) as [v|e] eqn:Hfit;
    cbn.
  - split; [reflexivity|]. left. eexists. split; [reflexivity|].
    exists v. cbn. split; [assumption|reflexivity].
  - split; [reflexivity|]. right. exists e. split; reflexivity.
Qed.

(** X25.  The outcomes of [/api/send_message], input by input.  A missing
    or empty token or text gives 400 and has no effect.  Otherwise an
    unknown session (no session of the user under the token) gives 404 and
    has no effect; a failure of the engine is passed on and leaves the
    tables as they are; and an answer of the engine gives the reply with
    that answer, and stores exactly two more messages for the session, the
    text and the response. *)
Theorem api_send_message_outcomes (w : World) (current_user : CurrentUser.t)
        (session_id message : option string) (now : Z) :
  (missing session_id || missing message = true ->
   api_send_message analyzer w current_user session_id message now
   = (Ok (Failed 400 "Missing parameters"), w))
  /\ forall sid text,
      session_id = Some sid ->
      message = Some text ->
      sid <> EmptyString ->
      text <> EmptyString ->
      (first (owned_by sid (CurrentUser.id current_user))
             (chat_sessions (db w)) = None ->
       api_send_message analyzer w current_user session_id message now
       = (Ok (Failed 404 "Session not found"), w))
      /\ forall i s,
          first (owned_by sid (CurrentUser.id current_user))
                (chat_sessions (db w)) = Some (i, s) ->
          (forall e engine',
              get_response analyzer (knowledge_base (db w)) text
                           default_threshold (chatbot w)
              = (Raised e, engine') ->
              api_send_message analyzer w current_user session_id message now
              = (Raised e, mkWorld (db w) engine'))
          /\ (forall response sim escalate engine',
                get_response analyzer (knowledge_base (db w)) text
                             default_threshold (chatbot w)
                = (Ok (response, sim, escalate), engine') ->
                exists reply w',
                  api_send_message analyzer w current_user session_id
                                   message now
                  = (Ok (Rendered reply), w')
                  /\ user_message reply = text
                  /\ bot_response reply = response
                  /\ similarity reply = sim
                  /\ needs_escalation reply = escalate
                  /\ chatbot w' = engine'
                  /\ knowledge_base (db w') = knowledge_base (db w)
                  /\ chat_messages (db w')
                     = chat_messages (db w)
                       ++ [ChatMessage.mk (next_id (chat_messages (db w)))
                                          (ChatSession.id s) user text now
                                          false;
                           ChatMessage.mk
                             (S (next_id (chat_messages (db w))))
                             (ChatSession.id s) bot response now escalate]).
Proof.
  split.
  { intros Hmiss. unfold api_send_message. rewrite Hmiss. reflexivity. }
  intros sid text -> -> Hsid Htext.
  assert (Hpresent : missing (Some sid) || missing (Some text) = false).
  { destruct sid; [congruence|]. destruct text; [congruence|]. reflexivity. }
  unfold api_send_message. rewrite Hpresent. unfold send_message. split.
  { intros Hnone. rewrite Hnone. reflexivity. }
  intros i s Hfirst. rewrite Hfirst. split.
  - intros e engine' Hresp. rewrite Hresp. reflexivity.
  - intros response sim escalate engine' Hresp. rewrite Hresp.
    eexists _, _. split; [reflexivity|]. cbn.
    repeat (split; [reflexivity|]). reflexivity.
Qed.

Lemma loaded_after_post (kb : list KnowledgeBase.t)
      (item : KnowledgeBase.t) :
  KnowledgeBase.is_active item = true ->
  loaded_questions (kb ++ [item])
  = map KnowledgeBase.question (filter KnowledgeBase.is_active kb)
    ++ [KnowledgeBase.question item]
  /\ loaded_answers (kb ++ [item])
     = map KnowledgeBase.answer (filter KnowledgeBase.is_active kb)
       ++ [KnowledgeBase.answer item].
Proof.
  intros Hact. unfold loaded_questions, loaded_answers.
  rewrite filter_app. cbn. rewrite Hact.
  destruct (filter KnowledgeBase.is_active kb) as [|it items]; cbn.
  - split; reflexivity.
  - rewrite !map_app. split; reflexivity.
Qed.

(** X29.  The built-in greetings serve only as long as the table has no
    active entry.  When an admin adds the first entry (new entries being
    active by default) and the route answers, the index holds that entry
    alone: the greetings are gone, and every query that shares no term with
    the new question is handed off with similarity 0. *)
Theorem first_entry_replaces_greetings (w : World)
        (current_user : CurrentUser.t) (question answer : string)
        (category tags : option string) (new_id : nat)
        (body : option nat) (user_input : string)
        (kb0 : list KnowledgeBase.t) :
  CurrentUser.role current_user = "admin"%string ->
  is_active_default = true ->
  filter KnowledgeBase.is_active (knowledge_base (db w)) = [] ->
  fst (manage_knowledge_base analyzer is_active_default w current_user
                             (Post question answer category tags) new_id)
  = Ok (Rendered body) ->
  (forall t, In t (analyzer user_input) -> ~ In t (analyzer question)) ->
  questions
    (chatbot
       (snd (manage_knowledge_base analyzer is_active_default w current_user
                                   (Post question answer category tags)
                                   new_id)))
  = Some [question]
  /\ answers
       (chatbot
          (snd (manage_knowledge_base analyzer is_active_default w
                                      current_user
                                      (Post question answer category tags)
                                      new_id)))
     = Some [answer]
  /\ get_response
       analyzer kb0 user_input default_threshold
       (chatbot
          (snd (manage_knowledge_base analyzer is_active_default w
                                      current_user
                                      (Post question answer category tags)
                                      new_id)))
     = (Ok (handoff_message, 0%R, true),
        chatbot
          (snd (manage_knowledge_base analyzer is_active_default w
                                      current_user
                                      (Post question answer category tags)
                                      new_id))).
Proof.
  intros Hrole Hdef Hnone Hok Hdisjoint. subst is_active_default.
  unfold manage_knowledge_base, has_role in *. rewrite Hrole in *.
  change (("admin" =? "admin")%string) with true in *. cbn [negb] in *.
  cbn [write_knowledge] in *.
  set (item := KnowledgeBase.mk new_id question answer
                                (or_default category "general"%string)
                                (or_default tags EmptyString) true) in *.
  unfold retrain_model in *. rewrite _initialize_eq in *.
  destruct (loaded_after_post (knowledge_base (db w)) item eq_refl)
    as (Hqs & Hans).
  rewrite Hnone in Hqs, Hans. cbn in Hqs, Hans. rewrite Hqs, Hans in *.
  destruct (fit analyzer max_features [question]) as [v|e] eqn:Hfit;
    [|discriminate].
  cbn [snd chatbot]. split; [reflexivity|]. split; [reflexivity|].
  apply get_response_unknown.
  - discriminate.
  - reflexivity.
  - intros t Ht Hin. apply (Hdisjoint t Hin).
    destruct (fit_vocabulary analyzer max_features [question] v Hfit)
      as (Hvoc & _). rewrite Hvoc in Ht. apply vocabulary_in in Ht.
    cbn in Ht. rewrite app_nil_r in Ht. exact Ht.
  - unfold default_threshold. lra.
Qed.

End ControllerProperties.

(** ** Properties of the registration and of the sample data *)

Section AppProperties.

Variable user_is_active_default : bool.
Variable entry_is_active_default : bool.

(** X26.  Self-registration only ever creates customers: whatever role the
    form asks for, [register] either leaves the user table as it is (the
    name or the address is taken) or adds one user with the submitted name,
    address and hash and the role [customer]. *)
Theorem register_only_creates_customers (users : list User.t)
        (username email : string) (role : option string) (hash : string)
        (new_id : nat) :
  (exists error,
      register user_is_active_default users username email role hash new_id
      = (Rendered error, users)
      /\ (In username (map User.username users)
          \/ In email (map User.email users)))
  \/ (exists u,
         register user_is_active_default users username email role hash
                  new_id
         = (Redirected "login", users ++ [u])
         /\ User.role u = "customer"%string
         /\ User.username u = username
         /\ User.email u = email
         /\ User.password_hash u = hash
         /\ ~ In username (map User.username users)
         /\ ~ In email (map User.email users)).
Proof.
  unfold register.
  destruct (first (has_username username) users) as [[i u0]|] eqn:Hname.
  { left. eexists. split; [reflexivity|]. left.
    apply first_spec in Hname. destruct Hname as (Hnth & Hp).
    apply String.eqb_eq in Hp. rewrite <- Hp.
    apply in_map. eapply nth_error_In. eassumption. }
  destruct (first (has_email email) users) as [[i u0]|] eqn:Hmail.
  { left. eexists. split; [reflexivity|]. right.
    apply first_spec in Hmail. destruct Hmail as (Hnth & Hp).
    apply String.eqb_eq in Hp. rewrite <- Hp.
    apply in_map. eapply nth_error_In. eassumption. }
  right. eexists. split; [reflexivity|]. cbn.
  split.
  { destruct (String.eqb_spec (or_default role "customer"%string)
                              "customer"%string) as [->|Hne];
      reflexivity. }
  do 3 (split; [reflexivity|]). split.
  - intros Hin. apply in_map_iff in Hin. destruct Hin as (u & Hu & Hin).
    pose proof (first_from_none_inv _ _ _ Hname u Hin) as Hp.
    unfold has_username in Hp. rewrite Hu, String.eqb_refl in Hp.
    discriminate.
  - intros Hin. apply in_map_iff in Hin. destruct Hin as (u & Hu & Hin).
    pose proof (first_from_none_inv _ _ _ Hmail u Hin) as Hp.
    unfold has_email in Hp. rewrite Hu, String.eqb_refl in Hp.
    discriminate.
Qed.

(** X27.  Registration keeps user names and addresses unique: when no two
    users share a name and no two share an address, the same holds after
    [register]. *)
Theorem register_keeps_names_unique (users : list User.t)
        (username email : string) (role : option string) (hash : string)
        (new_id : nat) :
  NoDup (map User.username users) ->
  NoDup (map User.email users) ->
  NoDup (map User.username
             (snd (register user_is_active_default users username email role
                            hash new_id)))
  /\ NoDup (map User.email
                (snd (register user_is_active_default users username email
                               role hash new_id))).
Proof.
  intros Hnames Hmails. unfold register.
  destruct (first (has_username username) users) as [[i u0]|] eqn:Hname;
    [cbn [snd]; auto|].
  destruct (first (has_email email) users) as [[i u0]|] eqn:Hmail;
    [cbn [snd]; auto|].
  cbn [snd]. rewrite !map_app. cbn. split.
  - apply NoDup_app.
    + assumption.
    + constructor; [tauto|constructor].
    + intros x Hx [<-|[]]. apply in_map_iff in Hx.
      destruct Hx as (u & Hu & Hin).
      pose proof (first_from_none_inv _ _ _ Hname u Hin) as Hp.
      unfold has_username in Hp. rewrite Hu, String.eqb_refl in Hp.
      discriminate.
  - apply NoDup_app.
    + assumption.
    + constructor; [tauto|constructor].
    + intros x Hx [<-|[]]. apply in_map_iff in Hx.
      destruct Hx as (u & Hu & Hin).
      pose proof (first_from_none_inv _ _ _ Hmail u Hin) as Hp.
      unfold has_email in Hp. rewrite Hu, String.eqb_refl in Hp.
      discriminate.
Qed.

(** X28.  [create_sample_data] never stores anything.  [app.py] imports
    only [db] and [User] from the models, so the query of the knowledge
    table (line 144) raises [NameError], whatever the tables hold and
    whatever keys and hashes are supplied; the users that were added to the
    session before are not committed.  However often the application
    starts, the user table and the knowledge table stay as they are: no
    start creates the admin, the agent or a sample entry. *)
Theorem create_sample_data_raises
        (tables : list User.t * list KnowledgeBase.t) (supplied : Supplied)
        (supplies : list Supplied) :
  create_sample_data user_is_active_default entry_is_active_default tables
                     supplied
  = (Raised NameError, tables)
  /\ restarts user_is_active_default entry_is_active_default supplies tables
     = tables.
Proof.
  assert (Hone : forall t sup,
             create_sample_data user_is_active_default
                                entry_is_active_default t sup
             = (Raised NameError, t)).
  { intros [users kb] sup. unfold create_sample_data.
    change (global_name "KnowledgeBase") with (@Raised unit NameError).
    reflexivity. }
  split; [apply Hone|].
  induction supplies as [|sup supplies IH]; cbn; [reflexivity|].
  rewrite Hone. exact IH.
Qed.

End AppProperties.

(** ** The further properties on concrete tables *)

Section Instances.

Import Sklearn SklearnFacts Scenario ScenarioFacts Cases.
Local Open Scope R_scope.

Lemma fallback_fit_eq :
  fit Cases.analyzer max_features fallback_questions = Ok fallback_fitted.
Proof.
  unfold fit. change Cases.analyzer with Scenario.analyzer.
  rewrite fallback_vocabulary. reflexivity.
Qed.

Lemma escalating_message :
  send_message Cases.analyzer active_world "token-3" 42 gibberish 6
  = (Ok (Some escalating_reply), escalated_world).
Proof.
  unfold send_message, active_world, world_of.
  cbn -[get_response fallback_index].
  change Cases.analyzer with Scenario.analyzer.
  rewrite gibberish_fallback. reflexivity.
Qed.

Lemma duplicate_hello :
  get_response Cases.analyzer [] "hello" default_threshold duplicate_index
  = (Ok ("first"%string, 1, false), duplicate_index).
Proof.
  assert (Hthr : default_threshold <= 1) by (unfold default_threshold; lra).
  assert (Htv : In "hello"%string (vocabulary_ fallback_fitted))
    by (cbn; auto).
  assert (Htq : In "hello"%string (Cases.analyzer "hello"))
    by (vm_compute; auto).
  destruct (get_response_identical Cases.analyzer [] max_features
              fallback_questions fallback_fitted
              ["hello"; "hello"]%string ["first"; "second"]%string
              0 "hello" "hello" default_threshold fallback_fit_eq eq_refl
              eq_refl Htv Htq Hthr)
    as (k & q_k & a & Hk & _ & _ & _ & Ha & Hresp).
  assert (k = 0)%nat by lia. subst k. cbn in Ha. inversion Ha; subst a.
  exact Hresp.
Qed.

(** In an index of one document every weight is 1. *)
Lemma single_document_idf (d : list string) (t : string) :
  In t d -> idf [d] t = 1.
Proof.
  intros Ht. unfold idf, document_frequency. cbn [filter].
  assert (H : existsb (String.eqb t) d = true).
  { apply existsb_exists. exists t. split; [assumption|apply String.eqb_refl]. }
  rewrite H. cbn [List.length INR].
  replace ((1 + 1) / (1 + 1)) with 1 by (field; lra).
  rewrite ln_1. lra.
Qed.

Lemma business_hours_fit :
  fit Cases.analyzer max_features ["What are your business hours?"]%string
  = Ok business_hours_fitted.
Proof.
  assert (Hvoc : vocabulary max_features
                   (map Cases.analyzer
                        ["What are your business hours?"]%string)
                 = ["business"; "business hours"; "hours"]%string)
    by (vm_compute; reflexivity).
  unfold fit. rewrite Hvoc. reflexivity.
Qed.

Lemma business_hours_weights : idf_ business_hours_fitted = [1; 1; 1].
Proof.
  unfold business_hours_fitted. cbn [idf_ map].
  rewrite !single_document_idf; [reflexivity|vm_compute; auto..].
Qed.

Lemma long_fit :
  fit Cases.analyzer max_features [long_question] = Ok long_fitted.
Proof.
  unfold fit, long_fitted.
  destruct (vocabulary max_features (map Cases.analyzer [long_question]))
    eqn:Hvoc; [|reflexivity].
  vm_compute in Hvoc. discriminate.
Qed.

Lemma single_document_weights (analyzer : string -> list string)
      (mf : nat) (q : string) :
  Forall (fun w => w = 1)
         (map (idf (map analyzer [q])) (vocabulary mf (map analyzer [q]))).
Proof.
  apply Forall_map, Forall_forall. intros t Ht.
  apply vocabulary_in in Ht. cbn in Ht. rewrite app_nil_r in Ht.
  cbn [map]. apply single_document_idf. exact Ht.
Qed.

Lemma long_weights : Forall (fun w => w = 1) (idf_ long_fitted).
Proof. exact (single_document_weights Cases.analyzer max_features long_question). Qed.

Lemma twin_query :
  installed Cases.analyzer twin_index
  /\ questions twin_index = Some ["hello"; "hello"]%string
  /\ answers twin_index = Some ["first"; "second"]%string
  /\ get_response Cases.analyzer [] "hello" default_threshold twin_index
     = (Ok ("first"%string, 1, false), twin_index).
Proof.
  assert (Hvoc : vocabulary max_features
                   (map Cases.analyzer ["hello"; "hello"]%string)
                 = ["hello"]%string) by (vm_compute; reflexivity).
  assert (Hfit : exists v,
             fit Cases.analyzer max_features ["hello"; "hello"]%string = Ok v
             /\ vocabulary_ v = ["hello"]%string).
  { unfold fit. rewrite Hvoc. eexists. split; reflexivity. }
  destruct Hfit as (v & Hfit & Hv).
  assert (Hinit : _initialize Cases.analyzer twin_kb new_instance
                  = (Ok tt,
                     index_of Cases.analyzer v ["hello"; "hello"]%string
                              ["first"; "second"]%string)).
  { rewrite _initialize_eq.
    change (loaded_questions twin_kb) with ["hello"; "hello"]%string.
    rewrite Hfit. reflexivity. }
  assert (Hidx : twin_index
                 = index_of Cases.analyzer v ["hello"; "hello"]%string
                            ["first"; "second"]%string).
  { unfold twin_index. rewrite Hinit. reflexivity. }
  split; [exists twin_kb, new_instance; rewrite Hidx; exact Hinit|].
  rewrite Hidx. split; [reflexivity|]. split; [reflexivity|].
  assert (Hthr : default_threshold <= 1) by (unfold default_threshold; lra).
  assert (Htv : In "hello"%string (vocabulary_ v)) by (rewrite Hv; cbn; auto).
  assert (Htq : In "hello"%string (Cases.analyzer "hello"))
    by (vm_compute; auto).
  destruct (get_response_identical Cases.analyzer [] max_features
              ["hello"; "hello"]%string v
              ["hello"; "hello"]%string ["first"; "second"]%string
              0 "hello" "hello" default_threshold Hfit eq_refl
              eq_refl Htv Htq Hthr)
    as (k & q_k & a & Hk & _ & _ & _ & Ha & Hresp).
  assert (k = 0)%nat by lia. subst k. cbn in Ha. inversion Ha; subst a.
  exact Hresp.
Qed.

(** C7, as stated, fails in binary64.  The index built from the one entry
    "What are your business hours?" has three terms of weight 1.  Asked
    with that text, the similarity that the binary64 computation gives for
    the entry, which [get_response] returns as the maximum, is the number
    after 1.0 (1.0000000000000002): it is not in the interval from 0 to
    1. *)
Lemma similarity_exceeds_one :
  fit Cases.analyzer max_features ["What are your business hours?"]%string
  = Ok business_hours_fitted
  /\ idf_ business_hours_fitted = [1; 1; 1]
  /\ Binary64.entry_similarity
       Binary64.binary64 Cases.analyzer (vocabulary_ business_hours_fitted)
       [PrimFloat.one; PrimFloat.one; PrimFloat.one]
       "What are your business hours?" "What are your business hours?"
     = PrimFloat.next_up PrimFloat.one
  /\ PrimFloat.leb (PrimFloat.next_up PrimFloat.one) PrimFloat.one = false.
Proof.
  split; [exact business_hours_fit|]. split; [exact business_hours_weights|].
  split; vm_compute; reflexivity.
Qed.

(** C5, as stated, fails in three ways.  A question of stop words only
    ("Who are you?") has similarity 0 to itself and is handed off.  In
    binary64 the similarity of a question to itself need not be 1.0: for
    the index built from the one entry [long_question], fifteen terms of
    weight 1, it is the number before 1.0 (0.9999999999999999), which is
    below a threshold of 1.0.  And of two entries with the same question,
    the second is asked with its own text and the answer is that of the
    first. *)
Lemma identical_question_counterexamples :
  (installed Cases.analyzer stop_word_index
   /\ nth_error stop_word_kb 0 = Some who_are_you
   /\ KnowledgeBase.question who_are_you = "Who are you?"%string
   /\ get_response Cases.analyzer stop_word_kb "Who are you?"
                   default_threshold stop_word_index
      = (Ok (handoff_message, 0, true), stop_word_index))
  /\ (fit Cases.analyzer max_features [long_question] = Ok long_fitted
      /\ List.length (vocabulary_ long_fitted) = 15%nat
      /\ Forall (fun w => w = 1) (idf_ long_fitted)
      /\ Binary64.entry_similarity
           Binary64.binary64 Cases.analyzer (vocabulary_ long_fitted)
           (repeat PrimFloat.one 15) long_question long_question
         = PrimFloat.next_down PrimFloat.one
      /\ PrimFloat.eqb (PrimFloat.next_down PrimFloat.one) PrimFloat.one
         = false
      /\ PrimFloat.leb PrimFloat.one (PrimFloat.next_down PrimFloat.one)
         = false)
  /\ (installed Cases.analyzer twin_index
      /\ questions twin_index = Some ["hello"; "hello"]%string
      /\ answers twin_index = Some ["first"; "second"]%string
      /\ get_response Cases.analyzer [] "hello" default_threshold twin_index
         = (Ok ("first"%string, 1, false), twin_index)).
Proof.
  split; [|split].
  - split; [exact stop_word_installed|]. split; [reflexivity|].
    split; [reflexivity|]. apply who_are_you_stop_word.
  - split; [exact long_fit|]. split; [vm_compute; reflexivity|].
    split; [exact long_weights|].
    split; [vm_compute; reflexivity|]. split; vm_compute; reflexivity.
  - exact twin_query.
Qed.

Lemma similarity_within_rounding_witness :
  (Binary64.faithful Binary64.round_away
   /\ Binary64.well_formed business_hours_fitted
   /\ ["What are your business hours?"]%string <> []
   /\ List.length ["Nine to six."]%string
      = List.length ["What are your business hours?"]%string)
  /\ exists response s escalate,
      Binary64.get_response
        (Binary64.rounded Binary64.round_away) Cases.analyzer
        business_hours_fitted ["What are your business hours?"]%string
        ["Nine to six."]%string "What are your business hours?"
        default_threshold
      = Ok (response, s, escalate)
      /\ 0 <= s <= 1 + Binary64.rounding_slack.
Proof.
  assert (Hne : ["What are your business hours?"]%string <> [])
    by discriminate.
  split.
  - split; [exact round_away_is_faithful|].
    split; [exact (fit_well_formed _ _ _ business_hours_fit)|].
    split; [exact Hne|reflexivity].
  - apply (similarity_within_rounding
             Cases.analyzer Binary64.round_away business_hours_fitted
             ["What are your business hours?"]%string
             ["Nine to six."]%string "What are your business hours?"
             default_threshold round_away_is_faithful
             (fit_well_formed _ _ _ business_hours_fit) Hne eq_refl).
Defined.

Lemma identical_question_within_rounding_witness :
  (Binary64.faithful Binary64.round_away
   /\ Binary64.well_formed business_hours_fitted
   /\ List.length ["Nine to six."]%string
      = List.length ["What are your business hours?"]%string
   /\ nth_error ["What are your business hours?"]%string 0
      = Some "What are your business hours?"%string
   /\ nth_error ["Nine to six."]%string 0 = Some "Nine to six."%string
   /\ In "hours"%string (vocabulary_ business_hours_fitted)
   /\ In "hours"%string (Cases.analyzer "What are your business hours?")
   /\ default_threshold <= 1 - Binary64.rounding_slack)
  /\ Rabs (Binary64.entry_similarity
             (Binary64.rounded Binary64.round_away) Cases.analyzer
             (vocabulary_ business_hours_fitted) (idf_ business_hours_fitted)
             "What are your business hours?" "What are your business hours?"
           - 1)
     <= Binary64.rounding_slack
  /\ exists s,
      Binary64.get_response
        (Binary64.rounded Binary64.round_away) Cases.analyzer
        business_hours_fitted ["What are your business hours?"]%string
        ["Nine to six."]%string "What are your business hours?"
        default_threshold
      = Ok ("Nine to six."%string, s, false)
      /\ Rabs (s - 1) <= Binary64.rounding_slack.
Proof.
  assert (Hq : In "hours"%string
                  (Cases.analyzer "What are your business hours?"))
    by (vm_compute; auto).
  assert (Hv : In "hours"%string (vocabulary_ business_hours_fitted))
    by (cbn; auto).
  split.
  - split; [exact round_away_is_faithful|].
    split; [exact (fit_well_formed _ _ _ business_hours_fit)|].
    split; [reflexivity|]. split; [reflexivity|]. split; [reflexivity|].
    split; [exact Hv|]. split; [exact Hq|].
    exact default_threshold_below_slack.
  - destruct (identical_question_within_rounding
                Cases.analyzer Binary64.round_away business_hours_fitted
                ["What are your business hours?"]%string
                ["Nine to six."]%string 0 "What are your business hours?"
                "Nine to six." "hours" default_threshold
                round_away_is_faithful
                (fit_well_formed _ _ _ business_hours_fit) eq_refl eq_refl
                eq_refl Hv Hq default_threshold_below_slack)
      as (Hself & k & q_k & a & s & Hqk & Ha & _ & _ & Hnear & _ & _ & Hresp
          & _).
    split; [exact Hself|]. exists s. split; [|exact Hnear].
    destruct k as [|k]; [|destruct k; discriminate Hqk].
    cbn in Ha. inversion Ha; subst a. exact Hresp.
Defined.

Lemma operations_keep_sessions_consistent_witness :
  Forall consistent_session (chat_sessions (db empty_world))
  /\ Forall consistent_session
            (chat_sessions
               (db (run_operations Cases.analyzer some_operations
                                   empty_world))).
Proof.
  assert (H : Forall consistent_session (chat_sessions (db empty_world)))
    by constructor.
  split; [exact H|].
  apply (operations_keep_sessions_consistent Cases.analyzer some_operations
                                             empty_world H).
Defined.

Lemma get_chat_history_complete_and_sorted_witness :
  first (owned_by "token-3" 42) (chat_sessions (db busy_world))
  = Some (0%nat, active_session)
  /\ Permutation
       (get_chat_history busy_world "token-3" 42)
       (map history_entry
            (filter (of_session (ChatSession.id active_session))
                    (chat_messages (db busy_world))))
  /\ StronglySorted
       (fun a b => (HistoryEntry.timestamp a <= HistoryEntry.timestamp b)%Z)
       [HistoryEntry.mk bot "first" 2 false;
        HistoryEntry.mk user "second" 5 false;
        HistoryEntry.mk user "third" 9 false].
Proof.
  split; [reflexivity|].
  apply (get_chat_history_complete_and_sorted busy_world "token-3" 42 0
                                              active_session eq_refl).
Defined.

Lemma get_chat_history_only_own_messages_witness :
  In (history_entry a_message) (get_chat_history welcomed_world "token-3" 42)
  /\ exists s msg,
      In s (chat_sessions (db welcomed_world))
      /\ ChatSession.session_id s = "token-3"%string
      /\ ChatSession.user_id s = 42%nat
      /\ In msg (chat_messages (db welcomed_world))
      /\ ChatMessage.session_id msg = ChatSession.id s
      /\ history_entry a_message = history_entry msg.
Proof.
  assert (H : In (history_entry a_message)
                 (get_chat_history welcomed_world "token-3" 42))
    by (left; reflexivity).
  split; [exact H|].
  apply (get_chat_history_only_own_messages welcomed_world "token-3" 42
                                            (history_entry a_message) H).
Defined.

Lemma send_message_adds_two_messages_witness :
  (first (owned_by "token-3" 42) (chat_sessions (db active_world))
   = Some (0%nat, active_session)
   /\ send_message Cases.analyzer active_world "token-3" 42 gibberish 6
      = (Ok (Some escalating_reply), escalated_world))
  /\ forall other,
      other <> ChatSession.id active_session ->
      get_session_messages escalated_world other
      = get_session_messages active_world other.
Proof.
  split; [split; [reflexivity|exact escalating_message]|].
  apply (send_message_adds_two_messages Cases.analyzer active_world
           escalated_world "token-3" 42 gibberish 6 0 active_session
           escalating_reply eq_refl escalating_message).
Defined.

Lemma send_message_escalates_exactly_witness :
  (first (owned_by "token-3" 42) (chat_sessions (db active_world))
   = Some (0%nat, active_session)
   /\ send_message Cases.analyzer active_world "token-3" 42 gibberish 6
      = (Ok (Some escalating_reply), escalated_world))
  /\ exists s',
      session_at escalated_world 0 = Some s'
      /\ session_status escalating_reply = ChatSession.status s'.
Proof.
  split; [split; [reflexivity|exact escalating_message]|].
  destruct (send_message_escalates_exactly Cases.analyzer active_world
              escalated_world "token-3" 42 gibberish 6 0 active_session
              escalating_reply eq_refl escalating_message)
    as (s' & H1 & H2 & _).
  exists s'. split; assumption.
Defined.

Lemma queue_world_consistent :
  Forall consistent_session (chat_sessions (db queue_world)).
Proof.
  unfold queue_world, consistent_session. cbn.
  repeat constructor; cbn; discriminate.
Qed.

Lemma get_escalated_sessions_queue_witness :
  Forall consistent_session (chat_sessions (db queue_world))
  /\ get_escalated_sessions queue_world
     = [ChatSession.mk 4 8 "token-d" escalated 0 (Some 3%Z) None;
        ChatSession.mk 5 9 "token-e" escalated 2 (Some 4%Z) None;
        ChatSession.mk 2 7 "token-b" escalated 0 (Some 9%Z) None]
  /\ StronglySorted by_escalation_time (get_escalated_sessions queue_world).
Proof.
  split; [exact queue_world_consistent|]. split; [reflexivity|].
  apply (proj2 (proj2 (proj2 (get_escalated_sessions_queue queue_world)))
               queue_world_consistent).
Defined.

Lemma close_session_leaves_queue_witness :
  (first (has_id 2) (chat_sessions (db (world_of [escalated_session])))
   = Some (0%nat, escalated_session)
   /\ ChatSession.status escalated_session = escalated)
  /\ Permutation
       (get_escalated_sessions (world_of [escalated_session]))
       (escalated_session
        :: get_escalated_sessions
             (snd (close_session (world_of [escalated_session]) 2 9))).
Proof.
  split; [split; reflexivity|].
  apply (close_session_leaves_queue (world_of [escalated_session]) 2 9 0
                                    escalated_session eq_refl eq_refl).
Defined.

Lemma send_message_enters_queue_witness :
  (first (owned_by "token-3" 42) (chat_sessions (db active_world))
   = Some (0%nat, active_session)
   /\ send_message Cases.analyzer active_world "token-3" 42 gibberish 6
      = (Ok (Some escalating_reply), escalated_world)
   /\ ChatSession.status active_session = active
   /\ needs_escalation escalating_reply = true)
  /\ exists s',
      session_at escalated_world 0 = Some s'
      /\ ChatSession.id s' = ChatSession.id active_session
      /\ ChatSession.escalated_at s' = Some 6%Z
      /\ Permutation (get_escalated_sessions escalated_world)
                     (s' :: get_escalated_sessions active_world).
Proof.
  split; [repeat split; exact escalating_message|].
  apply (send_message_enters_queue Cases.analyzer active_world
           escalated_world "token-3" 42 gibberish 6 0 active_session
           escalating_reply eq_refl escalating_message eq_refl eq_refl).
Defined.

Lemma stop_words_only_fit :
  fit Cases.analyzer max_features (loaded_questions [who_are_you])
  = Raised ValueError.
Proof. vm_compute. reflexivity. Qed.

Lemma failed_build_leaves_no_index_witness :
  fit Cases.analyzer max_features (loaded_questions [who_are_you])
  = Raised ValueError
  /\ fst (retrain_model Cases.analyzer [who_are_you] fallback_index)
     = Raised ValueError
  /\ vectorizer (snd (retrain_model Cases.analyzer [who_are_you]
                                    fallback_index)) = Some None
  /\ knowledge_vectors (snd (retrain_model Cases.analyzer [who_are_you]
                                           fallback_index)) = Some None
  /\ get_response Cases.analyzer [who_are_you] "hello" default_threshold
                  (snd (retrain_model Cases.analyzer [who_are_you]
                                      fallback_index))
     = (Raised ValueError,
        snd (retrain_model Cases.analyzer [who_are_you] fallback_index)).
Proof.
  split; [exact stop_words_only_fit|].
  apply (failed_build_leaves_no_index Cases.analyzer [who_are_you]
           fallback_index ValueError "hello" default_threshold
           stop_words_only_fit).
Defined.

Lemma get_response_builds_lazily_witness :
  (knowledge_vectors engine_without_vectors = Some None
   /\ fit Cases.analyzer max_features (loaded_questions [])
      = Ok fallback_fitted)
  /\ snd (get_response Cases.analyzer [] "hello" default_threshold
                       engine_without_vectors)
     = index_of Cases.analyzer fallback_fitted (loaded_questions [])
                (loaded_answers []).
Proof.
  split; [split; [reflexivity|exact fallback_fit_eq]|].
  apply (get_response_builds_lazily Cases.analyzer [] engine_without_vectors
           fallback_fitted "hello" default_threshold eq_refl
           fallback_fit_eq).
Defined.

Lemma get_response_ignores_table_witness :
  installed Cases.analyzer fallback_index
  /\ get_response Cases.analyzer [] "hello" default_threshold fallback_index
     = get_response Cases.analyzer [business_hours] "hello" default_threshold
                    fallback_index.
Proof.
  split; [exact fallback_installed|].
  apply (get_response_ignores_table Cases.analyzer [] [business_hours]
           fallback_index "hello" default_threshold fallback_installed).
Defined.

Lemma refund_fit :
  fit Cases.analyzer max_features ["Refunds?"]%string = Ok refund_fitted.
Proof.
  assert (Hvoc : vocabulary max_features
                            (map Cases.analyzer ["Refunds?"]%string)
                 = ["refunds"]%string) by (vm_compute; reflexivity).
  unfold fit. rewrite Hvoc. reflexivity.
Qed.

Lemma refund_initialize :
  _initialize Cases.analyzer refund_kb new_instance = (Ok tt, refund_index).
Proof.
  rewrite _initialize_eq.
  change (loaded_questions refund_kb) with ["Refunds?"]%string.
  rewrite refund_fit. reflexivity.
Qed.

Lemma refund_query :
  get_response Cases.analyzer [] "Refunds?" default_threshold refund_index
  = (Ok ("Yes, within 30 days."%string, 1, false), refund_index).
Proof.
  assert (Hthr : default_threshold <= 1) by (unfold default_threshold; lra).
  assert (Htv : In "refunds"%string (vocabulary_ refund_fitted))
    by (cbn; auto).
  assert (Htq : In "refunds"%string (Cases.analyzer "Refunds?"))
    by (vm_compute; auto).
  destruct (get_response_identical Cases.analyzer [] max_features
              ["Refunds?"]%string refund_fitted ["Refunds?"]%string
              ["Yes, within 30 days."]%string 0 "Refunds?" "refunds"
              default_threshold refund_fit eq_refl eq_refl Htv Htq Hthr)
    as (k & q_k & a & Hk & _ & _ & _ & Ha & Hresp).
  assert (k = 0)%nat by lia. subst k. cbn in Ha. inversion Ha; subst a.
  exact Hresp.
Qed.

Lemma get_response_answers_from_active_entries_witness :
  (_initialize Cases.analyzer refund_kb new_instance = (Ok tt, refund_index)
   /\ get_response Cases.analyzer [] "Refunds?" default_threshold refund_index
      = (Ok ("Yes, within 30 days."%string, 1, false), refund_index))
  /\ exists item,
      In item refund_kb
      /\ KnowledgeBase.is_active item = true
      /\ KnowledgeBase.answer item = "Yes, within 30 days."%string
      /\ entry_similarity Cases.analyzer refund_fitted "Refunds?"
                          (KnowledgeBase.question item) = 1.
Proof.
  split; [split; [exact refund_initialize|exact refund_query]|].
  destruct (get_response_answers_from_active_entries Cases.analyzer
              refund_kb [] new_instance refund_index refund_index "Refunds?"
              "Yes, within 30 days." 1 default_threshold false
              refund_initialize refund_query)
    as [_ Hanswer].
  destruct (Hanswer eq_refl)
    as [(v & item & Hv & Hin & Hact & Hans & Hsim)|(Hnone & _)].
  - exists item. inversion Hv; subst v. repeat split; assumption.
  - discriminate Hnone.
Defined.

Lemma duplicate_question_never_answers_witness :
  (nth_error ["hello"; "hello"]%string 0 = Some "hello"%string
   /\ nth_error ["hello"; "hello"]%string 1 = Some "hello"%string
   /\ (0 < 1)%nat
   /\ get_response Cases.analyzer [] "hello" default_threshold
                   duplicate_index
      = (Ok ("first"%string, 1, false), duplicate_index))
  /\ exists k,
      k <> 1%nat
      /\ nth_error ["first"; "second"]%string k = Some "first"%string
      /\ nth_error (map (entry_similarity Cases.analyzer fallback_fitted
                                          "hello")
                        ["hello"; "hello"]%string) k = Some 1.
Proof.
  split; [repeat split; [lia|exact duplicate_hello]|].
  apply (duplicate_question_never_answers Cases.analyzer [] fallback_fitted
           ["hello"; "hello"]%string ["first"; "second"]%string 0 1 "hello"
           "hello" default_threshold "first" 1 duplicate_index eq_refl
           eq_refl eq_refl (Nat.lt_0_1) duplicate_hello).
Defined.

Lemma threshold_is_monotone_witness :
  (installed Cases.analyzer fallback_index /\ 3 / 10 <= 1 / 2)
  /\ exists r1 s e1 r2 e2,
      get_response Cases.analyzer [] "hello" (3 / 10) fallback_index
      = (Ok (r1, s, e1), fallback_index)
      /\ get_response Cases.analyzer [] "hello" (1 / 2) fallback_index
         = (Ok (r2, s, e2), fallback_index)
      /\ (e1 = true -> e2 = true)
      /\ (e2 = false -> r1 = r2).
Proof.
  assert (H : 3 / 10 <= 1 / 2) by lra.
  split; [split; [exact fallback_installed|exact H]|].
  apply (threshold_is_monotone Cases.analyzer [] fallback_index "hello"
           (3 / 10) (1 / 2) fallback_installed H).
Defined.

Lemma gibberish_is_unknown :
  forall t, In t (vocabulary_ fallback_fitted) ->
            ~ In t (Cases.analyzer gibberish).
Proof.
  intros t Ht. cbn in Ht. vm_compute. intuition (subst; discriminate).
Qed.

Lemma unknown_terms_escalate_witness :
  (installed Cases.analyzer fallback_index
   /\ vectorizer fallback_index = Some (Some fallback_fitted)
   /\ 0 < default_threshold)
  /\ get_response Cases.analyzer [] gibberish default_threshold
                  fallback_index
     = (Ok (handoff_message, 0, true), fallback_index).
Proof.
  assert (H : 0 < default_threshold) by (unfold default_threshold; lra).
  split; [repeat split; [exact fallback_installed|exact H]|].
  apply (unknown_terms_escalate Cases.analyzer [] fallback_index
           fallback_fitted gibberish default_threshold fallback_installed
           eq_refl gibberish_is_unknown H).
Defined.

Lemma send_message_is_served_witness :
  (installed Cases.analyzer (chatbot active_world)
   /\ first (owned_by "token-3" 42) (chat_sessions (db active_world))
      = Some (0%nat, active_session))
  /\ exists reply w',
      send_message Cases.analyzer active_world "token-3" 42 "hello" 6
      = (Ok (Some reply), w')
      /\ chatbot w' = chatbot active_world
      /\ user_message reply = "hello"%string
      /\ (needs_escalation reply = true
          <-> similarity reply < default_threshold)
      /\ (needs_escalation reply = true ->
          bot_response reply = handoff_message).
Proof.
  split; [split; [exact fallback_installed|reflexivity]|].
  apply (send_message_is_served Cases.analyzer active_world "token-3" 42
           "hello" 6 0 active_session fallback_installed eq_refl).
Defined.

Lemma no_retraining :
  Forall (fun op => ~ is_RetrainModel op) some_operations.
Proof. repeat constructor; intros []. Qed.

Lemma send_message_before_first_build_witness :
  (knowledge_vectors (chatbot empty_world) = None
   /\ Forall (fun op => ~ is_RetrainModel op) some_operations)
  /\ chatbot (run_operations Cases.analyzer some_operations empty_world)
     = chatbot empty_world
  /\ first (owned_by "token-1" 42)
           (chat_sessions
              (db (run_operations Cases.analyzer some_operations
                                  empty_world)))
     = Some (0%nat, ChatSession.mk 1 42 "token-1" closed 1 None (Some 3%Z))
  /\ send_message Cases.analyzer
                  (run_operations Cases.analyzer some_operations empty_world)
                  "token-1" 42 "hello" 5
     = (Raised AttributeError,
        run_operations Cases.analyzer some_operations empty_world).
Proof.
  split; [split; [reflexivity|exact no_retraining]|].
  destruct (send_message_before_first_build Cases.analyzer some_operations
              empty_world "token-1" 42 "hello" 5 eq_refl no_retraining)
    as (Hengine & _ & Hraises).
  split; [exact Hengine|]. split; [reflexivity|].
  exact (Hraises 0%nat
                 (ChatSession.mk 1 42 "token-1" closed 1 None (Some 3%Z))
                 eq_refl).
Defined.




Lemma empty_world_one_active : one_active_session_per_user empty_world.
Proof. intros [|i] j s1 s2 H; discriminate. Qed.

Lemma routes_keep_one_active_session_witness :
  one_active_session_per_user empty_world
  /\ one_active_session_per_user
       (serve Cases.analyzer true two_dashboards empty_world)
  /\ chat_sessions (db (serve Cases.analyzer true two_dashboards empty_world))
     = [ChatSession.mk 1 42 "token-9" active 1 None None]
  /\ CurrentUser.role customer = "customer"%string
  /\ first (active_session_of (CurrentUser.id customer))
           (chat_sessions (db empty_world)) = None
  /\ ~ one_active_session_per_user
        (interleaved_dashboards empty_world customer "token-9" 1
                                "token-10" 2)
  /\ chat_sessions
       (db (interleaved_dashboards empty_world customer "token-9" 1
                                   "token-10" 2))
     = [ChatSession.mk 1 42 "token-9" active 1 None None;
        ChatSession.mk 2 42 "token-10" active 2 None None].
Proof.
  split; [exact empty_world_one_active|].
  destruct (routes_keep_one_active_session Cases.analyzer true two_dashboards
              empty_world customer "token-9" "token-10" 1 2
              empty_world_one_active) as (Hserved & Hraced).
  split; [exact Hserved|]. split; [reflexivity|].
  split; [reflexivity|]. split; [reflexivity|].
  split; [exact (Hraced eq_refl eq_refl)|reflexivity].
Defined.

Lemma customers_only :
  Forall (fun r => has_role "agent" (requester r) = false) customer_requests
  /\ Forall (fun r => has_role "admin" (requester r) = false)
            customer_requests.
Proof. split; repeat constructor. Qed.

Lemma only_agents_close_sessions_witness :
  Forall (fun r => has_role "agent" (requester r) = false) customer_requests
  /\ filter is_agent_message
            (chat_messages
               (db (serve Cases.analyzer true customer_requests
                          empty_world)))
     = filter is_agent_message (chat_messages (db empty_world)).
Proof.
  split; [exact (proj1 customers_only)|].
  apply (only_agents_close_sessions Cases.analyzer true customer_requests
           empty_world (proj1 customers_only)).
Defined.

Lemma only_admins_change_knowledge_witness :
  Forall (fun r => has_role "admin" (requester r) = false) customer_requests
  /\ knowledge_base
       (db (serve Cases.analyzer true customer_requests
                  (world_of [closed_session])))
     = knowledge_base (db (world_of [closed_session])).
Proof.
  split; [exact (proj2 customers_only)|].
  apply (only_admins_change_knowledge Cases.analyzer true customer_requests
           (world_of [closed_session]) (proj2 customers_only)).
Defined.

Lemma manage_knowledge_base_retrains_witness :
  (CurrentUser.role admin = "admin"%string
   /\ write_knowledge true (knowledge_base (db empty_world))
                      (Post "What are your business hours?" "Nine to six."
                            None None) 1
      = Some [KnowledgeBase.mk 1 "What are your business hours?"
                               "Nine to six." "general" EmptyString true])
  /\ db (snd (manage_knowledge_base
                Cases.analyzer true empty_world admin
                (Post "What are your business hours?" "Nine to six." None
                      None) 1))
     = mkDatabase
         [KnowledgeBase.mk 1 "What are your business hours?" "Nine to six."
                           "general" EmptyString true]
         [] [].
Proof.
  split; [split; reflexivity|].
  apply (manage_knowledge_base_retrains Cases.analyzer true empty_world admin
           (Post "What are your business hours?" "Nine to six." None None) 1
           [KnowledgeBase.mk 1 "What are your business hours?" "Nine to six."
                             "general" EmptyString true]
           eq_refl eq_refl).
Defined.

Lemma api_send_message_outcomes_witness :
  (missing (Some EmptyString) || missing (Some "hello"%string) = true
   /\ api_send_message Cases.analyzer active_world customer
                       (Some EmptyString) (Some "hello"%string) 6
      = (Ok (Failed 400 "Missing parameters"), active_world))
  /\ (first (owned_by "token-0" 42) (chat_sessions (db active_world)) = None
      /\ api_send_message Cases.analyzer active_world customer
                          (Some "token-0"%string) (Some "hello"%string) 6
         = (Ok (Failed 404 "Session not found"), active_world))
  /\ (first (owned_by "token-3" 42) (chat_sessions (db active_world))
      = Some (0%nat, active_session)
      /\ get_response Cases.analyzer (knowledge_base (db active_world))
                      gibberish default_threshold (chatbot active_world)
         = (Ok (handoff_message, 0%R, true), fallback_index)
      /\ exists reply w',
          api_send_message Cases.analyzer active_world customer
                           (Some "token-3"%string) (Some gibberish) 6
          = (Ok (Rendered reply), w')
          /\ user_message reply = gibberish
          /\ bot_response reply = handoff_message
          /\ similarity reply = 0%R
          /\ needs_escalation reply = true
          /\ chatbot w' = fallback_index
          /\ knowledge_base (db w') = knowledge_base (db active_world)
          /\ chat_messages (db w')
             = chat_messages (db active_world)
               ++ [ChatMessage.mk 1 3 user gibberish 6 false;
                   ChatMessage.mk 2 3 bot handoff_message 6 true]).
Proof.
  assert (Hne : forall a s, String a s <> EmptyString) by discriminate.
  split; [split; [reflexivity|]|split; [split; [reflexivity|]|]].
  - exact (proj1 (api_send_message_outcomes
                    Cases.analyzer active_world customer (Some EmptyString)
                    (Some "hello"%string) 6) eq_refl).
  - exact (proj1 (proj2 (api_send_message_outcomes
                           Cases.analyzer active_world customer
                           (Some "token-0"%string) (Some "hello"%string) 6)
                        "token-0"%string "hello"%string eq_refl eq_refl
                        (Hne _ _) (Hne _ _))
                 eq_refl).
  - split; [reflexivity|]. split; [exact (gibberish_fallback [])|].
    exact (proj2 (proj2 (proj2 (api_send_message_outcomes
                                  Cases.analyzer active_world customer
                                  (Some "token-3"%string) (Some gibberish) 6)
                               "token-3"%string gibberish eq_refl eq_refl
                               (Hne _ _) (Hne _ _))
                        0%nat active_session eq_refl)
                 handoff_message 0%R true fallback_index
                 (gibberish_fallback [])).
Defined.

Lemma hello_is_not_about_hours :
  forall t, In t (Cases.analyzer "hello") ->
            ~ In t (Cases.analyzer "What are your business hours?").
Proof. intros t Ht. vm_compute in Ht |- *. intuition (subst; discriminate). Qed.

Lemma first_entry_replaces_greetings_witness :
  (CurrentUser.role admin = "admin"%string
   /\ true = true
   /\ filter KnowledgeBase.is_active (knowledge_base (db (world_of []))) = []
   /\ fst (manage_knowledge_base
             Cases.analyzer true (world_of []) admin
             (Post "What are your business hours?" "Nine to six." None None)
             1)
      = Ok (Rendered (Some 1%nat))
   /\ (forall t, In t (Cases.analyzer "hello") ->
                 ~ In t (Cases.analyzer "What are your business hours?")))
  /\ get_response Cases.analyzer [] "hello" default_threshold
                  (chatbot (world_of []))
     = (Ok ("Hello! How can I help you today?"%string, 1%R, false),
        chatbot (world_of []))
  /\ questions
       (chatbot
          (snd (manage_knowledge_base
                  Cases.analyzer true (world_of []) admin
                  (Post "What are your business hours?" "Nine to six." None
                        None) 1)))
     = Some ["What are your business hours?"%string]
  /\ answers
       (chatbot
          (snd (manage_knowledge_base
                  Cases.analyzer true (world_of []) admin
                  (Post "What are your business hours?" "Nine to six." None
                        None) 1)))
     = Some ["Nine to six."%string]
  /\ get_response
       Cases.analyzer [] "hello" default_threshold
       (chatbot
          (snd (manage_knowledge_base
                  Cases.analyzer true (world_of []) admin
                  (Post "What are your business hours?" "Nine to six." None
                        None) 1)))
     = (Ok (handoff_message, 0%R, true),
        chatbot
          (snd (manage_knowledge_base
                  Cases.analyzer true (world_of []) admin
                  (Post "What are your business hours?" "Nine to six." None
                        None) 1))).
Proof.
  split.
  - split; [reflexivity|]. split; [reflexivity|]. split; [reflexivity|].
    split; [reflexivity|exact hello_is_not_about_hours].
  - split; [exact (hello_fallback [])|].
    apply (first_entry_replaces_greetings
             Cases.analyzer true (world_of []) admin
             "What are your business hours?" "Nine to six." None None 1
             (Some 1%nat) "hello" []
             eq_refl eq_refl eq_refl eq_refl hello_is_not_about_hours).
Defined.

Lemma two_users_unique :
  NoDup (map User.username two_users) /\ NoDup (map User.email two_users).
Proof.
  split; cbn; repeat constructor; cbn; intuition discriminate.
Qed.

Lemma register_keeps_names_unique_witness :
  (NoDup (map User.username two_users) /\ NoDup (map User.email two_users))
  /\ (snd (register true two_users "ada" "countess@example.org" None "hash" 3)
      = two_users
      /\ NoDup (map User.username
                    (snd (register true two_users "ada"
                                   "countess@example.org" None "hash" 3))))
  /\ (snd (register true two_users "eve" "bob@example.org" None "hash" 3)
      = two_users
      /\ NoDup (map User.email
                    (snd (register true two_users "eve" "bob@example.org"
                                   None "hash" 3))))
  /\ (map User.username
          (snd (register true two_users "eve" "eve@example.org"
                         (Some "admin"%string) "hash" 3))
      = ["ada"; "bob"; "eve"]%string
      /\ NoDup (map User.username
                    (snd (register true two_users "eve" "eve@example.org"
                                   (Some "admin"%string) "hash" 3)))
      /\ NoDup (map User.email
                    (snd (register true two_users "eve" "eve@example.org"
                                   (Some "admin"%string) "hash" 3)))).
Proof.
  split; [exact two_users_unique|].
  split; [split; [reflexivity|]|split; [split; [reflexivity|]|]].
  - exact (proj1 (register_keeps_names_unique
                    true two_users "ada" "countess@example.org" None "hash" 3
                    (proj1 two_users_unique) (proj2 two_users_unique))).
  - exact (proj2 (register_keeps_names_unique
                    true two_users "eve" "bob@example.org" None "hash" 3
                    (proj1 two_users_unique) (proj2 two_users_unique))).
  - split; [reflexivity|].
    exact (register_keeps_names_unique
             true two_users "eve" "eve@example.org" (Some "admin"%string)
             "hash" 3 (proj1 two_users_unique) (proj2 two_users_unique)).
Defined.

End Instances.
